(** * Crypto price dashboard: a shallow embedding of the browser scripts

    The development follows the scripts of the front end: the home page
    script (theme, coin grid, coin modal with its chart, local-storage
    portfolio) and the older scripts [main.js], [charts.js] and
    [portfolio.js], each on the page it serves.

    JavaScript Numbers are IEEE-754 doubles and are modelled by Rocq's
    primitive [float]; time values are integral milliseconds in [Z];
    strings are byte strings holding the UTF-8 text of the source. *)

From Stdlib Require Import ZArith List String Ascii Bool Lia Floats.
From Stdlib Require Import DecimalString.
Import ListNotations.

Local Open Scope string_scope.
Local Open Scope list_scope.

(** ** JavaScript values the scripts compute with *)

Module JS.

(** [ToBoolean] on a Number: [+0], [-0] and [NaN] are falsy. *)
Definition truthy (x : float) : bool := negb (is_zero x || is_nan x).

(** A field of a JSON response: missing ([undefined]), or any JSON value:
    [null], a Number, a Boolean, a String, an array, an object. *)
#[local] Set Warnings "-register-all".
Inductive value : Type :=
| Undefined
| Null
| Num (x : float)
| Bool (b : bool)
| Str (s : string)
| Arr (items : list value)
| Obj (members : list (string * value)).
#[local] Set Warnings "register-all".

(** [ToBoolean]: the falsy values are [undefined], [null], [false], the
    zeros, [NaN] and the empty String. *)
Definition toBoolean (v : value) : bool :=
  match v with
  | Undefined | Null => false
  | Num x => truthy x
  | Bool b => b
  | Str s => negb (String.eqb s "")
  | Arr _ | Obj _ => true
  end.

(** [x || d] for a string operand: the empty string is falsy, and so is
    the [undefined] of a missing element ([None]). *)
Definition or_string (x : option string) (d : string) : string :=
  match x with
  | Some s => if String.eqb s "" then d else s
  | None => d
  end.

(** What [JSON.parse (JSON.stringify x)] gives back for a Number [x]:
    [NaN] and the infinities are written as [null], negative zero is
    written as [0], every other double is printed with enough digits to
    read back as the same double. *)
Definition json_number (x : float) : option float :=
  if is_finite x then Some (if is_zero x then zero else x) else None.

(** [v + y] where [v] came out of [JSON.parse]: [null] converts to [+0]. *)
Definition plus (v : option float) (y : float) : float :=
  match v with
  | Some x => (x + y)%float
  | None => (zero + y)%float
  end.

End JS.

(** ** The host: what the browser supplies to the scripts *)

Record Host : Type := {
  (** the global [parseFloat] *)
  parseFloat : string -> float;
  (** [new Intl.NumberFormat("en-IN", {maximumFractionDigits: 2}).format]
      on a Number; [None] when the call throws (no [Intl] in the browser) *)
  intlFormat : float -> option string;
  (** [Math.round] *)
  Math_round : float -> float;
  (** [Number.prototype.toString] *)
  numberToString : float -> string;
  (** [LocalTZA(t, isUTC)]: offset of local time from UTC, in milliseconds *)
  LocalTZA : Z -> bool -> Z;
  (** whether [new Chart] throws on a canvas that already carries a chart
      (Chart.js 3 and later) or stacks another instance on it (Chart.js 2) *)
  chartRefusesBusyCanvas : bool;
  (** [StringToNumber]: the Number that a String converts to *)
  stringToNumber : string -> float;
  (** the [format] of [intlFormat] on a String argument, which the method
      reads as decimal text; [None] when the call throws *)
  intlFormatString : string -> option string
}.

(** ** Dates: the abstract operations behind [Date]

    A [Date] object holds a time value: integral milliseconds since the
    epoch in UTC, or [NaN] for an invalid date ([None] here).  The calendar
    is the proleptic Gregorian one; [getDate] and [setDate] work in the
    host's local time, [toISOString] works in UTC. *)

Module Dates.

Local Open Scope string_scope.
Local Open Scope Z_scope.

Definition msPerDay : Z := 86400000.
Definition maxTimeValue : Z := 8640000000000000.

Definition Day (t : Z) : Z := t / msPerDay.
Definition TimeWithinDay (t : Z) : Z := t mod msPerDay.

(** Day number (days since 1970-01-01) to year, month (1..12), day of
    month (1..31), by 400-year eras counted from March 1st. *)
Definition civil_from_days (z : Z) : Z * Z * Z :=
  let z := z + 719468 in
  let era := z / 146097 in
  let doe := z mod 146097 in
  let yoe := (doe - doe / 1460 + doe / 36524 - doe / 146096) / 365 in
  let doy := doe - (365 * yoe + yoe / 4 - yoe / 100) in
  let mp := (5 * doy + 2) / 153 in
  let d := doy - (153 * mp + 2) / 5 + 1 in
  let m := if mp <? 10 then mp + 3 else mp - 9 in
  let y := yoe + era * 400 in
  (if m <=? 2 then y + 1 else y, m, d).

(** Year, month (1..12) and day of month to day number; the day of month
    may lie outside the month, the result then runs on into the
    neighbouring months. *)
Definition days_from_civil (y m d : Z) : Z :=
  let y := if m <=? 2 then y - 1 else y in
  let era := y / 400 in
  let yoe := y mod 400 in
  let doy := (153 * (if m <=? 2 then m + 9 else m - 3) + 2) / 5 + d - 1 in
  let doe := yoe * 365 + yoe / 4 - yoe / 100 + doy in
  era * 146097 + doe - 719468.

Definition YearFromTime (t : Z) : Z := fst (fst (civil_from_days (Day t))).
(** months are numbered from 0 in the language *)
Definition MonthFromTime (t : Z) : Z := snd (fst (civil_from_days (Day t))) - 1.
Definition DateFromTime (t : Z) : Z := snd (civil_from_days (Day t)).

Definition HourFromTime (t : Z) : Z := (t / 3600000) mod 24.
Definition MinFromTime (t : Z) : Z := (t / 60000) mod 60.
Definition SecFromTime (t : Z) : Z := (t / 1000) mod 60.
Definition msFromTime (t : Z) : Z := t mod 1000.

Definition MakeDay (year month date : Z) : Z :=
  let ym := year + month / 12 in
  let mn := month mod 12 in
  days_from_civil ym (mn + 1) 1 + date - 1.

Definition MakeDate (day time : Z) : Z := day * msPerDay + time.

Definition TimeClip (t : Z) : option Z :=
  if Z.abs t <=? maxTimeValue then Some t else None.

(** A [Date] object, by its time value. *)
Definition Date : Type := option Z.

(** [new Date(value)] for a Number of milliseconds. *)
Definition Date_of_number (ms : Z) : Date := TimeClip ms.

(** [new Date(d)] for a [Date] object [d]: a copy with the same time value. *)
Definition Date_copy (d : Date) : Date := d.

(** Decimal digits of a natural number, padded with zeros to [width]. *)
Definition digits (n : Z) : string :=
  NilZero.string_of_uint (N.to_uint (Z.to_N n)).

Fixpoint zeros (k : nat) : string :=
  match k with
  | O => ""
  | S k' => String "0" (zeros k')
  end.

Definition pad (width : nat) (n : Z) : string :=
  let s := digits n in
  zeros (width - String.length s) ++ s.

Definition isoYear (y : Z) : string :=
  if (0 <=? y) && (y <=? 9999) then pad 4 y
  else (if y <? 0 then "-" else "+") ++ pad 6 (Z.abs y).

(** [toISOString]: a [RangeError] ([None]) on an invalid date. *)
Definition toISOString (d : Date) : option string :=
  match d with
  | None => None
  | Some t =>
      Some (isoYear (YearFromTime t) ++ "-" ++ pad 2 (MonthFromTime t + 1)
            ++ "-" ++ pad 2 (DateFromTime t)
            ++ "T" ++ pad 2 (HourFromTime t) ++ ":" ++ pad 2 (MinFromTime t)
            ++ ":" ++ pad 2 (SecFromTime t) ++ "." ++ pad 3 (msFromTime t)
            ++ "Z")
  end.

(** [s.slice(0, 10)] *)
Definition slice_0_10 (s : string) : string := String.substring 0 10 s.

Section Local.

Variable H : Host.

Definition LocalTime (t : Z) : Z := t + LocalTZA H t true.
Definition UTC (t : Z) : Z := t - LocalTZA H t false.

(** [d.getDate()]: [NaN] ([None]) on an invalid date. *)
Definition getDate (d : Date) : option Z :=
  match d with
  | None => None
  | Some t => Some (DateFromTime (LocalTime t))
  end.

(** [d.setDate(dt)]: the day of month is replaced in local time and the
    result is converted back to UTC and clipped. *)
Definition setDate (d : Date) (dt : option Z) : Date :=
  match d, dt with
  | Some t, Some dt =>
      let lt := LocalTime t in
      let newDate :=
        MakeDate (MakeDay (YearFromTime lt) (MonthFromTime lt) dt)
                 (TimeWithinDay lt) in
      TimeClip (UTC newDate)
  | _, _ => None
  end.

End Local.

End Dates.

(** ** The home page script: data *)

Definition INR_SYMBOL : string := "₹".

Record Coin : Type := {
  coin_id : string;
  coin_symbol : string;
  coin_name : string;
  coin_img : string
}.

Definition COINS : list Coin := [
  {| coin_id := "bitcoin";          coin_symbol := "BTC";  coin_name := "Bitcoin";      coin_img := "/static/images/btc.png" |};
  {| coin_id := "ethereum";         coin_symbol := "ETH";  coin_name := "Ethereum";     coin_img := "/static/images/eth.png" |};
  {| coin_id := "ripple";           coin_symbol := "XRP";  coin_name := "XRP";          coin_img := "/static/images/xrp.png" |};
  {| coin_id := "tether";           coin_symbol := "USDT"; coin_name := "Tether";       coin_img := "/static/images/usdt.png" |};
  {| coin_id := "binancecoin";      coin_symbol := "BNB";  coin_name := "BNB";          coin_img := "/static/images/bnb.png" |};
  {| coin_id := "solana";           coin_symbol := "SOL";  coin_name := "Solana";       coin_img := "/static/images/sol.png" |};
  {| coin_id := "usd-coin";         coin_symbol := "USDC"; coin_name := "USD Coin";     coin_img := "/static/images/usdc.png" |};
  {| coin_id := "dogecoin";         coin_symbol := "DOGE"; coin_name := "Dogecoin";     coin_img := "/static/images/doge.png" |};
  {| coin_id := "tron";             coin_symbol := "TRX";  coin_name := "TRON";         coin_img := "/static/images/trx.png" |};
  {| coin_id := "cardano";          coin_symbol := "ADA";  coin_name := "Cardano";      coin_img := "/static/images/ada.png" |};
  {| coin_id := "chainlink";        coin_symbol := "LINK"; coin_name := "Chainlink";    coin_img := "/static/images/link.png" |};
  {| coin_id := "hyperliquid";      coin_symbol := "HYPE"; coin_name := "Hyperliquid";  coin_img := "/static/images/hype.png" |};
  {| coin_id := "stellar";          coin_symbol := "XLM";  coin_name := "Stellar";      coin_img := "/static/images/xlm.png" |};
  {| coin_id := "sui";              coin_symbol := "SUI";  coin_name := "Sui";          coin_img := "/static/images/sui.png" |};
  {| coin_id := "bitcoin-cash";     coin_symbol := "BCH";  coin_name := "Bitcoin Cash"; coin_img := "/static/images/bch.png" |};
  {| coin_id := "hedera-hashgraph"; coin_symbol := "HBAR"; coin_name := "Hedera";       coin_img := "/static/images/hbar.png" |};
  {| coin_id := "ethena-usde";      coin_symbol := "USDe"; coin_name := "Ethena USDe";  coin_img := "/static/images/usde.png" |};
  {| coin_id := "avalanche-2";      coin_symbol := "AVAX"; coin_name := "Avalanche";    coin_img := "/static/images/avax.png" |};
  {| coin_id := "litecoin";         coin_symbol := "LTC";  coin_name := "Litecoin";     coin_img := "/static/images/ltc.png" |};
  {| coin_id := "the-open-network"; coin_symbol := "TON";  coin_name := "Toncoin";      coin_img := "/static/images/ton.png" |}
].

(** The own properties of the [ABOUT] object. *)
Definition ABOUT : list (string * string) := [
  ("BTC", "Bitcoin is the first decentralized digital currency, secured by a global network...");
  ("ETH", "Ethereum is a programmable blockchain enabling smart contracts...");
  ("XRP", "XRP is designed for fast, low-cost cross-border payments...");
  ("USDT", "Tether (USDT) is a fiat-pegged stablecoin...");
  ("BNB", "BNB is the native token of BNB Chain...");
  ("SOL", "Solana is a high-performance blockchain...");
  ("USDC", "USD Coin is a fully-reserved stablecoin...");
  ("DOGE", "Dogecoin began as a meme coin...");
  ("TRX", "TRON focuses on high throughput...");
  ("ADA", "Cardano emphasizes peer-reviewed research...");
  ("LINK", "Chainlink provides decentralized oracle services...");
  ("HYPE", "Hyperliquid is associated with a derivatives ecosystem...");
  ("XLM", "Stellar targets cross-border payments...");
  ("SUI", "Sui is a high-throughput L1 based on Move...");
  ("BCH", "Bitcoin Cash is a fork of Bitcoin...");
  ("HBAR", "Hedera is a high-speed network using hashgraph...");
  ("USDe", "Ethena USDe is a synthetic dollar...");
  ("AVAX", "Avalanche is a smart contract platform...");
  ("LTC", "Litecoin is a long-standing peer-to-peer cryptocurrency...");
  ("TON", "Toncoin powers The Open Network...")
].

(** Property lookup in an object used as a table. *)
Fixpoint lookup {A : Type} (key : string) (table : list (string * A)) : option A :=
  match table with
  | [] => None
  | (k, v) :: rest => if String.eqb k key then Some v else lookup key rest
  end.

(** ** The page: the part of the browser state the script reads and writes *)

(** One element of the persisted portfolio list.  The quantity read back
    from storage is a Number or [null] ([None]). *)
Record Entry : Type := {
  entry_symbol : string;
  entry_name : string;
  entry_qty : option float
}.

(** [localStorage], by the two keys the scripts use: the text stored under
    ["theme"], and the list denoted by the JSON text stored under
    ["portfolio"].  [None] is a key that was never set. *)
Record Storage : Type := {
  item_theme : option string;
  item_portfolio : option (list Entry)
}.

(** Form controls; [None] when the page has no such element. *)
Record Controls : Type := {
  themeToggle : option bool;      (* #themeToggle: checked *)
  modeQty : option bool;          (* #modeQty: checked *)
  modeBudget : option bool;       (* #modeBudget: checked *)
  inputQty : option string;       (* #inputQty: value *)
  inputBudget : option string     (* #inputBudget: value *)
}.

Inductive Notice : Type :=
| Alert (msg : string)            (* window.alert *)
| Toast (msg : string).           (* a bootstrap toast shown *)

Record Notifier : Type := {
  appToast : bool;                (* whether #appToast exists *)
  toastBody : string;             (* #toastBody: textContent *)
  notices : list Notice;          (* what the user was shown, oldest first *)
  consoleErrors : nat             (* console.error calls *)
}.

(** A coin card of the grid: the texts that fill the holes of the card
    markup. *)
Record Card : Type := {
  data_symbol : string;
  data_id : string;
  data_name : string;
  img_src : string;
  priceText : string
}.

Record Grid : Type := {
  coinGrid : option string;       (* #coinGrid: the markup last assigned to
                                     innerHTML; [None]: no such element *)
  globalSpinner : option string   (* #globalSpinner: style.display *)
}.

Record Dataset : Type := {
  ds_label : string;
  ds_data : list JS.value;
  ds_borderDash : list Z
}.

(** A live Chart.js instance. *)
Record Chart : Type := {
  chart_id : nat;
  chart_labels : list string;
  chart_datasets : list Dataset
}.

Record Charts : Type := {
  chart : option nat;             (* the script's [chart] variable *)
  priceChart : list Chart;        (* instances attached to the #priceChart canvas *)
  nextChartId : nat
}.

(** The coin modal.  [btnAddPortfolio] holds the arguments captured by the
    click handler installed on the button. *)
Record Modal : Type := {
  modalLogo : string;
  modalName : string;
  modalSymbol : string;
  modalAbout : string;
  modalCurrent : string;
  pred3m : string;
  pred6m : string;
  pred1y : string;
  btnAddPortfolio : option (string * string * JS.value);
  modeHandlers : bool;            (* onchange installed on both radio buttons *)
  qtyGroup : string;              (* #qtyGroup: style.display *)
  budgetGroup : string;           (* #budgetGroup: style.display *)
  shown : bool
}.

Record Page : Type := {
  localStorage : Storage;
  dataTheme : option string;      (* data-theme attribute of the root element *)
  controls : Controls;
  notifier : Notifier;
  grid : Grid;
  modal : Modal;
  charts : Charts
}.

Definition with_localStorage (v : Storage) (pg : Page) : Page :=
  {| localStorage := v; dataTheme := dataTheme pg; controls := controls pg;
     notifier := notifier pg; grid := grid pg; modal := modal pg;
     charts := charts pg |}.
Definition with_dataTheme (v : option string) (pg : Page) : Page :=
  {| localStorage := localStorage pg; dataTheme := v; controls := controls pg;
     notifier := notifier pg; grid := grid pg; modal := modal pg;
     charts := charts pg |}.
Definition with_controls (v : Controls) (pg : Page) : Page :=
  {| localStorage := localStorage pg; dataTheme := dataTheme pg; controls := v;
     notifier := notifier pg; grid := grid pg; modal := modal pg;
     charts := charts pg |}.
Definition with_notifier (v : Notifier) (pg : Page) : Page :=
  {| localStorage := localStorage pg; dataTheme := dataTheme pg;
     controls := controls pg; notifier := v; grid := grid pg; modal := modal pg;
     charts := charts pg |}.
Definition with_grid (v : Grid) (pg : Page) : Page :=
  {| localStorage := localStorage pg; dataTheme := dataTheme pg;
     controls := controls pg; notifier := notifier pg; grid := v;
     modal := modal pg; charts := charts pg |}.
Definition with_modal (v : Modal) (pg : Page) : Page :=
  {| localStorage := localStorage pg; dataTheme := dataTheme pg;
     controls := controls pg; notifier := notifier pg; grid := grid pg;
     modal := v; charts := charts pg |}.
Definition with_charts (v : Charts) (pg : Page) : Page :=
  {| localStorage := localStorage pg; dataTheme := dataTheme pg;
     controls := controls pg; notifier := notifier pg; grid := grid pg;
     modal := modal pg; charts := v |}.

(** The outcome of a request: the promise of [fetch] rejects, or a response
    arrives with its [ok] flag and a body that [json()] can parse or not. *)
Inductive HttpResult (A : Type) : Type :=
| NetworkError
| Response (ok : bool) (json : option A).
Arguments NetworkError {A}.
Arguments Response {A} ok json.

(** ** Scripts: state passing with exceptions

    A script step runs on the page and either completes with a value or
    throws; the page changes made before a throw stay. *)

Inductive Completion (A : Type) : Type :=
| Normal (a : A)
| Throw.
Arguments Normal {A} a.
Arguments Throw {A}.

Definition Script (A : Type) : Type := Page -> Completion A * Page.

Definition ret {A : Type} (a : A) : Script A := fun pg => (Normal a, pg).
Definition throw {A : Type} : Script A := fun pg => (Throw, pg).
Definition bind {A B : Type} (c : Script A) (k : A -> Script B) : Script B :=
  fun pg =>
    match c pg with
    | (Normal a, pg') => k a pg'
    | (Throw, pg') => (Throw, pg')
    end.
Definition modify (f : Page -> Page) : Script unit :=
  fun pg => (Normal tt, f pg).
Definition lift {A : Type} (c : Completion A) : Script A := fun pg => (c, pg).
Definition try_catch (body handler : Script unit) : Script unit :=
  fun pg =>
    match body pg with
    | (Normal a, pg') => (Normal a, pg')
    | (Throw, pg') => handler pg'
    end.
Definition run (c : Script unit) (pg : Page) : Page := snd (c pg).

Notation "x <- c ;; k" := (bind c (fun x => k))
  (at level 61, c at next level, right associativity).
Notation "c ;;; k" := (bind c (fun _ => k))
  (at level 61, right associativity).

(** ** Theme *)

Definition setTheme (mode : string) (pg : Page) : Page :=
  let pg := with_dataTheme (Some mode) pg in
  with_localStorage
    {| item_theme := Some mode;
       item_portfolio := item_portfolio (localStorage pg) |} pg.

Definition set_themeToggle (checked : bool) (c : Controls) : Controls :=
  {| themeToggle := Some checked; modeQty := modeQty c;
     modeBudget := modeBudget c; inputQty := inputQty c;
     inputBudget := inputBudget c |}.

Definition initTheme (pg : Page) : Page :=
  let saved := JS.or_string (item_theme (localStorage pg)) "light" in
  let pg := setTheme saved pg in
  match themeToggle (controls pg) with
  | Some _ =>
      with_controls (set_themeToggle (String.eqb saved "dark") (controls pg)) pg
  | None => pg
  end.

(** The [change] listener of the theme switch; nothing is registered when
    the page has no switch. *)
Definition themeToggle_change (pg : Page) : Page :=
  match themeToggle (controls pg) with
  | Some checked => setTheme (if checked then "dark" else "light") pg
  | None => pg
  end.

(** The user flips the switch: the browser inverts [checked] and fires
    [change]. *)
Definition flipThemeToggle (pg : Page) : Page :=
  match themeToggle (controls pg) with
  | Some checked =>
      themeToggle_change
        (with_controls (set_themeToggle (negb checked) (controls pg)) pg)
  | None => pg
  end.

(** ** Helpers *)

Definition Prices : Type := list (string * JS.value).

Fixpoint join (sep : string) (l : list string) : string :=
  match l with
  | [] => ""
  | [x] => x
  | x :: rest => (x ++ sep ++ join sep rest)%string
  end.

Definition simple_price_url (catalog : list Coin) : string :=
  ("/api/simple_price?ids=" ++ join "," (map coin_id catalog)
   ++ "&vs_currency=inr")%string.

Definition fetchLivePricesInINR (res : HttpResult Prices) : Completion Prices :=
  match res with
  | NetworkError => Throw
  | Response false _ => Throw                 (* "price failed" *)
  | Response true None => Throw
  | Response true (Some prices) => Normal prices
  end.

(** [ToString] of a value.  An array joins the texts of its elements with
    commas, [null] and [undefined] elements giving the empty text; an
    object of a JSON response prints as [[object Object]]. *)
Fixpoint toString (H : Host) (v : JS.value) : string :=
  match v with
  | JS.Undefined => "undefined"
  | JS.Null => "null"
  | JS.Num x => numberToString H x
  | JS.Bool b => if b then "true" else "false"
  | JS.Str s => s
  | JS.Arr items =>
      join ","
        (map (fun e =>
                match e with
                | JS.Undefined | JS.Null => ""
                | _ => toString H e
                end) items)
  | JS.Obj _ => "[object Object]"
  end.

(** [ToNumber] of a value: what the operators [*] and [/] compute with.
    An array or an object converts by way of its text. *)
Definition ToNumber (H : Host) (v : JS.value) : float :=
  match v with
  | JS.Undefined => nan
  | JS.Null => 0%float
  | JS.Num x => x
  | JS.Bool b => if b then 1%float else 0%float
  | JS.Str s => stringToNumber H s
  | JS.Arr _ | JS.Obj _ => stringToNumber H (toString H v)
  end.

(** [new Intl.NumberFormat(...).format(n)]: a String, and an array or an
    object by way of its text, is read as decimal text; every other value
    is formatted as its Number. *)
Definition format (H : Host) (n : JS.value) : option string :=
  match n with
  | JS.Str s => intlFormatString H s
  | JS.Arr _ | JS.Obj _ => intlFormatString H (toString H n)
  | JS.Undefined | JS.Null | JS.Num _ | JS.Bool _ => intlFormat H (ToNumber H n)
  end.

Definition formatINR (H : Host) (n : JS.value) : string :=
  match format H n with
  | Some s => (INR_SYMBOL ++ s)%string
  | None =>
      (INR_SYMBOL
       ++ numberToString H (Math_round H (ToNumber H n * 100) / 100)%float)%string
  end.

Definition toast (msg : string) (pg : Page) : Page :=
  let n := notifier pg in
  if appToast n then
    with_notifier
      {| appToast := appToast n; toastBody := msg;
         notices := notices n ++ [Toast msg];
         consoleErrors := consoleErrors n |} pg
  else
    with_notifier
      {| appToast := appToast n; toastBody := toastBody n;
         notices := notices n ++ [Alert msg];
         consoleErrors := consoleErrors n |} pg.

Definition console_error (pg : Page) : Page :=
  let n := notifier pg in
  with_notifier
    {| appToast := appToast n; toastBody := toastBody n; notices := notices n;
       consoleErrors := S (consoleErrors n) |} pg.

(** ** Markup: how the browser reads the text assigned to [innerHTML]

    The fragment case of the HTML parser for a context element that takes
    flow content (a [div]): the tokenizer states that tags and text go
    through, and the tree construction of the "in body" insertion mode for
    the elements [div], [span] and [img].  The parser works on code
    points; every character it treats specially is ASCII, so the bytes of
    the UTF-8 text are read here.  [None] stands for markup outside this
    fragment of the language: a character reference ([&]), a comment or a
    declaration ([<!], [<?]), another element, and the characters NUL and
    CR, which the parser rewrites. *)

Module HTML.

#[local] Set Warnings "-register-all".
Inductive Node : Type :=
| Element (name : string) (attrs : list (string * string)) (children : list Node)
| Text (data : string).
#[local] Set Warnings "register-all".

Definition dquote : ascii := Ascii false true false false false true false false.

(** Tab, line feed, form feed and space. *)
Definition is_whitespace (c : ascii) : bool :=
  Ascii.eqb c "009" || Ascii.eqb c "010" || Ascii.eqb c "012" || Ascii.eqb c " ".

Definition is_upper (c : ascii) : bool :=
  (65 <=? N_of_ascii c)%N && (N_of_ascii c <=? 90)%N.

Definition is_alpha (c : ascii) : bool :=
  is_upper c || ((97 <=? N_of_ascii c)%N && (N_of_ascii c <=? 122)%N).

Definition lower (c : ascii) : ascii :=
  if is_upper c then ascii_of_N (N_of_ascii c + 32) else c.

Definition snoc (s : string) (c : ascii) : string := (s ++ String c "")%string.

(** *** Tokenization *)

(** The tag token under construction. *)
Record Tag : Type := {
  closing : bool;                         (* an end tag *)
  tname : string;
  tattrs : list (string * string)
}.

Inductive Token : Type :=
| StartTag (name : string) (attrs : list (string * string)) (selfClosing : bool)
| EndTag (name : string)
| Character (c : ascii).

(** The states of the tokenizer, with the tag, the attribute name and the
    attribute value read so far. *)
Inductive State : Type :=
| Data
| TagOpen
| EndTagOpen
| TagName (t : Tag)
| BeforeAttrName (t : Tag)
| AttrName (t : Tag) (n : string)
| AfterAttrName (t : Tag) (n : string)
| BeforeAttrValue (t : Tag) (n : string)
| AttrValueDQ (t : Tag) (n v : string)
| AttrValueSQ (t : Tag) (n v : string)
| AttrValueUQ (t : Tag) (n v : string)
| AfterAttrValueQ (t : Tag)
| SelfClosingStartTag (t : Tag).

(** An attribute joins its tag unless the tag has one of that name. *)
Definition add_attr (t : Tag) (n v : string) : Tag :=
  if existsb (fun a => String.eqb (fst a) n) (tattrs t) then t
  else {| closing := closing t; tname := tname t;
          tattrs := tattrs t ++ [(n, v)] |}.

Definition name_char (t : Tag) (c : ascii) : Tag :=
  {| closing := closing t; tname := snoc (tname t) (lower c);
     tattrs := tattrs t |}.

(** The token of a finished tag; the attributes of an end tag are dropped. *)
Definition emit (t : Tag) (selfClosing : bool) : Token :=
  if closing t then EndTag (tname t) else StartTag (tname t) (tattrs t) selfClosing.

(** What a state does with a character: the next state and the tokens
    emitted.  A state that hands the character on to another state
    ("reconsume") calls that state's function. *)
Definition Step : Type := option (State * list Token).

Definition in_data (c : ascii) : Step :=
  if Ascii.eqb c "&" then None
  else if Ascii.eqb c "<" then Some (TagOpen, [])
  else Some (Data, [Character c]).

Definition in_attr_name (t : Tag) (n : string) (c : ascii) : Step :=
  if is_whitespace c then Some (AfterAttrName t n, [])
  else if Ascii.eqb c "/" then Some (SelfClosingStartTag (add_attr t n ""), [])
  else if Ascii.eqb c ">" then Some (Data, [emit (add_attr t n "") false])
  else if Ascii.eqb c "=" then Some (BeforeAttrValue t n, [])
  else Some (AttrName t (snoc n (lower c)), []).

Definition in_before_attr_name (t : Tag) (c : ascii) : Step :=
  if is_whitespace c then Some (BeforeAttrName t, [])
  else if Ascii.eqb c "/" then Some (SelfClosingStartTag t, [])
  else if Ascii.eqb c ">" then Some (Data, [emit t false])
  else if Ascii.eqb c "=" then Some (AttrName t "=", [])
  else in_attr_name t "" c.

Definition in_attr_value_uq (t : Tag) (n v : string) (c : ascii) : Step :=
  if is_whitespace c then Some (BeforeAttrName (add_attr t n v), [])
  else if Ascii.eqb c "&" then None
  else if Ascii.eqb c ">" then Some (Data, [emit (add_attr t n v) false])
  else Some (AttrValueUQ t n (snoc v c), []).

Definition step (st : State) (c : ascii) : Step :=
  if Ascii.eqb c "000" || Ascii.eqb c "013" then None
  else
    match st with
    | Data => in_data c
    | TagOpen =>
        if Ascii.eqb c "/" then Some (EndTagOpen, [])
        else if is_alpha c then
          Some (TagName {| closing := false; tname := String (lower c) "";
                           tattrs := [] |}, [])
        else if Ascii.eqb c "!" || Ascii.eqb c "?" then None
        else
          match in_data c with
          | Some (st', out) => Some (st', Character "<" :: out)
          | None => None
          end
    | EndTagOpen =>
        if is_alpha c then
          Some (TagName {| closing := true; tname := String (lower c) "";
                           tattrs := [] |}, [])
        else if Ascii.eqb c ">" then Some (Data, [])
        else None
    | TagName t =>
        if is_whitespace c then Some (BeforeAttrName t, [])
        else if Ascii.eqb c "/" then Some (SelfClosingStartTag t, [])
        else if Ascii.eqb c ">" then Some (Data, [emit t false])
        else Some (TagName (name_char t c), [])
    | BeforeAttrName t => in_before_attr_name t c
    | AttrName t n => in_attr_name t n c
    | AfterAttrName t n =>
        if is_whitespace c then Some (AfterAttrName t n, [])
        else if Ascii.eqb c "/" then
          Some (SelfClosingStartTag (add_attr t n ""), [])
        else if Ascii.eqb c "=" then Some (BeforeAttrValue t n, [])
        else if Ascii.eqb c ">" then Some (Data, [emit (add_attr t n "") false])
        else in_attr_name (add_attr t n "") "" c
    | BeforeAttrValue t n =>
        if is_whitespace c then Some (BeforeAttrValue t n, [])
        else if Ascii.eqb c dquote then Some (AttrValueDQ t n "", [])
        else if Ascii.eqb c "'" then Some (AttrValueSQ t n "", [])
        else if Ascii.eqb c ">" then Some (Data, [emit (add_attr t n "") false])
        else in_attr_value_uq t n "" c
    | AttrValueDQ t n v =>
        if Ascii.eqb c dquote then Some (AfterAttrValueQ (add_attr t n v), [])
        else if Ascii.eqb c "&" then None
        else Some (AttrValueDQ t n (snoc v c), [])
    | AttrValueSQ t n v =>
        if Ascii.eqb c "'" then Some (AfterAttrValueQ (add_attr t n v), [])
        else if Ascii.eqb c "&" then None
        else Some (AttrValueSQ t n (snoc v c), [])
    | AttrValueUQ t n v => in_attr_value_uq t n v c
    | AfterAttrValueQ t =>
        if is_whitespace c then Some (BeforeAttrName t, [])
        else if Ascii.eqb c "/" then Some (SelfClosingStartTag t, [])
        else if Ascii.eqb c ">" then Some (Data, [emit t false])
        else in_before_attr_name t c
    | SelfClosingStartTag t =>
        if Ascii.eqb c ">" then Some (Data, [emit t true])
        else in_before_attr_name t c
    end.

(** The tokens emitted at the end of the input; a tag left unfinished is
    dropped. *)
Definition at_end (st : State) : list Token :=
  match st with
  | TagOpen => [Character "<"]
  | EndTagOpen => [Character "<"; Character "/"]
  | _ => []
  end.

(** *** Tree construction *)

(** An element on the stack of open elements: its children so far and the
    character data that follows them, which becomes one [Text] node. *)
Record Frame : Type := {
  fname : string;
  fattrs : list (string * string);
  fchildren : list Node;
  ftext : string
}.

Definition text_nodes (data : string) : list Node :=
  match data with
  | EmptyString => []
  | String _ _ => [Text data]
  end.

Definition append_child (n : Node) (f : Frame) : Frame :=
  let '(Build_Frame name attrs children text) := f in
  {| fname := name; fattrs := attrs;
     fchildren := children ++ text_nodes text ++ [n]; ftext := "" |}.

Definition append_char (c : ascii) (f : Frame) : Frame :=
  let '(Build_Frame name attrs children text) := f in
  {| fname := name; fattrs := attrs; fchildren := children;
     ftext := snoc text c |}.

Definition element_of (f : Frame) : Node :=
  let '(Build_Frame name attrs children text) := f in
  Element name attrs (children ++ text_nodes text).

(** The elements of the special category among those that can be open. *)
Definition special (name : string) : bool :=
  String.eqb name "div" || String.eqb name "img" || String.eqb name "html".

(** Pops the open elements down to the first one with the name, that one
    included; the root stays. *)
Fixpoint pop_through (name : string) (f : Frame) (below : list Frame)
  : list Frame :=
  match below with
  | [] => [f]
  | p :: rest =>
      if String.eqb (fname f) name then append_child (element_of f) p :: rest
      else pop_through name (append_child (element_of f) p) rest
  end.

(** "Has an element in scope": the root ends every scope. *)
Fixpoint in_scope (name : string) (stack : list Frame) : bool :=
  match stack with
  | [] => false
  | f :: below =>
      if String.eqb (fname f) name then true
      else if String.eqb (fname f) "html" then false
      else in_scope name below
  end.

(** "Any other end tag": the walk down the stack finds the element before
    it meets a special one. *)
Fixpoint closes (name : string) (stack : list Frame) : bool :=
  match stack with
  | [] => false
  | f :: below =>
      if String.eqb (fname f) name then true
      else if special (fname f) then false
      else closes name below
  end.

(** One token in the "in body" insertion mode; the current node is the
    head of the stack, the root its last element. *)
Definition insert (tok : Token) (stack : list Frame) : option (list Frame) :=
  match stack with
  | [] => None
  | f :: below =>
      match tok with
      | Character c => Some (append_char c f :: below)
      | StartTag name attrs _ =>
          if String.eqb name "div" || String.eqb name "span"
          then Some ({| fname := name; fattrs := attrs; fchildren := [];
                        ftext := "" |} :: stack)
          else if String.eqb name "img"
          then Some (append_child (Element name attrs []) f :: below)
          else None
      | EndTag name =>
          if String.eqb name "div"
          then Some (if in_scope name stack then pop_through name f below
                     else stack)
          else if String.eqb name "span" || String.eqb name "img"
          then Some (if closes name stack then pop_through name f below
                     else stack)
          else None
      end
  end.

Fixpoint insert_all (toks : list Token) (stack : list Frame)
  : option (list Frame) :=
  match toks with
  | [] => Some stack
  | tok :: rest =>
      match insert tok stack with
      | Some stack' => insert_all rest stack'
      | None => None
      end
  end.

(** The end of the input: the children of the root. *)
Fixpoint stop (f : Frame) (below : list Frame) : list Node :=
  match below with
  | [] => fchildren f ++ text_nodes (ftext f)
  | p :: rest => stop (append_child (element_of f) p) rest
  end.

(** The parser at work: each character steps the tokenizer, and each
    token emitted goes to the tree construction at once. *)
Fixpoint consume (st : State) (stack : list Frame) (input : string)
  : option (list Node) :=
  match input with
  | EmptyString =>
      match insert_all (at_end st) stack with
      | Some (f :: below) => Some (stop f below)
      | Some [] | None => None
      end
  | String c rest =>
      match step st c with
      | Some (st', out) =>
          match insert_all out stack with
          | Some stack' => consume st' stack' rest
          | None => None
          end
      | None => None
      end
  end.

(** The children that an element has after [element.innerHTML = markup]. *)
Definition parseFragment (markup : string) : option (list Node) :=
  consume Data
    [ {| fname := "html"; fattrs := []; fchildren := []; ftext := "" |} ]
    markup.

(** *** Reading the tree *)

Definition getAttribute (name : string) (n : Node) : option string :=
  match n with
  | Element _ attrs _ => lookup name attrs
  | Text _ => None
  end.

Definition tagName (n : Node) : option string :=
  match n with
  | Element name _ _ => Some name
  | Text _ => None
  end.

Definition childNodes (n : Node) : list Node :=
  match n with
  | Element _ _ children => children
  | Text _ => []
  end.

(** The words of a [class] attribute: split at tab, line feed, form feed,
    carriage return and space. *)
Fixpoint words (s : string) (word : string) : list string :=
  match s with
  | EmptyString => if String.eqb word "" then [] else [word]
  | String c rest =>
      if is_whitespace c || Ascii.eqb c "013"
      then (if String.eqb word "" then words rest ""
            else word :: words rest "")
      else words rest (snoc word c)
  end.

Definition classList (n : Node) : list string :=
  match getAttribute "class" n with
  | Some s => words s ""
  | None => []
  end.

(** Whether an element matches the selector [.cls] (in a document that
    is not in quirks mode, where class names keep their case). *)
Definition hasClass (cls : string) (n : Node) : bool :=
  existsb (String.eqb cls) (classList n).

(** An element and its descendant elements, in tree order. *)
Fixpoint elements (n : Node) : list Node :=
  match n with
  | Element _ _ children => n :: flat_map elements children
  | Text _ => []
  end.

(** [querySelectorAll("." + cls)] below a node with these children. *)
Definition querySelectorAll (cls : string) (children : list Node) : list Node :=
  filter (hasClass cls) (flat_map elements children).

(** [node.textContent] *)
Fixpoint textContent (n : Node) : string :=
  match n with
  | Element _ _ children => String.concat "" (map textContent children)
  | Text data => data
  end.

End HTML.

(** ** Grid *)

(** [livePrice ? formatINR(livePrice) : "—"] *)
Definition priceOrDash (H : Host) (v : JS.value) : string :=
  if JS.toBoolean v then formatINR H v else "—".

(** The texts that [coinCardTemplate] puts into the markup of a card. *)
Definition coinCard (H : Host) (c : Coin) (livePrice : JS.value) : Card :=
  {| data_symbol := coin_symbol c;
     data_id := coin_id c;
     data_name := coin_name c;
     img_src := coin_img c;
     priceText := priceOrDash H livePrice |}.

Definition quote : string := String (ascii_of_nat 34) "".
Definition newline : string := String (ascii_of_nat 10) "".

(** The markup of a card, as the template literal spells it. *)
Definition markup (el : Card) : string :=
  (newline
   ++ "  <div class=" ++ quote ++ "coin-card flip-3d" ++ quote
   ++ " data-symbol=" ++ quote ++ data_symbol el ++ quote
   ++ " data-id=" ++ quote ++ data_id el ++ quote
   ++ " data-name=" ++ quote ++ data_name el ++ quote ++ ">" ++ newline
   ++ "    <img class=" ++ quote ++ "coin-img" ++ quote
   ++ " src=" ++ quote ++ img_src el ++ quote
   ++ " alt=" ++ quote ++ data_name el ++ quote
   ++ " onerror=" ++ quote
   ++ "this.style.display='none';this.nextElementSibling.classList.remove('d-none');"
   ++ quote ++ ">" ++ newline
   ++ "    <div class=" ++ quote ++ "coin-fallback d-none place-center" ++ quote
   ++ ">" ++ data_symbol el ++ "</div>" ++ newline
   ++ "    <div class=" ++ quote ++ "coin-overlay" ++ quote ++ ">" ++ newline
   ++ "      <div>" ++ newline
   ++ "        <div class=" ++ quote ++ "name" ++ quote ++ ">" ++ data_name el
   ++ " <span class=" ++ quote ++ "subtle" ++ quote ++ ">(" ++ data_symbol el
   ++ ")</span></div>" ++ newline
   ++ "        <div class=" ++ quote ++ "price" ++ quote ++ ">" ++ priceText el
   ++ "</div>" ++ newline
   ++ "      </div>" ++ newline
   ++ "    </div>" ++ newline
   ++ "  </div>")%string.

Definition coinCardTemplate (H : Host) (c : Coin) (livePrice : JS.value) : string :=
  markup (coinCard H c livePrice).

(** [prices?.[id]?.inr] *)
Definition inr_of (prices : Prices) (id : string) : JS.value :=
  match lookup id prices with
  | Some v => v
  | None => JS.Undefined
  end.

(** [renderGrid]: the markup of the cards, joined, is assigned to
    [grid.innerHTML]; the spinner is hidden. *)
Definition renderGrid (H : Host) (catalog : list Coin)
    (res : HttpResult Prices) (pg : Page) : Page :=
  match coinGrid (grid pg) with
  | None => pg
  | Some _ =>
      let innerHTML :=
        match fetchLivePricesInINR res with
        | Normal prices =>
            join ""
              (map (fun c => coinCardTemplate H c (inr_of prices (coin_id c)))
                 catalog)
        | Throw =>
            join "" (map (fun c => coinCardTemplate H c JS.Null) catalog)
        end in
      with_grid
        {| coinGrid := Some innerHTML;
           globalSpinner :=
             match globalSpinner (grid pg) with
             | Some _ => Some "none"
             | None => None
             end |} pg
  end.

(** The argument of [openCoinModal]. *)
Record ModalArgs : Type := {
  arg_symbol : string;
  arg_id : string;
  arg_name : string
}.

(** [document.querySelectorAll(".coin-card")] once the grid holds the
    markup: the elements that get the click listener.  (The document
    outside the grid is taken to hold no such element.) *)
Definition coinCards (innerHTML : string) : option (list HTML.Node) :=
  option_map (HTML.querySelectorAll "coin-card") (HTML.parseFragment innerHTML).

(** What the click listener of a card passes on, once the flip has played:
    [el.dataset.symbol], [el.dataset.id] and [el.dataset.name].  [None]
    when the element lacks one of the three attributes; the listener then
    passes [undefined] on. *)
Definition cardClick (el : HTML.Node) : option ModalArgs :=
  match HTML.getAttribute "data-symbol" el, HTML.getAttribute "data-id" el,
        HTML.getAttribute "data-name" el with
  | Some symbol, Some id, Some name =>
      Some {| arg_symbol := symbol; arg_id := id; arg_name := name |}
  | _, _, _ => None
  end.

(** The last statement of the script. *)
Definition Init (H : Host) (catalog : list Coin) (res : HttpResult Prices)
    (pg : Page) : Page :=
  match coinGrid (grid pg) with
  | Some _ => renderGrid H catalog res pg
  | None => pg
  end.

(** ** Modal and chart *)

Record HistoryBody : Type := {
  prices : option (list (Z * JS.value))   (* [None]: no [prices] property *)
}.

Record Preds : Type := {
  current_price : JS.value;
  pred_3m : JS.value;
  pred_6m : JS.value;
  pred_1y : JS.value;
  series3m : option (list JS.value);
  series6m : option (list JS.value);
  series1y : option (list JS.value)
}.

(** The empty object [{}]. *)
Definition noPreds : Preds :=
  {| current_price := JS.Undefined; pred_3m := JS.Undefined;
     pred_6m := JS.Undefined; pred_1y := JS.Undefined;
     series3m := None; series6m := None; series1y := None |}.

(** What the history part of [openCoinModal] hands on. *)
Record History : Type := {
  points : list (Dates.Date * JS.value);
  labelsHist : list string;
  pricesHist : list JS.value
}.

Fixpoint traverse {A B : Type} (f : A -> option B) (l : list A) : option (list B) :=
  match l with
  | [] => Some []
  | x :: rest =>
      match f x with
      | Some y =>
          match traverse f rest with
          | Some ys => Some (y :: ys)
          | None => None
          end
      | None => None
      end
  end.

Definition isoDay (d : Dates.Date) : option string :=
  option_map Dates.slice_0_10 (Dates.toISOString d).

Definition history_url (id : string) : string :=
  ("/api/history/" ++ id ++ "?vs_currency=inr&days=365")%string.

Definition set_header (catalog : list Coin) (a : ModalArgs) (m : Modal) : Modal :=
  {| modalLogo :=
       JS.or_string
         (option_map coin_img
            (find (fun c => String.eqb (coin_symbol c) (arg_symbol a)) catalog))
         "";
     modalName := arg_name a;
     modalSymbol := arg_symbol a;
     modalAbout := JS.or_string (lookup (arg_symbol a) ABOUT) "—";
     modalCurrent := modalCurrent m; pred3m := pred3m m; pred6m := pred6m m;
     pred1y := pred1y m; btnAddPortfolio := btnAddPortfolio m;
     modeHandlers := modeHandlers m; qtyGroup := qtyGroup m;
     budgetGroup := budgetGroup m; shown := shown m |}.

Definition set_predictions (H : Host) (preds : Preds) (m : Modal) : Modal :=
  {| modalLogo := modalLogo m; modalName := modalName m;
     modalSymbol := modalSymbol m; modalAbout := modalAbout m;
     modalCurrent := priceOrDash H (current_price preds);
     pred3m := priceOrDash H (pred_3m preds);
     pred6m := priceOrDash H (pred_6m preds);
     pred1y := priceOrDash H (pred_1y preds);
     btnAddPortfolio := btnAddPortfolio m;
     modeHandlers := modeHandlers m; qtyGroup := qtyGroup m;
     budgetGroup := budgetGroup m; shown := shown m |}.

(** [btnAddPortfolio.onclick = () => addToPortfolio(symbol, name,
    preds.current_price)] *)
Definition set_onclick (a : ModalArgs) (preds : Preds) (m : Modal) : Modal :=
  {| modalLogo := modalLogo m; modalName := modalName m;
     modalSymbol := modalSymbol m; modalAbout := modalAbout m;
     modalCurrent := modalCurrent m; pred3m := pred3m m; pred6m := pred6m m;
     pred1y := pred1y m;
     btnAddPortfolio := Some (arg_symbol a, arg_name a, current_price preds);
     modeHandlers := modeHandlers m; qtyGroup := qtyGroup m;
     budgetGroup := budgetGroup m; shown := shown m |}.

Definition set_onchange (m : Modal) : Modal :=
  {| modalLogo := modalLogo m; modalName := modalName m;
     modalSymbol := modalSymbol m; modalAbout := modalAbout m;
     modalCurrent := modalCurrent m; pred3m := pred3m m; pred6m := pred6m m;
     pred1y := pred1y m; btnAddPortfolio := btnAddPortfolio m;
     modeHandlers := true; qtyGroup := qtyGroup m;
     budgetGroup := budgetGroup m; shown := shown m |}.

Definition set_shown (m : Modal) : Modal :=
  {| modalLogo := modalLogo m; modalName := modalName m;
     modalSymbol := modalSymbol m; modalAbout := modalAbout m;
     modalCurrent := modalCurrent m; pred3m := pred3m m; pred6m := pred6m m;
     pred1y := pred1y m; btnAddPortfolio := btnAddPortfolio m;
     modeHandlers := modeHandlers m; qtyGroup := qtyGroup m;
     budgetGroup := budgetGroup m; shown := true |}.

(** The [onchange] handler of the two mode radio buttons. *)
Definition modeChange (pg : Page) : Page :=
  match modeQty (controls pg), modeBudget (controls pg) with
  | Some q, Some b =>
      let m := modal pg in
      with_modal
        {| modalLogo := modalLogo m; modalName := modalName m;
           modalSymbol := modalSymbol m; modalAbout := modalAbout m;
           modalCurrent := modalCurrent m; pred3m := pred3m m;
           pred6m := pred6m m; pred1y := pred1y m;
           btnAddPortfolio := btnAddPortfolio m;
           modeHandlers := modeHandlers m;
           qtyGroup := if q then "" else "none";
           budgetGroup := if b then "" else "none";
           shown := shown m |} pg
  | _, _ => pg
  end.

(** One turn of the loop that appends the future labels:
    [d = new Date(lastDate); d.setDate(d.getDate() + i);
     labelsFull.push(d.toISOString().slice(0, 10))]. *)
Definition futureLabel (H : Host) (lastDate : Dates.Date) (i : Z) : option string :=
  let d := Dates.Date_copy lastDate in
  let d := Dates.setDate H d (option_map (fun x => (x + i)%Z) (Dates.getDate H d)) in
  isoDay d.

(** The loop over the remaining values of [i]; [None] when a turn throws. *)
Fixpoint pushFuture (H : Host) (lastDate : Dates.Date) (turns : list nat)
    (labelsFull : list string) : option (list string) :=
  match turns with
  | [] => Some labelsFull
  | i :: rest =>
      match futureLabel H lastDate (Z.of_nat i) with
      | Some l => pushFuture H lastDate rest (labelsFull ++ [l])
      | None => None
      end
  end.

(** [lastDate]: a copy of the last point's date, or the current time. *)
Definition lastDateOf (now : Z) (pts : list (Dates.Date * JS.value)) : Dates.Date :=
  match rev pts with
  | p :: _ => Dates.Date_copy (fst p)
  | [] => Some now
  end.

(** [labelsFull]: the history labels and the 365 future days. *)
Definition buildLabels (H : Host) (now : Z) (h : History) : option (list string) :=
  pushFuture H (lastDateOf now (points h)) (seq 1 365) (labelsHist h).

Definition padHistory (h : History) (labelsFull : list string) : list JS.value :=
  pricesHist h
  ++ repeat JS.Null (List.length labelsFull - List.length (pricesHist h)).

Definition or_empty (s : option (list JS.value)) : list JS.value :=
  match s with
  | Some l => l
  | None => []
  end.

Definition chartDatasets (histPadded : list JS.value) (preds : Preds) : list Dataset :=
  [ {| ds_label := "Historical (INR)"; ds_data := histPadded;
       ds_borderDash := [] |};
    {| ds_label := "Pred 3M"; ds_data := or_empty (series3m preds);
       ds_borderDash := [6; 4]%Z |};
    {| ds_label := "Pred 6M"; ds_data := or_empty (series6m preds);
       ds_borderDash := [2; 6]%Z |};
    {| ds_label := "Pred 1Y"; ds_data := or_empty (series1y preds);
       ds_borderDash := [1; 8]%Z |} ].

(** [chart.destroy()] on the instance the variable refers to. *)
Definition destroy (cs : Charts) : Charts :=
  match chart cs with
  | Some i =>
      {| chart := chart cs;
         priceChart :=
           filter (fun c => negb (Nat.eqb (chart_id c) i)) (priceChart cs);
         nextChartId := nextChartId cs |}
  | None => cs
  end.

(** [chart = new Chart(ctx, config)]: the assignment happens only when the
    constructor returns. *)
Definition newChart (H : Host) (labels : list string) (datasets : list Dataset)
  : Script unit :=
  fun pg =>
    let cs := charts pg in
    match priceChart cs, chartRefusesBusyCanvas H with
    | _ :: _, true => (Throw, pg)
    | _, _ =>
        (Normal tt,
         with_charts
           {| chart := Some (nextChartId cs);
              priceChart := priceChart cs
                ++ [ {| chart_id := nextChartId cs; chart_labels := labels;
                        chart_datasets := datasets |} ];
              nextChartId := S (nextChartId cs) |} pg)
    end.

(** Up to the first request: the header. *)
Definition openHeader (catalog : list Coin) (a : ModalArgs) : Script unit :=
  modify (fun pg => with_modal (set_header catalog a (modal pg)) pg).

(** From the history response to the second request. *)
Definition readHistory (hres : HttpResult HistoryBody) : Completion History :=
  match hres with
  | NetworkError => Throw
  | Response _ None => Throw
  | Response _ (Some hist) =>
      let raw := match prices hist with Some l => l | None => [] end in
      let pts := map (fun p => (Dates.Date_of_number (fst p), snd p)) raw in
      match traverse (fun p => isoDay (fst p)) pts with
      | Some labels =>
          Normal {| points := pts; labelsHist := labels;
                    pricesHist := map snd pts |}
      | None => Throw
      end
  end.

Definition readPredictions (pres : HttpResult Preds) : Completion Preds :=
  match pres with
  | NetworkError => Throw
  | Response false _ => Normal noPreds
  | Response true None => Throw
  | Response true (Some preds) => Normal preds
  end.

(** [modeQty.onchange = modeBudget.onchange = ...]: assigning to a radio
    button that the page lacks throws. *)
Definition bindModeChange : Script unit :=
  fun pg =>
    match modeQty (controls pg), modeBudget (controls pg) with
    | Some _, Some _ => (Normal tt, with_modal (set_onchange (modal pg)) pg)
    | _, _ => (Throw, pg)
    end.

(** From the four text fields on: labels, chart, handlers, and the modal
    is shown. *)
Definition drawChart (H : Host) (now : Z) (a : ModalArgs) (h : History)
    (preds : Preds) : Script unit :=
  labelsFull <- lift (match buildLabels H now h with
                      | Some l => Normal l
                      | None => Throw
                      end) ;;
  modify (fun pg => with_charts (destroy (charts pg)) pg) ;;;
  newChart H labelsFull (chartDatasets (padHistory h labelsFull) preds) ;;;
  modify (fun pg => with_modal (set_onclick a preds (modal pg)) pg) ;;;
  bindModeChange ;;;
  modify (fun pg => with_modal (set_shown (modal pg)) pg).

(** From the predictions response to the end. *)
Definition showPredictions (H : Host) (now : Z) (a : ModalArgs) (h : History)
    (pres : HttpResult Preds) : Script unit :=
  preds <- lift (readPredictions pres) ;;
  modify (fun pg => with_modal (set_predictions H preds (modal pg)) pg) ;;;
  drawChart H now a h preds.

Definition failedToLoad : Script unit :=
  modify (fun pg =>
    toast "Failed to load coin details. Please try again." (console_error pg)).

Definition openCoinModal (H : Host) (catalog : list Coin) (now : Z)
    (a : ModalArgs) (hres : HttpResult HistoryBody) (pres : HttpResult Preds)
    (pg : Page) : Page :=
  run (try_catch
         (openHeader catalog a ;;;
          h <- lift (readHistory hres) ;;
          showPredictions H now a h pres)
         failedToLoad) pg.

(** ** Portfolio *)

(** How [addToPortfolio] settles the quantity: it leaves with a message, it
    takes the quantity entered, or it divides the budget by the price, the
    divisor being the Number that the price converts to. *)
Inductive Quantity : Type :=
| Rejected (msg : string)
| Entered (qty : float)
| Bought (budget currentPrice : float).

(** [document.getElementById("modeQty")?.checked] as a condition. *)
Definition quantityMode (c : Controls) : bool :=
  match modeQty c with
  | Some checked => checked
  | None => false
  end.

(** [parseFloat(document.getElementById("inputQty")?.value || "0")] *)
Definition enteredQty (H : Host) (c : Controls) : float :=
  parseFloat H (JS.or_string (inputQty c) "0").

(** [parseFloat(document.getElementById("inputBudget")?.value || "0")] *)
Definition enteredBudget (H : Host) (c : Controls) : float :=
  parseFloat H (JS.or_string (inputBudget c) "0").

Definition readQuantity (H : Host) (currentPrice : JS.value) (c : Controls)
  : Quantity :=
  let qty := enteredQty H c in
  let budget := enteredBudget H c in
  if quantityMode c then
    if negb (JS.truthy qty) || (qty <=? 0)%float
    then Rejected "Enter a valid quantity."
    else Entered qty
  else
    if negb (JS.truthy budget) || (budget <=? 0)%float
       || negb (JS.toBoolean currentPrice)
    then Rejected "Enter a valid budget (and ensure price loaded)."
    else Bought budget (ToNumber H currentPrice).

Fixpoint findIndex {A : Type} (f : A -> bool) (l : list A) : option nat :=
  match l with
  | [] => None
  | x :: rest =>
      if f x then Some O
      else match findIndex f rest with
           | Some i => Some (S i)
           | None => None
           end
  end.

(** [data[idx].qty += finalQty] *)
Fixpoint addQty (idx : nat) (finalQty : float) (data : list Entry) : list Entry :=
  match data, idx with
  | [], _ => []
  | x :: rest, O =>
      {| entry_symbol := entry_symbol x; entry_name := entry_name x;
         entry_qty := Some (JS.plus (entry_qty x) finalQty) |} :: rest
  | x :: rest, S i => x :: addQty i finalQty rest
  end.

Definition merge (symbol name : string) (finalQty : float) (data : list Entry)
  : list Entry :=
  match findIndex (fun x => String.eqb (entry_symbol x) symbol) data with
  | Some idx => addQty idx finalQty data
  | None =>
      data ++ [ {| entry_symbol := symbol; entry_name := name;
                   entry_qty := Some finalQty |} ]
  end.

(** The list that [JSON.parse] reads back from what [JSON.stringify] wrote. *)
Definition stored (data : list Entry) : list Entry :=
  map (fun x =>
         {| entry_symbol := entry_symbol x; entry_name := entry_name x;
            entry_qty := match entry_qty x with
                         | Some q => JS.json_number q
                         | None => None
                         end |}) data.

(** [JSON.parse(localStorage.getItem("portfolio") || "[]")] *)
Definition loadPortfolio (ls : Storage) : list Entry :=
  match item_portfolio ls with
  | Some data => data
  | None => []
  end.

Definition clearInputs (c : Controls) : Controls :=
  {| themeToggle := themeToggle c; modeQty := modeQty c;
     modeBudget := modeBudget c;
     inputQty := match inputQty c with Some _ => Some "" | None => None end;
     inputBudget := match inputBudget c with Some _ => Some "" | None => None end |}.

Definition savePortfolio (symbol name : string) (finalQty : float) (pg : Page)
  : Page :=
  let data := merge symbol name finalQty (loadPortfolio (localStorage pg)) in
  let pg :=
    with_localStorage
      {| item_theme := item_theme (localStorage pg);
         item_portfolio := Some (stored data) |} pg in
  let pg := with_controls (clearInputs (controls pg)) pg in
  toast (name ++ " (" ++ symbol ++ ") added to portfolio.")%string pg.

Definition addToPortfolio (H : Host) (symbol name : string)
    (currentPrice : JS.value) (pg : Page) : Page :=
  match readQuantity H currentPrice (controls pg) with
  | Rejected msg => toast msg pg
  | Entered qty => savePortfolio symbol name qty pg
  | Bought budget price => savePortfolio symbol name (budget / price)%float pg
  end.

(** A click on the modal's button runs the handler that the last completed
    [openCoinModal] installed, if any. *)
Definition clickAddPortfolio (H : Host) (pg : Page) : Page :=
  match btnAddPortfolio (modal pg) with
  | Some (symbol, name, currentPrice) => addToPortfolio H symbol name currentPrice pg
  | None => pg
  end.

(** ** Events of the home page *)

(** A page load: the document comes up as served, the storage of the
    origin is the one left behind, and [initTheme] runs on
    [DOMContentLoaded]. *)
Definition load (served : Page) (ls : Storage) : Page :=
  initTheme (with_localStorage ls served).

(** The user types into [#inputQty] or [#inputBudget]. *)
Definition typeQty (text : string) (pg : Page) : Page :=
  let c := controls pg in
  match inputQty c with
  | Some _ =>
      with_controls
        {| themeToggle := themeToggle c; modeQty := modeQty c;
           modeBudget := modeBudget c; inputQty := Some text;
           inputBudget := inputBudget c |} pg
  | None => pg
  end.

Definition typeBudget (text : string) (pg : Page) : Page :=
  let c := controls pg in
  match inputBudget c with
  | Some _ =>
      with_controls
        {| themeToggle := themeToggle c; modeQty := modeQty c;
           modeBudget := modeBudget c; inputQty := inputQty c;
           inputBudget := Some text |} pg
  | None => pg
  end.

(** The user picks a mode: the radio buttons exclude each other and
    [onchange] runs if a modal has installed it. *)
Definition pickMode (quantity : bool) (pg : Page) : Page :=
  let c := controls pg in
  let pg :=
    with_controls
      {| themeToggle := themeToggle c;
         modeQty := match modeQty c with Some _ => Some quantity | None => None end;
         modeBudget :=
           match modeBudget c with Some _ => Some (negb quantity) | None => None end;
         inputQty := inputQty c; inputBudget := inputBudget c |} pg in
  if modeHandlers (modal pg) then modeChange pg else pg.

(** Modal openings in flight.  [openCoinModal] yields to the event loop at
    its two requests; an opening waits for its history or, holding what it
    made of the history, for its predictions. *)
Inductive Pending : Type :=
| AwaitsHistory (a : ModalArgs)
| AwaitsPredictions (a : ModalArgs) (h : History).

Definition Browser : Type := (Page * list Pending)%type.

Section EventLoop.

Variable H : Host.
Variable catalog : list Coin.

(** The part of [openCoinModal] that runs when its predictions arrive. *)
Definition predictionsArrive (now : Z) (a : ModalArgs) (h : History)
    (pres : HttpResult Preds) (pg : Page) : Page :=
  run (try_catch (showPredictions H now a h pres) failedToLoad) pg.

(** One turn of the event loop. *)
Inductive turn : Browser -> Browser -> Prop :=
| turn_click_card (a : ModalArgs) pg ps :
    turn (pg, ps) (run (openHeader catalog a) pg, ps ++ [AwaitsHistory a])
| turn_history (a : ModalArgs) (hres : HttpResult HistoryBody) h pg ps1 ps2 :
    readHistory hres = Normal h ->
    turn (pg, ps1 ++ AwaitsHistory a :: ps2)
         (pg, ps1 ++ AwaitsPredictions a h :: ps2)
| turn_history_failed (a : ModalArgs) (hres : HttpResult HistoryBody) pg ps1 ps2 :
    readHistory hres = Throw ->
    turn (pg, ps1 ++ AwaitsHistory a :: ps2) (run failedToLoad pg, ps1 ++ ps2)
| turn_predictions (now : Z) (a : ModalArgs) h (pres : HttpResult Preds) pg ps1 ps2 :
    turn (pg, ps1 ++ AwaitsPredictions a h :: ps2)
         (predictionsArrive now a h pres pg, ps1 ++ ps2)
| turn_add pg ps :
    turn (pg, ps) (clickAddPortfolio H pg, ps)
| turn_type_qty text pg ps :
    turn (pg, ps) (typeQty text pg, ps)
| turn_type_budget text pg ps :
    turn (pg, ps) (typeBudget text pg, ps)
| turn_mode quantity pg ps :
    turn (pg, ps) (pickMode quantity pg, ps)
| turn_theme pg ps :
    turn (pg, ps) (flipThemeToggle pg, ps)
| turn_grid (res : HttpResult Prices) pg ps :
    turn (pg, ps) (renderGrid H catalog res pg, ps).

Inductive turns : Browser -> Browser -> Prop :=
| turns_none b : turns b b
| turns_more b1 b2 b3 : turns b1 b2 -> turn b2 b3 -> turns b1 b3.

End EventLoop.

(** ** The older scripts: [main.js] and [charts.js]

    They serve another page, with its own elements ([theme-toggle],
    [coin-container], [coin-modal], [coin-chart], [coin-description]); the
    local storage is the one of the origin, shared with the home page. *)

Module Legacy.

Record HistoryPoint : Type := {
  date : string;
  price : JS.value
}.

Record PredictionPoint : Type := {
  pdate : string;
  predicted : JS.value
}.

(** The [predictions] object, by its keys ["3m"], ["6m"] and ["1y"]. *)
Record Predictions : Type := {
  p3m : list PredictionPoint;
  p6m : list PredictionPoint;
  p1y : list PredictionPoint
}.

Record PredictBody : Type := {
  history : list HistoryPoint;
  predictions : Predictions
}.

Record CoinDetails : Type := {
  details_name : string;
  details_symbol : string;
  market_cap_rank : string;
  description : string
}.

Record Page : Type := {
  localStorage : Storage;
  dataTheme : option string;       (* data-theme attribute of the root element *)
  dark_mode : bool;                (* class "dark-mode" on the body *)
  flip : bool;                     (* class "flip" on #coin-modal *)
  display : string;                (* #coin-modal: style.display *)
  coin_chart : list Chart;         (* instances attached to the #coin-chart canvas *)
  nextChartId : nat;
  coin_description : option CoinDetails
}.

(** The click listener of [#theme-toggle]:
    [document.body.classList.toggle("dark-mode")]. *)
Definition themeToggle_click (pg : Page) : Page :=
  {| localStorage := localStorage pg; dataTheme := dataTheme pg;
     dark_mode := negb (dark_mode pg); flip := flip pg;
     display := display pg; coin_chart := coin_chart pg;
     nextChartId := nextChartId pg;
     coin_description := coin_description pg |}.

(** A page load: the document comes up as served, the storage of the
    origin is the one left behind, and the [DOMContentLoaded] listener
    only registers listeners and requests the coins. *)
Definition load (served : Page) (ls : Storage) : Page :=
  {| localStorage := ls; dataTheme := dataTheme served;
     dark_mode := dark_mode served; flip := flip served;
     display := display served; coin_chart := [];
     nextChartId := nextChartId served;
     coin_description := coin_description served |}.

Definition nulls (n : nat) : list JS.value := repeat JS.Null n.

(** The labels and the four datasets that [renderChart] hands to
    [new Chart]. *)
Definition chartOf (id : nat) (history : list HistoryPoint)
    (predictions : Predictions) : Chart :=
  let labels := map date history in
  let prices := map price history in
  let pred3m := map predicted (p3m predictions) in
  let pred6m := map predicted (p6m predictions) in
  let pred1y := map predicted (p1y predictions) in
  let predLabels :=
    map pdate (p3m predictions) ++ map pdate (p6m predictions)
    ++ map pdate (p1y predictions) in
  {| chart_id := id;
     chart_labels := labels ++ predLabels;
     chart_datasets :=
       [ {| ds_label := "History"; ds_data := prices; ds_borderDash := [] |};
         {| ds_label := "3M Prediction";
            ds_data := nulls (List.length prices) ++ pred3m;
            ds_borderDash := [5; 5]%Z |};
         {| ds_label := "6M Prediction";
            ds_data :=
              nulls (List.length prices + List.length pred3m) ++ pred6m;
            ds_borderDash := [5; 5]%Z |};
         {| ds_label := "1Y Prediction";
            ds_data :=
              nulls (List.length prices + List.length pred3m
                     + List.length pred6m) ++ pred1y;
            ds_borderDash := [5; 5]%Z |} ] |}.

(** [renderChart(history, predictions)]; [None] when [new Chart] throws.
    The instance is not kept in any variable. *)
Definition renderChart (H : Host) (history : list HistoryPoint)
    (predictions : Predictions) (pg : Page) : option Page :=
  match coin_chart pg, chartRefusesBusyCanvas H with
  | _ :: _, true => None
  | _, _ =>
      Some {| localStorage := localStorage pg; dataTheme := dataTheme pg;
              dark_mode := dark_mode pg; flip := flip pg;
              display := display pg;
              coin_chart :=
                coin_chart pg ++ [chartOf (nextChartId pg) history predictions];
              nextChartId := S (nextChartId pg);
              coin_description := coin_description pg |}
  end.

(** [renderCoinInfo(coinId)], once the details have arrived. *)
Definition renderCoinInfo (details : HttpResult CoinDetails) (pg : Page) : Page :=
  match details with
  | Response _ (Some d) =>
      {| localStorage := localStorage pg; dataTheme := dataTheme pg;
         dark_mode := dark_mode pg; flip := flip pg; display := display pg;
         coin_chart := coin_chart pg; nextChartId := nextChartId pg;
         coin_description := Some d |}
  | _ => pg
  end.

(** [openCoinModal(coinId)]: the modal is flipped and displayed at once;
    chart and description follow when the prediction response is in.  A
    throw inside the promise chain ends the chain. *)
Definition openCoinModal (H : Host) (res : HttpResult PredictBody)
    (details : HttpResult CoinDetails) (pg : Page) : Page :=
  let pg :=
    {| localStorage := localStorage pg; dataTheme := dataTheme pg;
       dark_mode := dark_mode pg; flip := true; display := "block";
       coin_chart := coin_chart pg; nextChartId := nextChartId pg;
       coin_description := coin_description pg |} in
  match res with
  | Response _ (Some data) =>
      match renderChart H (history data) (predictions data) pg with
      | Some pg' => renderCoinInfo details pg'
      | None => pg
      end
  | _ => pg
  end.

(** The click listener of [#close-modal]. *)
Definition closeModal (pg : Page) : Page :=
  {| localStorage := localStorage pg; dataTheme := dataTheme pg;
     dark_mode := dark_mode pg; flip := false; display := "none";
     coin_chart := coin_chart pg; nextChartId := nextChartId pg;
     coin_description := coin_description pg |}.

End Legacy.

(** ** A reference host

    The functions the language and its internationalisation library
    specify, computed on the exact value of a double. *)

Module RefHost.

Local Open Scope Z_scope.

(** *** Decimal text to the nearest double *)

(** [m * 10^e10], rounded to nearest, ties to even; [ndigits] bounds the
    number of decimal digits of [m]. *)
Definition decimal_to_SF (m e10 : Z) (ndigits : Z) : spec_float :=
  if m =? 0 then S754_zero false
  else if 400 <? e10 then S754_infinity false
  else if e10 <? - (400 + ndigits) then S754_zero false
  else if 0 <=? e10 then binary_normalize prec emax (m * 10 ^ e10) 0 false
  else
    let d := 10 ^ (- e10) in
    let s := Z.max 0 (Z.log2 d + 60 - Z.log2 m) in
    let q := (m * 2 ^ s) / d in
    let sticky := if (m * 2 ^ s) mod d =? 0 then 0 else 1 in
    binary_normalize prec emax (2 * q + sticky) (- (s + 1)) false.

Definition decimal_to_float (neg : bool) (m e10 ndigits : Z) : float :=
  let x := SF2Prim (decimal_to_SF m e10 ndigits) in
  if neg then (- x)%float else x.

Definition is_space (c : ascii) : bool :=
  let n := nat_of_ascii c in
  ((9 <=? n) && (n <=? 13))%nat || (n =? 32)%nat.

Fixpoint trimStart (s : string) : string :=
  match s with
  | String c rest => if is_space c then trimStart rest else s
  | EmptyString => s
  end.

Definition digit_of (c : ascii) : option Z :=
  let n := nat_of_ascii c in
  if ((48 <=? n) && (n <=? 57))%nat then Some (Z.of_nat n - 48) else None.

(** Reads decimal digits: the number read so far, how many digits were
    read, and the rest of the text. *)
Fixpoint readDigits (s : string) (acc count : Z) : Z * Z * string :=
  match s with
  | String c rest =>
      match digit_of c with
      | Some d => readDigits rest (10 * acc + d) (count + 1)
      | None => (acc, count, s)
      end
  | EmptyString => (acc, count, s)
  end.

Definition readSign (s : string) : bool * string :=
  match s with
  | String "-" rest => (true, rest)
  | String "+" rest => (false, rest)
  | _ => (false, s)
  end.

(** The exponent part, when one is there: [e] or [E], a sign, digits. *)
Definition readExponent (s : string) : Z :=
  match s with
  | String c rest =>
      if (Ascii.eqb c "e" || Ascii.eqb c "E")%bool then
        let (neg, rest) := readSign rest in
        let '(e, count, _) := readDigits rest 0 0 in
        if count =? 0 then 0 else if neg then - e else e
      else 0
  | EmptyString => 0
  end.

Definition parseFloat (text : string) : float :=
  let (neg, s) := readSign (trimStart text) in
  if String.prefix "Infinity" s then (if neg then neg_infinity else infinity)
  else
    let '(int, ni, s) := readDigits s 0 0 in
    let '(m, nf, s) :=
      match s with
      | String "." rest => readDigits rest int 0
      | _ => (int, 0, s)
      end in
    if ni + nf =? 0 then nan
    else decimal_to_float neg m (readExponent s - nf) (ni + nf).

(** *** Numbers to text *)

Definition digits (n : Z) : string :=
  NilZero.string_of_uint (N.to_uint (Z.to_N n)).

(** Indian grouping of the digits of an integer: the last three digits,
    then groups of two. *)
Fixpoint groupTwos (rev_digits : list ascii) : list ascii :=
  match rev_digits with
  | a :: b :: ((_ :: _) as rest) => a :: b :: ","%char :: groupTwos rest
  | _ => rev_digits
  end.

Definition groupIndian (s : string) : string :=
  match rev (list_ascii_of_string s) with
  | a :: b :: c :: ((_ :: _) as rest) =>
      string_of_list_ascii (rev (a :: b :: c :: ","%char :: groupTwos rest))
  | _ => s
  end.

(** Hundredths nearest to [m * 2^e], ties away from zero. *)
Definition hundredths (m : positive) (e : Z) : Z :=
  if 0 <=? e then Zpos m * 2 ^ e * 100
  else (2 * (Zpos m * 100) + 2 ^ (- e)) / 2 ^ (- e + 1).

Definition fraction (f : Z) : string :=
  if f =? 0 then ""
  else if f mod 10 =? 0 then ("." ++ digits (f / 10))%string
  else ("." ++ digits (f / 10) ++ digits (f mod 10))%string.

Definition minus (s : bool) : string := if s then "-" else "".

(** Format of the ["en-IN"] locale with at most two fraction digits. *)
Definition en_IN (x : float) : string :=
  match Prim2SF x with
  | S754_nan => "NaN"
  | S754_infinity s => (minus s ++ "∞")%string
  | S754_zero s => (minus s ++ "0")%string
  | S754_finite s m e =>
      let n := hundredths m e in
      (minus s ++ groupIndian (digits (n / 100)) ++ fraction (n mod 100))%string
  end.

(** [Math.round]: the integer nearest to [x], ties towards [+∞]. *)
Definition round (x : float) : float :=
  match Prim2SF x with
  | S754_finite s m e =>
      if 0 <=? e then x
      else
        let n := if s then (2 ^ (- e) - 2 * Zpos m) / 2 ^ (- e + 1)
                 else (2 * Zpos m + 2 ^ (- e)) / 2 ^ (- e + 1) in
        SF2Prim (binary_normalize prec emax n 0 s)
  | _ => x
  end.

(** [x < 10^n] for [x = num / den]. *)
Definition below_pow10 (num den n : Z) : bool :=
  if 0 <=? n then num <? den * 10 ^ n else num * 10 ^ (- n) <? den.

Fixpoint magnitude_from (fuel : nat) (num den n : Z) : Z :=
  match fuel with
  | O => n
  | S fuel' =>
      if below_pow10 num den n then n
      else magnitude_from fuel' num den (n + 1)
  end.

(** The [n] with [10^(n-1) <= num / den < 10^n], searched upwards from a
    lower estimate taken from the binary logarithms. *)
Definition magnitude (num den : Z) : Z :=
  magnitude_from 8 num den
    (((Z.log2 num - Z.log2 den - 1) * 30103) / 100000 - 1).

(** The shortest decimal that reads back as [x = num / den]: tries
    [k = 1, 2, ...] digits and returns the digits [s] and the magnitude. *)
Fixpoint shortest (fuel : nat) (k : Z) (x : float) (num den n : Z) : Z * Z :=
  match fuel with
  | O => (0, n)
  | S fuel' =>
      let pn := if 0 <=? n - k then 10 ^ (n - k) else 1 in
      let pd := if 0 <=? n - k then 1 else 10 ^ (k - n) in
      let lo := (num * pd) / (den * pn) in
      let hi := lo + 1 in
      let reads s := Leibniz.eqb (SF2Prim (decimal_to_SF s (n - k) 20)) x in
      let lo_nearer :=
        (2 * num * pd <? (lo + hi) * pn * den)
        || ((2 * num * pd =? (lo + hi) * pn * den) && Z.even lo) in
      match reads lo, reads hi with
      | true, true => if lo_nearer then (lo, n)
                      else if hi =? 10 ^ k then (1, n + 1) else (hi, n)
      | true, false => (lo, n)
      | false, true => if hi =? 10 ^ k then (1, n + 1) else (hi, n)
      | false, false => shortest fuel' (k + 1) x num den n
      end
  end.

Definition exponentText (e : Z) : string :=
  ((if (e <? 0)%Z then "-" else "+") ++ digits (Z.abs e))%string.

Definition layout (ds : string) (n : Z) : string :=
  let k := Z.of_nat (String.length ds) in
  if (k <=? n) && (n <=? 21) then
    (ds ++ Dates.zeros (Z.to_nat (n - k)))%string
  else if (0 <? n) && (n <=? 21) then
    (String.substring 0 (Z.to_nat n) ds ++ "."
     ++ String.substring (Z.to_nat n) (Z.to_nat (k - n)) ds)%string
  else if (-6 <? n) && (n <=? 0) then
    ("0." ++ Dates.zeros (Z.to_nat (- n)) ++ ds)%string
  else if k =? 1 then
    (ds ++ "e" ++ exponentText (n - 1))%string
  else
    (String.substring 0 1 ds ++ "." ++ String.substring 1 (Z.to_nat (k - 1)) ds
     ++ "e" ++ exponentText (n - 1))%string.

(** [Number.prototype.toString], radix 10. *)
Definition toString (x : float) : string :=
  match Prim2SF x with
  | S754_nan => "NaN"
  | S754_zero _ => "0"
  | S754_infinity s => (minus s ++ "Infinity")%string
  | S754_finite s m e =>
      let num := if 0 <=? e then Zpos m * 2 ^ e else Zpos m in
      let den := if 0 <=? e then 1 else 2 ^ (- e) in
      let (ds, n) := shortest 17 1 (abs x) num den (magnitude num den) in
      (minus s ++ layout (digits ds) n)%string
  end.

(** *** Text to a Number *)

Definition trimEnd (s : string) : string :=
  let fix drop (l : list ascii) : list ascii :=
    match l with
    | c :: rest => if is_space c then drop rest else l
    | [] => []
    end in
  string_of_list_ascii (rev (drop (rev (list_ascii_of_string s)))).

Definition digit_in (base : Z) (c : ascii) : option Z :=
  let n := Z.of_nat (nat_of_ascii c) in
  let d :=
    if (48 <=? n) && (n <=? 57) then n - 48
    else if (97 <=? n) && (n <=? 102) then n - 87
    else if (65 <=? n) && (n <=? 70) then n - 55
    else 16 in
  if d <? base then Some d else None.

Fixpoint readBase (base : Z) (s : string) (acc count : Z) : Z * Z * string :=
  match s with
  | String c rest =>
      match digit_in base c with
      | Some d => readBase base rest (base * acc + d) (count + 1)
      | None => (acc, count, s)
      end
  | EmptyString => (acc, count, s)
  end.

(** The literal after [0x], [0o] or [0b]: digits of the base, and nothing
    else. *)
Definition nonDecimal (base : Z) (s : string) : float :=
  let '(n, count, rest) := readBase base s 0 0 in
  if (count =? 0) || negb (String.eqb rest "") then nan
  else decimal_to_float false n 0 (4 * count).

(** The exponent part that ends a decimal literal: nothing, or [e] or [E],
    a sign, digits. *)
Definition lastExponent (s : string) : option Z :=
  match s with
  | EmptyString => Some 0
  | String c rest =>
      if (Ascii.eqb c "e" || Ascii.eqb c "E")%bool then
        let (neg, rest) := readSign rest in
        let '(e, count, rest) := readDigits rest 0 0 in
        if (count =? 0) || negb (String.eqb rest "") then None
        else Some (if neg then - e else e)
      else None
  end.

(** [StringToNumber]: the whole text, white space at its ends apart, must
    be a numeric literal; the empty text is zero. *)
Definition stringToNumber (text : string) : float :=
  match trimEnd (trimStart text) with
  | EmptyString => 0%float
  | String "0" (String "x" rest) | String "0" (String "X" rest) =>
      nonDecimal 16 rest
  | String "0" (String "o" rest) | String "0" (String "O" rest) =>
      nonDecimal 8 rest
  | String "0" (String "b" rest) | String "0" (String "B" rest) =>
      nonDecimal 2 rest
  | s =>
      let (neg, s) := readSign s in
      if String.eqb s "Infinity" then (if neg then neg_infinity else infinity)
      else
        let '(int, ni, s) := readDigits s 0 0 in
        let '(m, nf, s) :=
          match s with
          | String "." rest => readDigits rest int 0
          | _ => (int, 0, s)
          end in
        if ni + nf =? 0 then nan
        else
          match lastExponent s with
          | Some e => decimal_to_float neg m (e - nf) (ni + nf)
          | None => nan
          end
  end.

(** The format of a String argument, read as the nearest double. *)
Definition en_IN_text (s : string) : string := en_IN (stringToNumber s).

(** *** Two hosts *)

(** A current browser in India: local time is UTC+05:30 all year. *)
Definition india : Host :=
  Build_Host parseFloat (fun x => Some (en_IN x)) round toString
    (fun _ _ => 19800000) true stringToNumber (fun s => Some (en_IN_text s)).

(** Summer time in the United Kingdom in 2026: from 29 March 01:00 UTC
    to 25 October 01:00 UTC local time is one hour ahead of UTC.  A local
    time that the change skips or repeats is read with the offset in
    force before the change. *)
Definition bst_start : Z := 1774746000000.
Definition bst_end : Z := 1792890000000.

Definition londonTZA (t : Z) (isUTC : bool) : Z :=
  if isUTC then
    if (bst_start <=? t) && (t <? bst_end) then 3600000 else 0
  else
    if (bst_start + 3600000 <=? t) && (t <? bst_end + 3600000)
    then 3600000 else 0.

Definition london : Host :=
  Build_Host parseFloat (fun x => Some (en_IN x)) round toString
    londonTZA true stringToNumber (fun s => Some (en_IN_text s)).

(** A browser without [Intl], with Chart.js 2. *)
Definition old : Host :=
  Build_Host parseFloat (fun _ => None) round toString
    (fun _ _ => 0) false stringToNumber (fun _ => None).

End RefHost.

(** ** The older scripts: the coin list of [main.js] and the table of
    [portfolio.js]

    Both print prices with [toFixed(2)], and the table prints the coin id
    in upper case; the two functions of the language are parameters. *)

Module Older.

(** One element of the array that [/api/coins] returns. *)
Record CoinItem : Type := {
  item_id : string;
  item_symbol : string;
  item_name : string;
  item_image : string;
  item_price : JS.value           (* current_price *)
}.

(** A [div] of the coin container: the holes of its markup, and the coin
    id that its click listener passes to [openCoinModal]. *)
Record CoinDiv : Type := {
  div_src : string;
  div_alt : string;
  div_symbol : string;
  div_price : string;
  div_opens : string
}.

(** A row of [#portfolio-table]; a row that [insertRow] has made and that
    was given no markup has no cells and no remove button. *)
Record Row : Type := {
  row_id : nat;
  cells : list string
}.

Record Table : Type := {
  rows : list Row;
  nextRowId : nat
}.

Section Text.

Variable toFixed2 : float -> string.        (* x.toFixed(2) *)
Variable toUpperCase : string -> string.    (* s.toUpperCase() *)

(** [`$${v.toFixed(2)}`]: a [TypeError] ([None]) when [v] is [null] or
    [undefined], and when it is no Number and so has no [toFixed]. *)
Definition dollars (v : JS.value) : option string :=
  match v with
  | JS.Num x => Some ("$" ++ toFixed2 x)%string
  | JS.Undefined | JS.Null | JS.Bool _ | JS.Str _ | JS.Arr _ | JS.Obj _ => None
  end.

(** The [div] made for one coin, up to its [appendChild]. *)
Definition coinDiv (coin : CoinItem) : option CoinDiv :=
  match dollars (item_price coin) with
  | Some text =>
      Some {| div_src := item_image coin; div_alt := item_name coin;
              div_symbol := item_symbol coin; div_price := text;
              div_opens := item_id coin |}
  | None => None
  end.

(** [data.forEach(coin => ...)] on the children of the container: a throw
    in the callback ends the loop, what was appended stays. *)
Fixpoint appendCoins (data : list CoinItem) (children : list CoinDiv)
  : Completion unit * list CoinDiv :=
  match data with
  | [] => (Normal tt, children)
  | coin :: rest =>
      match coinDiv coin with
      | Some div => appendCoins rest (children ++ [div])
      | None => (Throw, children)
      end
  end.

(** The coin list of the [DOMContentLoaded] listener, once [/api/coins]
    has answered; a rejected promise leaves the container alone. *)
Definition listCoins (res : HttpResult (list CoinItem))
    (children : list CoinDiv) : list CoinDiv :=
  match res with
  | Response _ (Some data) => snd (appendCoins data children)
  | Response _ None | NetworkError => children
  end.

(** [a[a.length - 1]]: [undefined] ([None]) for an empty array. *)
Definition lastOf {A : Type} (a : list A) : option A :=
  match rev a with
  | x :: _ => Some x
  | [] => None
  end.

(** [table.insertRow()]: an empty row at the end. *)
Definition insertRow (t : Table) : Table :=
  {| rows := rows t ++ [ {| row_id := nextRowId t; cells := [] |} ];
     nextRowId := S (nextRowId t) |}.

(** [row.innerHTML = ...] on the row just inserted. *)
Definition fillLastRow (texts : list string) (t : Table) : Table :=
  {| rows := removelast (rows t)
             ++ match lastOf (rows t) with
                | Some r => [ {| row_id := row_id r; cells := texts |} ]
                | None => []
                end;
     nextRowId := nextRowId t |}.

(** [addCoinToPortfolio(coinId, quantity)], once [/api/predict] has
    answered; [quantity] is the text that the template prints for it.  The
    last points are read first (a [TypeError] on an empty array), then the
    row is inserted, then the markup is made (a [TypeError] on a price that
    is [null] or [undefined]). *)
Definition addCoinToPortfolio (coinId quantity : string)
    (res : HttpResult Legacy.PredictBody) (t : Table) : Table :=
  match res with
  | Response _ (Some data) =>
      match lastOf (Legacy.history data),
            lastOf (Legacy.p3m (Legacy.predictions data)),
            lastOf (Legacy.p6m (Legacy.predictions data)),
            lastOf (Legacy.p1y (Legacy.predictions data)) with
      | Some h, Some a, Some b, Some c =>
          let t := insertRow t in
          match dollars (Legacy.price h), dollars (Legacy.predicted a),
                dollars (Legacy.predicted b), dollars (Legacy.predicted c) with
          | Some currentPrice, Some pred3m, Some pred6m, Some pred1y =>
              fillLastRow
                [toUpperCase coinId; quantity; currentPrice; pred3m; pred6m;
                 pred1y] t
          | _, _, _, _ => t
          end
      | _, _, _, _ => t
      end
  | Response _ None | NetworkError => t
  end.

End Text.

(** [removeRow(btn)] for the button of the row [id]; [confirmed] is the
    answer of the user to [confirm]. *)
Definition removeRow (confirmed : bool) (id : nat) (t : Table) : Table :=
  if confirmed then
    {| rows := filter (fun r => negb (Nat.eqb (row_id r) id)) (rows t);
       nextRowId := nextRowId t |}
  else t.

End Older.

(** ** Reference text functions *)

Module RefText.

Local Open Scope Z_scope.

(** [x.toFixed(2)]: hundredths nearest to [x], the larger on a tie; from
    1e21 on the text is that of [toString]. *)
Definition toFixed2 (x : float) : string :=
  match Prim2SF x with
  | S754_nan => "NaN"
  | S754_infinity s => (RefHost.minus s ++ "Infinity")%string
  | S754_zero _ => "0.00"
  | S754_finite s m e =>
      if (1000000000000000000000 <=? Zpos m * 2 ^ e)%Z && (0 <=? e)%Z
      then RefHost.toString x
      else
        let n := RefHost.hundredths m e in
        (RefHost.minus s ++ RefHost.digits (n / 100) ++ "."
         ++ Dates.pad 2 (n mod 100))%string
  end.

Definition upper (c : ascii) : ascii :=
  let n := nat_of_ascii c in
  if ((97 <=? n) && (n <=? 122))%nat then ascii_of_nat (n - 32) else c.

(** [s.toUpperCase()] for text in ASCII. *)
Fixpoint toUpperCase (s : string) : string :=
  match s with
  | String c rest => String (upper c) (toUpperCase rest)
  | EmptyString => EmptyString
  end.

End RefText.

(** ** Pages and responses used in the worked cases *)

Module Cases.

(** The home page as served, with every element in place and an empty
    local storage. *)
Definition home : Page :=
  {| localStorage := {| item_theme := None; item_portfolio := None |};
     dataTheme := None;
     controls :=
       {| themeToggle := Some false; modeQty := Some true;
          modeBudget := Some false; inputQty := Some "";
          inputBudget := Some "" |};
     notifier :=
       {| appToast := true; toastBody := ""; notices := [];
          consoleErrors := 0 |};
     grid := {| coinGrid := Some ""; globalSpinner := Some "" |};
     modal :=
       {| modalLogo := ""; modalName := ""; modalSymbol := "";
          modalAbout := ""; modalCurrent := ""; pred3m := ""; pred6m := "";
          pred1y := ""; btnAddPortfolio := None; modeHandlers := false;
          qtyGroup := ""; budgetGroup := "none"; shown := false |};
     charts := {| chart := None; priceChart := []; nextChartId := 0 |} |}.

Definition bitcoin : ModalArgs :=
  {| arg_symbol := "BTC"; arg_id := "bitcoin"; arg_name := "Bitcoin" |}.

Definition ethereum : ModalArgs :=
  {| arg_symbol := "ETH"; arg_id := "ethereum"; arg_name := "Ethereum" |}.

(** [{current_price: 5000000, pred_3m: 5200000}] *)
Definition predict_bitcoin : Preds :=
  {| current_price := JS.Num 5000000; pred_3m := JS.Num 5200000;
     pred_6m := JS.Undefined; pred_1y := JS.Undefined;
     series3m := None; series6m := None; series1y := None |}.

(** [{current_price: 0}] *)
Definition predict_zero : Preds :=
  {| current_price := JS.Num 0; pred_3m := JS.Undefined;
     pred_6m := JS.Undefined; pred_1y := JS.Undefined;
     series3m := None; series6m := None; series1y := None |}.

(** One price point, at 2026-03-27T00:30:00Z. *)
Definition one_point : HistoryBody :=
  {| prices := Some [ (1774571400000%Z, JS.Num 5000000) ] |}.

Definition no_points : HistoryBody := {| prices := Some [] |}.

(** 2026-11-03T12:00:00Z *)
Definition now : Z := 1793707200000.

(** The page of the older scripts as served. *)
Definition old_page : Legacy.Page :=
  {| Legacy.localStorage := {| item_theme := None; item_portfolio := None |};
     Legacy.dataTheme := None;
     Legacy.dark_mode := false;
     Legacy.flip := false;
     Legacy.display := "none";
     Legacy.coin_chart := [];
     Legacy.nextChartId := 0;
     Legacy.coin_description := None |}.

Definition old_history : list Legacy.HistoryPoint :=
  [ {| Legacy.date := "2026-03-26"; Legacy.price := JS.Num 4900000 |};
    {| Legacy.date := "2026-03-27"; Legacy.price := JS.Num 5000000 |} ].

Definition old_predictions : Legacy.Predictions :=
  {| Legacy.p3m := [ {| Legacy.pdate := "2026-06-27";
                        Legacy.predicted := JS.Num 5200000 |} ];
     Legacy.p6m := [ {| Legacy.pdate := "2026-09-27";
                        Legacy.predicted := JS.Num 5400000 |} ];
     Legacy.p1y := [ {| Legacy.pdate := "2027-03-27";
                        Legacy.predicted := JS.Num 6000000 |} ] |}.

End Cases.

(** ** Vocabulary of the properties *)

(** The persisted portfolio list of a page. *)
Definition portfolio (pg : Page) : list Entry := loadPortfolio (localStorage pg).

Definition symbols (data : list Entry) : list string := map entry_symbol data.

Definition entriesFor (s : string) (data : list Entry) : list Entry :=
  filter (fun x => String.eqb (entry_symbol x) s) data.

Definition others (s : string) (data : list Entry) : list Entry :=
  filter (fun x => negb (String.eqb (entry_symbol x) s)) data.

(** A list as the script's [JSON.stringify] writes it: reading it and
    writing it again gives the same list. *)
Definition persisted (data : list Entry) : Prop := stored data = data.

(** At most one live chart, and the [chart] variable refers to it. *)
Definition one_chart (cs : Charts) : Prop :=
  priceChart cs = []
  \/ exists c, priceChart cs = [c] /\ chart cs = Some (chart_id c).

(** The date part of [toISOString] for a day number, and its first ten
    characters: the label of that day. *)
Definition datePart (day : Z) : string :=
  let '(y, m, d) := Dates.civil_from_days day in
  (Dates.isoYear y ++ "-" ++ Dates.pad 2 m ++ "-" ++ Dates.pad 2 d)%string.

Definition dayLabel (day : Z) : string := Dates.slice_0_10 (datePart day).

(** The host keeps one UTC offset all year. *)
Definition fixedOffset (H : Host) (offset : Z) : Prop :=
  forall t isUTC, LocalTZA H t isUTC = offset.

(** Checking one 400-year era of the calendar day by day: the day of the
    era converts to a date with month 1..12 and day 1..31, and back. *)
Definition era_ok (doe : Z) : bool :=
  let '(y, m, d) := Dates.civil_from_days (doe - 719468) in
  ((Dates.days_from_civil y m d =? doe - 719468)
   && (1 <=? m) && (m <=? 12) && (1 <=? d) && (d <=? 31))%Z.

Fixpoint era_ok_from (n : nat) (doe : Z) : bool :=
  match n with
  | O => true
  | S n' => era_ok doe && era_ok_from n' (doe + 1)
  end.

(** A relation between the page before and the page after that every
    run of the script respects, whether it completes or throws. *)
Definition keeps (R : Page -> Page -> Prop) {A : Type} (c : Script A) : Prop :=
  forall pg, R pg (snd (c pg)).

(** Hoare triples for scripts, with a postcondition for normal completion
    and one for a throw. *)
Definition triple {A : Type} (P : Page -> Prop) (c : Script A)
    (N : A -> Page -> Prop) (E : Page -> Prop) : Prop :=
  forall pg, P pg ->
    match c pg with
    | (Normal a, pg') => N a pg'
    | (Throw, pg') => E pg'
    end.

Definition same_storage (a b : Page) : Prop := localStorage a = localStorage b.

Definition same_controls (a b : Page) : Prop := controls a = controls b.

Definition same_fields (a b : Page) : Prop :=
  modalCurrent (modal a) = modalCurrent (modal b)
  /\ pred3m (modal a) = pred3m (modal b)
  /\ pred6m (modal a) = pred6m (modal b)
  /\ pred1y (modal a) = pred1y (modal b).

Definition is_symbol (s : string) (x : Entry) : bool :=
  String.eqb (entry_symbol x) s.

Definition argsOf (c : Coin) : ModalArgs :=
  {| arg_symbol := coin_symbol c; arg_id := coin_id c; arg_name := coin_name c |}.

(** Exactly one live chart, with these labels, and [chart] refers to it. *)
Definition drawn (labels : list string) (pg : Page) : Prop :=
  exists c, priceChart (charts pg) = [c]
            /\ chart (charts pg) = Some (chart_id c)
            /\ chart_labels c = labels.

Definition tidy (pg : Page) : Prop := one_chart (charts pg).

(** The charts after [chart = new Chart(...)] on a canvas without a
    chart. *)
Definition chartsWith (cs : Charts) (labels : list string)
    (datasets : list Dataset) : Charts :=
  {| chart := Some (nextChartId cs);
     priceChart := [ {| chart_id := nextChartId cs; chart_labels := labels;
                        chart_datasets := datasets |} ];
     nextChartId := S (nextChartId cs) |}.

(** A quantity that JSON text can hold: [null] or a finite double. *)
Definition null_or_finite (q : option float) : Prop :=
  match q with
  | Some x => is_finite x = true
  | None => True
  end.

Definition has_price (coin : Older.CoinItem) : bool :=
  match Older.item_price coin with
  | JS.Num _ => true
  | JS.Undefined | JS.Null | JS.Bool _ | JS.Str _ | JS.Arr _ | JS.Obj _ => false
  end.

(** The coins up to the first one without a price. *)
Fixpoint priced (data : list Older.CoinItem) : list Older.CoinItem :=
  match data with
  | [] => []
  | coin :: rest => if has_price coin then coin :: priced rest else []
  end.

(** The events of an opening, by name, and the turn of the event loop
    that each of them is. *)
Inductive Event : Type :=
| ClickCard (a : ModalArgs)
| HistoryArrives (a : ModalArgs) (hres : HttpResult HistoryBody)
| PredictionsArrive (now : Z) (a : ModalArgs) (pres : HttpResult Preds).

Inductive fires (H : Host) (catalog : list Coin)
  : Event -> Browser -> Browser -> Prop :=
| fires_click a pg ps :
    fires H catalog (ClickCard a) (pg, ps)
      (run (openHeader catalog a) pg, ps ++ [AwaitsHistory a])
| fires_history a hres h pg ps1 ps2 :
    readHistory hres = Normal h ->
    fires H catalog (HistoryArrives a hres)
      (pg, ps1 ++ AwaitsHistory a :: ps2)
      (pg, ps1 ++ AwaitsPredictions a h :: ps2)
| fires_history_failed a hres pg ps1 ps2 :
    readHistory hres = Throw ->
    fires H catalog (HistoryArrives a hres)
      (pg, ps1 ++ AwaitsHistory a :: ps2) (run failedToLoad pg, ps1 ++ ps2)
| fires_predictions now a h pres pg ps1 ps2 :
    fires H catalog (PredictionsArrive now a pres)
      (pg, ps1 ++ AwaitsPredictions a h :: ps2)
      (predictionsArrive H now a h pres pg, ps1 ++ ps2).

(** The rows of a table are told apart by their numbers, and the next
    number is not in use. *)
Definition numbered (t : Older.Table) : Prop :=
  NoDup (map Older.row_id (Older.rows t))
  /\ Forall (fun r => Older.row_id r < Older.nextRowId t) (Older.rows t).

(** The price that [renderGrid] hands to the template for a coin. *)
Definition livePrice (res : HttpResult Prices) (c : Coin) : JS.value :=
  match fetchLivePricesInINR res with
  | Normal prices => inr_of prices (coin_id c)
  | Throw => JS.Null
  end.

(** Text that the parser reads as it stands, in a quoted attribute value
    and between tags: none of [<], [&], the double quote, NUL and CR. *)
Definition plain_char (c : ascii) : bool :=
  negb (Ascii.eqb c "<" || Ascii.eqb c "&" || Ascii.eqb c HTML.dquote
        || Ascii.eqb c "000" || Ascii.eqb c "013").

Fixpoint plain (s : string) : bool :=
  match s with
  | EmptyString => true
  | String c rest => plain_char c && plain rest
  end.

Definition plainCard (el : Card) : bool :=
  plain (data_symbol el) && plain (data_id el) && plain (data_name el)
  && plain (img_src el) && plain (priceText el).

Definition plainCoin (c : Coin) : bool :=
  plain (coin_symbol c) && plain (coin_id c) && plain (coin_name c)
  && plain (coin_img c).

(** The element that the markup of a card denotes when its texts are
    plain. *)
Definition cardElement (el : Card) : HTML.Node :=
  HTML.Element "div"
    [ ("class", "coin-card flip-3d"); ("data-symbol", data_symbol el);
      ("data-id", data_id el); ("data-name", data_name el) ]
    [ HTML.Text (newline ++ "    ");
      HTML.Element "img"
        [ ("class", "coin-img"); ("src", img_src el); ("alt", data_name el);
          ("onerror",
           "this.style.display='none';this.nextElementSibling.classList.remove('d-none');") ]
        [];
      HTML.Text (newline ++ "    ");
      HTML.Element "div" [ ("class", "coin-fallback d-none place-center") ]
        (HTML.text_nodes (data_symbol el));
      HTML.Text (newline ++ "    ");
      HTML.Element "div" [ ("class", "coin-overlay") ]
        [ HTML.Text (newline ++ "      ");
          HTML.Element "div" []
            [ HTML.Text (newline ++ "        ");
              HTML.Element "div" [ ("class", "name") ]
                [ HTML.Text (data_name el ++ " ");
                  HTML.Element "span" [ ("class", "subtle") ]
                    [ HTML.Text ("(" ++ data_symbol el ++ ")") ] ];
              HTML.Text (newline ++ "        ");
              HTML.Element "div" [ ("class", "price") ]
                (HTML.text_nodes (priceText el));
              HTML.Text (newline ++ "      ") ];
          HTML.Text (newline ++ "    ") ];
      HTML.Text (newline ++ "  ") ].

(** The tree of the joined markup of cards with plain texts: for each
    card, in order, the white space that opens its markup, and its
    element. *)
Definition cardNodes (cards : list Card) : list HTML.Node :=
  flat_map (fun el => [HTML.Text (newline ++ "  "); cardElement el]) cards.

(** The descendant elements of an element, in tree order. *)
Definition descendants (el : HTML.Node) : list HTML.Node :=
  flat_map HTML.elements (HTML.childNodes el).

Definition is_img (n : HTML.Node) : bool :=
  match HTML.tagName n with
  | Some name => String.eqb name "img"
  | None => false
  end.

(** What a card element carries and shows, read back from the tree: the
    three data attributes, the source of its image, and the text of its
    price element. *)
Definition cardOf (el : HTML.Node) : option Card :=
  match HTML.getAttribute "data-symbol" el, HTML.getAttribute "data-id" el,
        HTML.getAttribute "data-name" el,
        find is_img (descendants el),
        find (HTML.hasClass "price") (descendants el) with
  | Some symbol, Some id, Some name, Some img, Some price =>
      match HTML.getAttribute "src" img with
      | Some src =>
          Some {| data_symbol := symbol; data_id := id; data_name := name;
                  img_src := src; priceText := HTML.textContent price |}
      | None => None
      end
  | _, _, _, _, _ => None
  end.

(** Pages and responses of further worked cases. *)
Module MoreCases.


(** The home page after bitcoin was opened to the end. *)
Definition opened : Page :=
  openCoinModal RefHost.india COINS Cases.now Cases.bitcoin
    (Response true (Some Cases.one_point))
    (Response true (Some Cases.predict_bitcoin)) Cases.home.

Definition coins : list Older.CoinItem :=
  [ {| Older.item_id := "bitcoin"; Older.item_symbol := "btc";
       Older.item_name := "Bitcoin"; Older.item_image := "/btc.png";
       Older.item_price := JS.Num 61234.5 |};
    {| Older.item_id := "ethereum"; Older.item_symbol := "eth";
       Older.item_name := "Ethereum"; Older.item_image := "/eth.png";
       Older.item_price := JS.Null |};
    {| Older.item_id := "solana"; Older.item_symbol := "sol";
       Older.item_name := "Solana"; Older.item_image := "/sol.png";
       Older.item_price := JS.Num 150 |} ].

Definition empty_table : Older.Table :=
  {| Older.rows := []; Older.nextRowId := 0 |}.

Definition predict_body : Legacy.PredictBody :=
  {| Legacy.history := Cases.old_history;
     Legacy.predictions := Cases.old_predictions |}.

(** What [openCoinModal] makes of the response [Cases.one_point]. *)
Definition history_one : History :=
  {| points := [ (Some 1774571400000%Z, JS.Num 5000000) ];
     labelsHist := [ "2026-03-27" ];
     pricesHist := [ JS.Num 5000000 ] |}.

(** The axis for that history in India. *)
Definition india_labels : list string :=
  Eval vm_compute in
    match buildLabels RefHost.india Cases.now history_one with
    | Some l => l
    | None => []
    end.

End MoreCases.

(** * Properties *)

(** ** Doubles *)

Module Doubles.

Lemma zero_spec : Prim2SF 0 = S754_zero false.
Proof. vm_compute. reflexivity. Qed.


(** A positive double passes both checks. *)
Lemma checks_of_positive (x : float) :
  (0 <? x)%float = true -> JS.truthy x = true /\ (x <=? 0)%float = false.
Proof.
  unfold JS.truthy, is_zero, is_nan.
  rewrite FloatAxioms.ltb_spec, FloatAxioms.leb_spec, !FloatAxioms.eqb_spec.
  rewrite zero_spec. unfold SFltb, SFleb, SFeqb.
  destruct (Prim2SF x) as [s| s | |s m e]; simpl;
    try destruct s; simpl; try (intros; split; congruence).
  intros _. split; [|reflexivity].
  rewrite Z.compare_refl, Pos.compare_cont_refl. reflexivity.
Qed.

Lemma truthy_not_zero (x : float) : JS.truthy x = true -> is_zero x = false.
Proof.
  unfold JS.truthy. destruct (is_zero x); simpl; congruence.
Qed.

Lemma infinity_spec : Prim2SF infinity = S754_infinity false.
Proof. vm_compute. reflexivity. Qed.

(** The finite doubles are the zeros and the numbers with a mantissa. *)
Lemma finite_spec (x : float) :
  is_finite x = true <->
  match Prim2SF x with
  | S754_zero _ | S754_finite _ _ _ => True
  | S754_infinity _ | S754_nan => False
  end.
Proof.
  unfold is_finite, is_nan, is_infinity.
  rewrite !FloatAxioms.eqb_spec, FloatAxioms.abs_spec, infinity_spec.
  unfold SFeqb.
  destruct (Prim2SF x) as [s| s | |s m e]; cbn;
    try destruct s; cbn;
    rewrite ?Z.compare_refl, ?Pos.compare_cont_refl; cbn;
    split; intros; try tauto; try discriminate.
Qed.

(** A finite sum has a finite first term. *)
Lemma add_finite_left (x y : float) :
  is_finite (x + y)%float = true -> is_finite x = true.
Proof.
  rewrite !finite_spec, FloatAxioms.add_spec.
  unfold SF64add, SFadd.
  destruct (Prim2SF x) as [s| s | |s m e]; try tauto;
    destruct (Prim2SF y) as [s'| s' | |s' m' e']; try tauto;
    destruct s, s'; tauto.
Qed.

End Doubles.

(** ** JSON numbers *)

Module Json.

Lemma number_exact (x : float) :
  is_finite x = true -> is_zero x = false -> JS.json_number x = Some x.
Proof.
  intros Hf Hz. unfold JS.json_number. rewrite Hf, Hz. reflexivity.
Qed.

(** What was read back is written back unchanged. *)
Lemma number_idem (x y : float) :
  JS.json_number x = Some y -> JS.json_number y = Some y.
Proof.
  unfold JS.json_number.
  destruct (is_finite x) eqn:Hf; [|discriminate].
  destruct (is_zero x) eqn:Hz; intros [= <-].
  - vm_compute. reflexivity.
  - rewrite Hf, Hz. reflexivity.
Qed.

(** A finite double is read back as a double equal to it (the two zeros
    are equal doubles). *)
Lemma number_finite (x : float) :
  is_finite x = true ->
  exists y, JS.json_number x = Some y /\ (y =? x)%float = true.
Proof.
  intros Hf. unfold JS.json_number. rewrite Hf.
  destruct (is_zero x) eqn:Hz.
  - exists zero. split; [reflexivity|].
    unfold is_zero in Hz. revert Hz. unfold zero.
    rewrite !FloatAxioms.eqb_spec, Doubles.zero_spec. unfold SFeqb.
    destruct (Prim2SF x) as [s| s | |s m e]; simpl;
      try destruct s; simpl; congruence.
  - exists x. split; [reflexivity|].
    unfold is_finite, is_nan in Hf.
    destruct (x =? x)%float; [reflexivity|discriminate].
Qed.

(** Only a finite double is read back as a double. *)
Lemma number_some (x y : float) :
  JS.json_number x = Some y -> is_finite x = true.
Proof.
  unfold JS.json_number. destruct (is_finite x); [reflexivity|discriminate].
Qed.

Lemma stored_idem (data : list Entry) : stored (stored data) = stored data.
Proof.
  unfold stored. rewrite map_map. apply map_ext. intros [s n q]. simpl.
  f_equal. destruct q as [q|]; [|reflexivity].
  destruct (JS.json_number q) as [y|] eqn:E; [|reflexivity].
  exact (number_idem _ _ E).
Qed.

Lemma stored_persisted (data : list Entry) : persisted (stored data).
Proof. apply stored_idem. Qed.

Lemma stored_symbols (data : list Entry) : symbols (stored data) = symbols data.
Proof.
  unfold symbols, stored. rewrite map_map. apply map_ext. reflexivity.
Qed.

Lemma stored_app (a b : list Entry) : stored (a ++ b) = stored a ++ stored b.
Proof. apply map_app. Qed.

Lemma stored_others (s : string) (data : list Entry) :
  others s (stored data) = stored (others s data).
Proof.
  unfold others, stored. induction data as [|x rest IH]; [reflexivity|].
  simpl. destruct (String.eqb (entry_symbol x) s); simpl; rewrite IH; reflexivity.
Qed.

Lemma stored_entriesFor (s : string) (data : list Entry) :
  entriesFor s (stored data) = stored (entriesFor s data).
Proof.
  unfold entriesFor, stored. induction data as [|x rest IH]; [reflexivity|].
  simpl. destruct (String.eqb (entry_symbol x) s); simpl; rewrite IH; reflexivity.
Qed.

Lemma persisted_others (s : string) (data : list Entry) :
  persisted data -> persisted (others s data).
Proof.
  unfold persisted. intros Hp. rewrite <- stored_others, Hp. reflexivity.
Qed.

End Json.

(** ** Merging into the portfolio list *)

Module Merge.

Lemma findIndex_none (s : string) (data : list Entry) :
  findIndex (is_symbol s) data = None <-> ~ In s (symbols data).
Proof.
  unfold is_symbol. induction data as [|x rest IH]; simpl.
  - tauto.
  - destruct (String.eqb (entry_symbol x) s) eqn:E.
    + apply String.eqb_eq in E. split; [discriminate|tauto].
    + apply String.eqb_neq in E.
      destruct (findIndex _ rest) as [i|].
      * split; [discriminate|]. intros Hn. exfalso. apply Hn. right.
        destruct (in_dec string_dec s (symbols rest)) as [Hin|Hout];
          [exact Hin|]. apply IH in Hout. discriminate.
      * split; [|reflexivity]. intros _ [Hx|Hin]; [congruence|].
        apply IH in Hin; [exact Hin|reflexivity].
Qed.

Lemma merge_absent (s n : string) (q : float) (data : list Entry) :
  ~ In s (symbols data) ->
  merge s n q data
  = data ++ [ {| entry_symbol := s; entry_name := n; entry_qty := Some q |} ].
Proof.
  intros Hout. unfold merge.
  apply findIndex_none in Hout. unfold is_symbol in Hout.
  rewrite Hout. reflexivity.
Qed.

(** The symbols of the list: one more at the end for a new symbol, the
    same list for a symbol that is there. *)
Lemma addQty_symbols (i : nat) (q : float) (data : list Entry) :
  symbols (addQty i q data) = symbols data.
Proof.
  revert i. induction data as [|x rest IH]; intros [|i]; simpl;
    try reflexivity. f_equal. apply IH.
Qed.

Lemma merge_symbols (s n : string) (q : float) (data : list Entry) :
  symbols (merge s n q data)
  = if in_dec string_dec s (symbols data) then symbols data
    else symbols data ++ [s].
Proof.
  unfold merge. fold (is_symbol s).
  destruct (in_dec string_dec s (symbols data)) as [Hin|Hout].
  - destruct (findIndex (is_symbol s) data) as [i|] eqn:E.
    + apply addQty_symbols.
    + apply findIndex_none in E. contradiction.
  - apply findIndex_none in Hout. rewrite Hout.
    unfold symbols. rewrite map_app. reflexivity.
Qed.

(** The entries of the other symbols are left as they are. *)
Lemma addQty_others (s : string) (q : float) (data : list Entry) (i : nat) :
  findIndex (is_symbol s) data = Some i ->
  others s (addQty i q data) = others s data.
Proof.
  unfold others, is_symbol. revert i.
  induction data as [|x rest IH]; intros i; simpl; [discriminate|].
  destruct (String.eqb (entry_symbol x) s) eqn:E.
  - intros [= <-]. simpl. rewrite E. reflexivity.
  - destruct (findIndex _ rest) as [j|]; [|discriminate].
    intros [= <-]. simpl. rewrite E. simpl. f_equal. apply IH. reflexivity.
Qed.

Lemma merge_others (s n : string) (q : float) (data : list Entry) :
  others s (merge s n q data) = others s data.
Proof.
  unfold merge. fold (is_symbol s).
  destruct (findIndex (is_symbol s) data) as [i|] eqn:E.
  - apply addQty_others. exact E.
  - unfold others. rewrite filter_app. simpl.
    rewrite String.eqb_refl. simpl. apply app_nil_r.
Qed.

(** The entries of the symbol itself: the first of them gets the
    quantity added, or a first one is made. *)
Lemma addQty_entriesFor (s : string) (q : float) (data : list Entry) (i : nat) :
  findIndex (is_symbol s) data = Some i ->
  exists x rest,
    entriesFor s data = x :: rest
    /\ entriesFor s (addQty i q data)
       = {| entry_symbol := entry_symbol x; entry_name := entry_name x;
            entry_qty := Some (JS.plus (entry_qty x) q) |} :: rest.
Proof.
  unfold entriesFor, is_symbol. revert i.
  induction data as [|x rest IH]; intros i; simpl; [discriminate|].
  destruct (String.eqb (entry_symbol x) s) eqn:E.
  - intros [= <-]. exists x, (entriesFor s rest). simpl. rewrite E.
    split; reflexivity.
  - destruct (findIndex _ rest) as [j|]; [|discriminate].
    intros [= <-]. simpl. rewrite E. apply IH. reflexivity.
Qed.

Lemma entriesFor_absent (s : string) (data : list Entry) :
  ~ In s (symbols data) -> entriesFor s data = [].
Proof.
  unfold entriesFor. induction data as [|x rest IH]; simpl; [reflexivity|].
  intros Hout. destruct (String.eqb (entry_symbol x) s) eqn:E.
  - apply String.eqb_eq in E. tauto.
  - apply IH. tauto.
Qed.

Lemma merge_length (s n : string) (q : float) (data : list Entry) :
  List.length (merge s n q data)
  = if in_dec string_dec s (symbols data) then List.length data
    else S (List.length data).
Proof.
  pose proof (merge_symbols s n q data) as Hs.
  apply (f_equal (@List.length string)) in Hs.
  unfold symbols in *. rewrite length_map in Hs. rewrite Hs.
  destruct (in_dec string_dec s (map entry_symbol data)).
  - apply length_map.
  - rewrite length_app, length_map. simpl. lia.
Qed.

(** No symbol twice: kept by every merge. *)
Lemma merge_NoDup (s n : string) (q : float) (data : list Entry) :
  NoDup (symbols data) -> NoDup (symbols (merge s n q data)).
Proof.
  intros Hnd. rewrite merge_symbols.
  destruct (in_dec string_dec s (symbols data)) as [Hin|Hout]; [exact Hnd|].
  apply NoDup_app.
  - exact Hnd.
  - constructor; [intros []|constructor].
  - intros a Ha [<-|[]]. contradiction.
Qed.

End Merge.

(** ** [addToPortfolio] on the page *)

Module Adding.

Lemma toast_localStorage (msg : string) (pg : Page) :
  localStorage (toast msg pg) = localStorage pg.
Proof. unfold toast. destruct (appToast (notifier pg)); reflexivity. Qed.

Lemma toast_controls (msg : string) (pg : Page) :
  controls (toast msg pg) = controls pg.
Proof. unfold toast. destruct (appToast (notifier pg)); reflexivity. Qed.

Lemma toast_charts (msg : string) (pg : Page) :
  charts (toast msg pg) = charts pg.
Proof. unfold toast. destruct (appToast (notifier pg)); reflexivity. Qed.

Lemma toast_modal (msg : string) (pg : Page) :
  modal (toast msg pg) = modal pg.
Proof. unfold toast. destruct (appToast (notifier pg)); reflexivity. Qed.

Lemma save_portfolio (s n : string) (q : float) (pg : Page) :
  portfolio (savePortfolio s n q pg) = stored (merge s n q (portfolio pg)).
Proof.
  unfold portfolio, savePortfolio. rewrite toast_localStorage. reflexivity.
Qed.

Lemma save_controls (s n : string) (q : float) (pg : Page) :
  controls (savePortfolio s n q pg) = clearInputs (controls pg).
Proof. unfold savePortfolio. rewrite toast_controls. reflexivity. Qed.

(** Whatever [addToPortfolio] does, the list it leaves is the old list or
    a merge into it, written out. *)
Lemma add_portfolio (H : Host) (s n : string) (P : JS.value) (pg : Page) :
  portfolio (addToPortfolio H s n P pg) = portfolio pg
  \/ exists q, portfolio (addToPortfolio H s n P pg)
               = stored (merge s n q (portfolio pg)).
Proof.
  unfold addToPortfolio.
  destruct (readQuantity H P (controls pg)) as [msg|q|b p].
  - left. unfold portfolio. rewrite toast_localStorage. reflexivity.
  - right. exists q. apply save_portfolio.
  - right. exists (b / p)%float. apply save_portfolio.
Qed.

(** In quantity mode a positive entry is taken as it is. *)
Lemma read_entered (H : Host) (P : JS.value) (c : Controls) :
  quantityMode c = true -> (0 <? enteredQty H c)%float = true ->
  readQuantity H P c = Entered (enteredQty H c).
Proof.
  intros Hm Hq. unfold readQuantity. rewrite Hm.
  destruct (Doubles.checks_of_positive _ Hq) as [Ht Hl].
  rewrite Ht, Hl. reflexivity.
Qed.

(** In budget mode a positive budget is divided by a truthy price. *)
Lemma read_bought (H : Host) (P : float) (c : Controls) :
  quantityMode c = false -> (0 <? enteredBudget H c)%float = true ->
  JS.truthy P = true ->
  readQuantity H (JS.Num P) c = Bought (enteredBudget H c) P.
Proof.
  intros Hm Hb Hp. unfold readQuantity. rewrite Hm.
  destruct (Doubles.checks_of_positive _ Hb) as [Ht Hl].
  rewrite Ht, Hl. simpl. rewrite Hp. reflexivity.
Qed.

Lemma typeQty_entered (H : Host) (v : string) (pg : Page) :
  inputQty (controls pg) <> None -> v <> "" ->
  enteredQty H (controls (typeQty v pg)) = parseFloat H v.
Proof.
  intros He Hv. unfold typeQty, enteredQty.
  destruct (inputQty (controls pg)) eqn:E; [|congruence]. simpl.
  destruct (String.eqb v "") eqn:Ev; [|reflexivity].
  apply String.eqb_eq in Ev. contradiction.
Qed.

Lemma typeQty_mode (v : string) (pg : Page) :
  quantityMode (controls (typeQty v pg)) = quantityMode (controls pg).
Proof.
  unfold typeQty. destruct (inputQty (controls pg)); reflexivity.
Qed.

Lemma typeQty_portfolio (v : string) (pg : Page) :
  portfolio (typeQty v pg) = portfolio pg.
Proof.
  unfold typeQty. destruct (inputQty (controls pg)); reflexivity.
Qed.

Lemma clearInputs_mode (c : Controls) :
  quantityMode (clearInputs c) = quantityMode c.
Proof. reflexivity. Qed.

Lemma clearInputs_inputQty (c : Controls) :
  inputQty c <> None -> inputQty (clearInputs c) <> None.
Proof. unfold clearInputs. simpl. destruct (inputQty c); congruence. Qed.

End Adding.

(** C2.  A rejected call of [addToPortfolio] writes nothing: with a
    quantity [<= 0] in quantity mode, with a budget [<= 0] in budget mode,
    in budget mode without a current price (missing, [null], zero), and
    whenever else the input is turned down (text that is no number), the
    call only shows a message, and the local storage, the list under
    ["portfolio"] included, is the same after the call as before it. *)
Theorem rejected_add_writes_nothing (H : Host) (symbol name : string)
    (currentPrice : JS.value) (pg : Page) :
  (quantityMode (controls pg) = true
   /\ (enteredQty H (controls pg) <=? 0)%float = true)
  \/ (quantityMode (controls pg) = false
      /\ (enteredBudget H (controls pg) <=? 0)%float = true)
  \/ (quantityMode (controls pg) = false
      /\ JS.toBoolean currentPrice = false)
  \/ (exists msg, readQuantity H currentPrice (controls pg) = Rejected msg) ->
  (exists msg, addToPortfolio H symbol name currentPrice pg = toast msg pg)
  /\ localStorage (addToPortfolio H symbol name currentPrice pg) = localStorage pg
  /\ portfolio (addToPortfolio H symbol name currentPrice pg) = portfolio pg.
Proof.
  intros Hrej.
  assert (exists msg, readQuantity H currentPrice (controls pg) = Rejected msg)
    as [msg Hr].
  { unfold readQuantity.
    destruct Hrej as [[Hm Hq]|[[Hm Hb]|[[Hm Hp]|Hr]]];
      [rewrite Hm| rewrite Hm|rewrite Hm|exact Hr].
    - rewrite Hq, orb_true_r. eexists. reflexivity.
    - rewrite Hb, orb_true_r. eexists. reflexivity.
    - rewrite Hp, orb_true_r. eexists. reflexivity. }
  unfold portfolio, addToPortfolio. rewrite Hr.
  rewrite Adding.toast_localStorage.
  split; [exists msg; reflexivity|split; reflexivity].
Qed.

Lemma rejected_add_writes_nothing_witness :
  let pg := typeQty "-1" Cases.home in
  (exists msg,
     addToPortfolio RefHost.india "BTC" "Bitcoin" (JS.Num 5000000) pg
     = toast msg pg)
  /\ localStorage (addToPortfolio RefHost.india "BTC" "Bitcoin"
                     (JS.Num 5000000) pg) = localStorage pg
  /\ portfolio (addToPortfolio RefHost.india "BTC" "Bitcoin"
                  (JS.Num 5000000) pg) = portfolio pg.
Proof.
  apply (rejected_add_writes_nothing RefHost.india "BTC" "Bitcoin"
           (JS.Num 5000000) (typeQty "-1" Cases.home)).
  left. split; vm_compute; reflexivity.
Defined.


Module Guard.



End Guard.



(** C9.  Frame of [addToPortfolio].  On a list as the script writes it, a
    successful add for a symbol leaves the entries of every other symbol as
    they were: the same entries with the same names and quantities in the
    same order.  Of the symbol's own entries the first gets a new quantity
    and keeps its name, or, when there was none, one entry is made. *)
Theorem add_frames_other_symbols (H : Host) (symbol name : string)
    (currentPrice : JS.value) (pg : Page) :
  persisted (portfolio pg) ->
  (forall msg, readQuantity H currentPrice (controls pg) <> Rejected msg) ->
  others symbol (portfolio (addToPortfolio H symbol name currentPrice pg))
  = others symbol (portfolio pg)
  /\ ((entriesFor symbol (portfolio pg) = []
       /\ exists q,
            entriesFor symbol
              (portfolio (addToPortfolio H symbol name currentPrice pg))
            = [ {| entry_symbol := symbol; entry_name := name;
                   entry_qty := q |} ])
      \/ (exists x rest q,
            entriesFor symbol (portfolio pg) = x :: rest
            /\ entriesFor symbol
                 (portfolio (addToPortfolio H symbol name currentPrice pg))
               = {| entry_symbol := entry_symbol x;
                    entry_name := entry_name x; entry_qty := q |} :: rest)).
Proof.
  intros Hp Hok.
  assert (exists q, portfolio (addToPortfolio H symbol name currentPrice pg)
                    = stored (merge symbol name q (portfolio pg))) as [q Hq].
  { unfold addToPortfolio.
    destruct (readQuantity H currentPrice (controls pg)) as [msg|q|b p].
    - exfalso. apply (Hok msg). reflexivity.
    - exists q. apply Adding.save_portfolio.
    - exists (b / p)%float. apply Adding.save_portfolio. }
  rewrite Hq. split.
  - rewrite Json.stored_others, Merge.merge_others.
    apply Json.persisted_others. exact Hp.
  - rewrite Json.stored_entriesFor. unfold merge. fold (is_symbol symbol).
    destruct (findIndex (is_symbol symbol) (portfolio pg)) as [i|] eqn:E.
    + right.
      destruct (Merge.addQty_entriesFor symbol q (portfolio pg) i E)
        as (x & rest & Hbefore & Hafter).
      rewrite Hafter. simpl.
      exists x, rest, (JS.json_number (JS.plus (entry_qty x) q)).
      split; [exact Hbefore|]. f_equal.
      assert (stored (x :: rest) = x :: rest) as Hs.
      { rewrite <- Hbefore, <- Json.stored_entriesFor, Hp. reflexivity. }
      simpl in Hs. injection Hs as _ Hrest. exact Hrest.
    + left. apply Merge.findIndex_none in E.
      pose proof (Merge.entriesFor_absent symbol (portfolio pg) E) as Hnone.
      split; [exact Hnone|].
      exists (JS.json_number q).
      unfold entriesFor in *. rewrite filter_app, Hnone. simpl.
      rewrite String.eqb_refl. reflexivity.
Qed.

Lemma add_frames_other_symbols_witness :
  let pg :=
    typeQty "2"
      (addToPortfolio RefHost.india "ETH" "Ethereum" JS.Undefined
         (typeQty "1.5" Cases.home)) in
  others "BTC" (portfolio (addToPortfolio RefHost.india "BTC" "Bitcoin"
                             JS.Undefined pg))
  = [ {| entry_symbol := "ETH"; entry_name := "Ethereum";
         entry_qty := Some 1.5%float |} ].
Proof.
  refine (eq_trans
    (proj1 (add_frames_other_symbols RefHost.india "BTC" "Bitcoin" JS.Undefined
       (typeQty "2"
          (addToPortfolio RefHost.india "ETH" "Ethereum" JS.Undefined
             (typeQty "1.5" Cases.home))) _ _)) _).
  - vm_compute. reflexivity.
  - intros msg. vm_compute. discriminate.
  - vm_compute. reflexivity.
Defined.

(** C3, as the claim states it, fails when the quotient overflows: with a
    budget of 1e308 and a current price of 0.5 (both accepted) the quotient
    is [Infinity], which JSON cannot carry; the entry is persisted with
    [qty: null], not with budget / price. *)
Lemma budget_overflow_stores_null :
  let pg := typeBudget "1e308" (pickMode false Cases.home) in
  let B := enteredBudget RefHost.india (controls pg) in
  let P := 0.5%float in
  quantityMode (controls pg) = false
  /\ (0 <? B)%float = true
  /\ JS.truthy P = true
  /\ map entry_qty
       (entriesFor "BTC"
          (portfolio (addToPortfolio RefHost.india "BTC" "Bitcoin" (JS.Num P) pg)))
     = [None]
  /\ [@None float] <> [Some (B / P)%float].
Proof.
  repeat split; try (vm_compute; reflexivity). discriminate.
Qed.

(** C3, amended.  In budget mode, with a positive budget [B] entered and a
    current price [P] that is a Number other than zero and [NaN], the
    quantity merged into the list is [B / P]; a symbol that was not in the
    list is persisted with the JSON image of [B / P], which is a double
    equal to [B / P] whenever [B / P] is finite (and [null] when it
    overflows).  In quantity mode the call does not look at the price: two
    calls that differ only in the price give the same page, and a positive
    quantity [q] entered is merged as it is. *)
Theorem budget_stores_quotient (H : Host) (symbol name : string) (pg : Page) :
  (quantityMode (controls pg) = false ->
   forall price,
     (0 <? enteredBudget H (controls pg))%float = true ->
     JS.truthy price = true ->
     portfolio (addToPortfolio H symbol name (JS.Num price) pg)
     = stored (merge symbol name (enteredBudget H (controls pg) / price)%float
                 (portfolio pg))
     /\ (~ In symbol (symbols (portfolio pg)) ->
         entriesFor symbol
           (portfolio (addToPortfolio H symbol name (JS.Num price) pg))
         = [ {| entry_symbol := symbol; entry_name := name;
                entry_qty :=
                  JS.json_number (enteredBudget H (controls pg) / price)%float |} ])
     /\ (is_finite (enteredBudget H (controls pg) / price)%float = true ->
         exists y,
           JS.json_number (enteredBudget H (controls pg) / price)%float = Some y
           /\ (y =? enteredBudget H (controls pg) / price)%float = true))
  /\ (quantityMode (controls pg) = true ->
      (forall p1 p2,
         addToPortfolio H symbol name p1 pg = addToPortfolio H symbol name p2 pg)
      /\ ((0 <? enteredQty H (controls pg))%float = true ->
          forall p,
            portfolio (addToPortfolio H symbol name p pg)
            = stored (merge symbol name (enteredQty H (controls pg)) (portfolio pg))
            /\ (~ In symbol (symbols (portfolio pg)) ->
                entriesFor symbol (portfolio (addToPortfolio H symbol name p pg))
                = [ {| entry_symbol := symbol; entry_name := name;
                       entry_qty :=
                         JS.json_number (enteredQty H (controls pg)) |} ]))).
Proof.
  assert (forall q,
            ~ In symbol (symbols (portfolio pg)) ->
            entriesFor symbol (stored (merge symbol name q (portfolio pg)))
            = [ {| entry_symbol := symbol; entry_name := name;
                   entry_qty := JS.json_number q |} ]) as Hfresh.
  { intros q Hout. rewrite Json.stored_entriesFor, Merge.merge_absent by exact Hout.
    unfold entriesFor. rewrite filter_app.
    fold (entriesFor symbol (portfolio pg)).
    rewrite (Merge.entriesFor_absent _ _ Hout). simpl.
    rewrite String.eqb_refl. reflexivity. }
  split.
  - intros Hm price Hb Hp.
    assert (portfolio (addToPortfolio H symbol name (JS.Num price) pg)
            = stored (merge symbol name
                        (enteredBudget H (controls pg) / price)%float
                        (portfolio pg))) as Hq.
    { unfold addToPortfolio. rewrite (Adding.read_bought H price _ Hm Hb Hp).
      apply Adding.save_portfolio. }
    split; [exact Hq|]. split.
    + intros Hout. rewrite Hq. apply Hfresh. exact Hout.
    + apply Json.number_finite.
  - intros Hm. split.
    + intros p1 p2. unfold addToPortfolio, readQuantity. rewrite Hm. reflexivity.
    + intros Hq p.
      assert (portfolio (addToPortfolio H symbol name p pg)
              = stored (merge symbol name (enteredQty H (controls pg))
                          (portfolio pg))) as Hs.
      { unfold addToPortfolio. rewrite (Adding.read_entered H p _ Hm Hq).
        apply Adding.save_portfolio. }
      split; [exact Hs|]. intros Hout. rewrite Hs. apply Hfresh. exact Hout.
Qed.

Lemma budget_stores_quotient_witness :
  let pg := typeBudget "100000" (pickMode false Cases.home) in
  entriesFor "BTC"
    (portfolio (addToPortfolio RefHost.india "BTC" "Bitcoin" (JS.Num 50000) pg))
  = [ {| entry_symbol := "BTC"; entry_name := "Bitcoin";
         entry_qty := Some 2%float |} ]
  /\ addToPortfolio RefHost.india "BTC" "Bitcoin" (JS.Num 5000000)
       (typeQty "3" Cases.home)
     = addToPortfolio RefHost.india "BTC" "Bitcoin" (JS.Num 1)
         (typeQty "3" Cases.home).
Proof.
  split.
  - refine (eq_trans
      (proj1 (proj2
         (proj1 (budget_stores_quotient RefHost.india "BTC" "Bitcoin"
                   (typeBudget "100000" (pickMode false Cases.home)))
            _ 50000%float _ _)) _) _).
    + vm_compute. reflexivity.
    + vm_compute. reflexivity.
    + vm_compute. reflexivity.
    + vm_compute. intros [].
    + vm_compute. reflexivity.
  - refine (proj1
      (proj2 (budget_stores_quotient RefHost.india "BTC" "Bitcoin"
                (typeQty "3" Cases.home)) _) _ _).
    vm_compute. reflexivity.
Defined.

(** C1, as the claim states it, fails when the sum overflows: 1e308 is a
    valid quantity, and adding it twice for the same symbol leaves one
    entry whose quantity is persisted as [null], not as q1 + q2. *)
Lemma add_twice_overflow :
  let q := RefHost.parseFloat "1e308" in
  let pg1 :=
    addToPortfolio RefHost.india "BTC" "Bitcoin" JS.Undefined
      (typeQty "1e308" Cases.home) in
  let pg2 :=
    addToPortfolio RefHost.india "BTC" "Bitcoin" JS.Undefined
      (typeQty "1e308" pg1) in
  (0 <? q)%float = true
  /\ is_finite q = true
  /\ map entry_qty (entriesFor "BTC" (portfolio pg2)) = [None]
  /\ [@None float] <> [Some (q + q)%float].
Proof.
  repeat split; try (vm_compute; reflexivity). discriminate.
Qed.

(** ** What a script keeps

    A relation between the page before and the page after that is
    reflexive and transitive is kept by a script as soon as each of its
    steps keeps it. *)

Section Keeps.

Variable R : Page -> Page -> Prop.
Hypothesis R_refl : forall pg, R pg pg.
Hypothesis R_trans : forall a b c, R a b -> R b c -> R a c.

Lemma keeps_lift {A : Type} (c : Completion A) : keeps R (lift c).
Proof. intros pg. apply R_refl. Qed.

Lemma keeps_modify (f : Page -> Page) :
  (forall pg, R pg (f pg)) -> keeps R (modify f).
Proof. intros Hf pg. apply Hf. Qed.

Lemma keeps_bind {A B : Type} (c : Script A) (k : A -> Script B) :
  keeps R c -> (forall a, keeps R (k a)) -> keeps R (bind c k).
Proof.
  intros Hc Hk pg. unfold bind. specialize (Hc pg).
  destruct (c pg) as [[a|] pg']; simpl in *.
  - eapply R_trans; [exact Hc|]. apply Hk.
  - exact Hc.
Qed.

Lemma keeps_try_catch (body handler : Script unit) :
  keeps R body -> keeps R handler -> keeps R (try_catch body handler).
Proof.
  intros Hb Hh pg. unfold try_catch. specialize (Hb pg).
  destruct (body pg) as [[a|] pg']; simpl in *.
  - exact Hb.
  - eapply R_trans; [exact Hb|]. apply Hh.
Qed.

Lemma keeps_run (c : Script unit) (pg : Page) : keeps R c -> R pg (run c pg).
Proof. intros Hc. apply Hc. Qed.

End Keeps.

(** ** The events of the page and the storage *)

Module Events.

Lemma same_storage_refl (pg : Page) : same_storage pg pg.
Proof. reflexivity. Qed.

Lemma same_storage_trans (a b c : Page) :
  same_storage a b -> same_storage b c -> same_storage a c.
Proof. unfold same_storage. congruence. Qed.

Lemma newChart_storage (H : Host) (labels : list string) (ds : list Dataset) :
  keeps same_storage (newChart H labels ds).
Proof.
  intros pg. unfold newChart, same_storage.
  destruct (priceChart (charts pg)); [reflexivity|].
  destruct (chartRefusesBusyCanvas H); reflexivity.
Qed.

Lemma bindModeChange_storage : keeps same_storage bindModeChange.
Proof.
  intros pg. unfold bindModeChange, same_storage.
  destruct (modeQty (controls pg)), (modeBudget (controls pg)); reflexivity.
Qed.

Lemma failedToLoad_storage : keeps same_storage failedToLoad.
Proof.
  apply keeps_modify. intros pg. unfold same_storage.
  rewrite Adding.toast_localStorage. reflexivity.
Qed.

Lemma showPredictions_storage (H : Host) (now : Z) (a : ModalArgs) (h : History)
    (pres : HttpResult Preds) :
  keeps same_storage (showPredictions H now a h pres).
Proof.
  unfold showPredictions, drawChart.
  repeat first
    [ apply (keeps_bind same_storage same_storage_trans); [|intros ?]
    | apply (keeps_lift same_storage same_storage_refl)
    | apply bindModeChange_storage
    | apply newChart_storage
    | apply keeps_modify; intros ?; reflexivity ].
Qed.

Lemma predictionsArrive_storage (H : Host) (now : Z) (a : ModalArgs)
    (h : History) (pres : HttpResult Preds) (pg : Page) :
  localStorage (predictionsArrive H now a h pres pg) = localStorage pg.
Proof.
  symmetry. unfold predictionsArrive.
  apply (keeps_run same_storage).
  apply (keeps_try_catch same_storage same_storage_trans).
  - apply showPredictions_storage.
  - apply failedToLoad_storage.
Qed.

Lemma setTheme_portfolio (mode : string) (pg : Page) :
  portfolio (setTheme mode pg) = portfolio pg.
Proof. reflexivity. Qed.

Lemma flipThemeToggle_portfolio (pg : Page) :
  portfolio (flipThemeToggle pg) = portfolio pg.
Proof.
  unfold flipThemeToggle, themeToggle_change.
  destruct (themeToggle (controls pg)); reflexivity.
Qed.

Lemma typeBudget_portfolio (v : string) (pg : Page) :
  portfolio (typeBudget v pg) = portfolio pg.
Proof. unfold typeBudget. destruct (inputBudget (controls pg)); reflexivity. Qed.

Lemma pickMode_portfolio (q : bool) (pg : Page) :
  portfolio (pickMode q pg) = portfolio pg.
Proof.
  unfold pickMode. simpl.
  destruct (modeHandlers (modal pg)); [|reflexivity].
  unfold modeChange. simpl.
  destruct (modeQty (controls pg)), (modeBudget (controls pg)); reflexivity.
Qed.

Lemma renderGrid_portfolio (H : Host) (catalog : list Coin)
    (res : HttpResult Prices) (pg : Page) :
  portfolio (renderGrid H catalog res pg) = portfolio pg.
Proof. unfold renderGrid. destruct (coinGrid (grid pg)); reflexivity. Qed.

(** The list after an event: the list before, or a merge into it. *)
Lemma turn_portfolio (H : Host) (catalog : list Coin) (b b' : Browser) :
  turn H catalog b b' ->
  portfolio (fst b') = portfolio (fst b)
  \/ exists s n q,
       portfolio (fst b') = stored (merge s n q (portfolio (fst b))).
Proof.
  intros Ht. destruct Ht; simpl.
  - left. reflexivity.
  - left. reflexivity.
  - left. unfold portfolio.
    rewrite <- (keeps_run same_storage failedToLoad pg failedToLoad_storage).
    reflexivity.
  - left. unfold portfolio. rewrite predictionsArrive_storage. reflexivity.
  - unfold clickAddPortfolio.
    destruct (btnAddPortfolio (modal pg)) as [[[s n] p]|]; [|left; reflexivity].
    destruct (Adding.add_portfolio H s n p pg) as [Hsame|[q Hq]].
    + left. exact Hsame.
    + right. exists s, n, q. exact Hq.
  - left. apply Adding.typeQty_portfolio.
  - left. apply typeBudget_portfolio.
  - left. apply pickMode_portfolio.
  - left. apply flipThemeToggle_portfolio.
  - left. apply renderGrid_portfolio.
Qed.

Lemma stored_merge_NoDup (s n : string) (q : float) (data : list Entry) :
  NoDup (symbols data) -> NoDup (symbols (stored (merge s n q data))).
Proof.
  intros Hnd. rewrite Json.stored_symbols. apply Merge.merge_NoDup. exact Hnd.
Qed.

Lemma turns_NoDup (H : Host) (catalog : list Coin) (b b' : Browser) :
  turns H catalog b b' ->
  NoDup (symbols (portfolio (fst b))) -> NoDup (symbols (portfolio (fst b'))).
Proof.
  induction 1 as [b|b1 b2 b3 _ IH Ht]; intros Hnd; [exact Hnd|].
  specialize (IH Hnd).
  destruct (turn_portfolio H catalog b2 b3 Ht) as [Hsame|(s & n & q & Hq)].
  - rewrite Hsame. exact IH.
  - rewrite Hq. apply stored_merge_NoDup. exact IH.
Qed.

(** From an empty storage the list is always one that the script wrote:
    the lists that the frame property speaks of are the lists that occur. *)
Lemma turns_persisted (H : Host) (catalog : list Coin) (b b' : Browser) :
  turns H catalog b b' ->
  persisted (portfolio (fst b)) -> persisted (portfolio (fst b')).
Proof.
  induction 1 as [b|b1 b2 b3 _ IH Ht]; intros Hp; [exact Hp|].
  specialize (IH Hp).
  destruct (turn_portfolio H catalog b2 b3 Ht) as [Hsame|(s & n & q & Hq)].
  - rewrite Hsame. exact IH.
  - rewrite Hq. apply Json.stored_persisted.
Qed.

Lemma empty_persisted (pg : Page) :
  item_portfolio (localStorage pg) = None -> persisted (portfolio pg).
Proof.
  intros Hn. unfold portfolio, loadPortfolio. rewrite Hn. reflexivity.
Qed.

(** Two merges for a symbol that was not there, each written out. *)
Lemma merge_twice (s n1 n2 : string) (q1 q2 : float) (data : list Entry) :
  ~ In s (symbols data) ->
  entriesFor s (stored (merge s n2 q2 (stored (merge s n1 q1 data))))
  = [ {| entry_symbol := s; entry_name := n1;
         entry_qty := JS.json_number (JS.plus (JS.json_number q1) q2) |} ].
Proof.
  intros Hout.
  rewrite (Merge.merge_absent s n1 q1 data Hout), Json.stored_app.
  cbn [stored map entry_symbol entry_name entry_qty].
  set (e1 := {| entry_symbol := s; entry_name := n1;
                entry_qty := JS.json_number q1 |}).
  assert (entriesFor s (stored data ++ [e1]) = [e1]) as He.
  { unfold entriesFor. rewrite filter_app.
    fold (entriesFor s (stored data)).
    rewrite Json.stored_entriesFor, (Merge.entriesFor_absent _ _ Hout).
    cbn. rewrite String.eqb_refl. reflexivity. }
  rewrite Json.stored_entriesFor. unfold merge. fold (is_symbol s).
  destruct (findIndex (is_symbol s) (stored data ++ [e1])) as [i|] eqn:E.
  - destruct (Merge.addQty_entriesFor s q2 _ i E) as (x & rest & Hb & Ha).
    rewrite He in Hb. injection Hb as <- <-. rewrite Ha. reflexivity.
  - apply Merge.findIndex_none in E. exfalso. apply E.
    unfold symbols. rewrite map_app. apply in_or_app. right. left. reflexivity.
Qed.

Lemma entriesFor_in (s : string) (data : list Entry) (x : Entry) (rest : list Entry) :
  entriesFor s data = x :: rest -> In s (symbols data).
Proof.
  intros He. destruct (in_dec string_dec s (symbols data)) as [Hin|Hout];
    [exact Hin|].
  rewrite (Merge.entriesFor_absent _ _ Hout) in He. discriminate.
Qed.

Lemma stored_length (data : list Entry) :
  List.length (stored data) = List.length data.
Proof. apply length_map. Qed.

End Events.

(** C1, amended.  Two adds for a symbol that was not in the list, with
    valid quantities [q1] and [q2], leave exactly one entry for the symbol,
    under the name of the first add; its quantity is a double equal to
    [q1 + q2] whenever that sum is finite (a sum that overflows is
    persisted as [null]).  Every call keeps the list free of repeated
    symbols; an accepted add for a symbol that is in the list adds to its
    entry and leaves the length of the list alone; and from an empty
    storage no sequence of events of the page produces a list with a symbol
    twice. *)
Theorem add_twice_one_entry (H : Host) :
  (forall symbol name1 name2 price1 price2 text1 text2 pg,
     quantityMode (controls pg) = true ->
     inputQty (controls pg) <> None ->
     text1 <> "" -> text2 <> "" ->
     (0 <? parseFloat H text1)%float = true ->
     (0 <? parseFloat H text2)%float = true ->
     ~ In symbol (symbols (portfolio pg)) ->
     exists q,
       entriesFor symbol
         (portfolio
            (addToPortfolio H symbol name2 price2
               (typeQty text2
                  (addToPortfolio H symbol name1 price1 (typeQty text1 pg)))))
       = [ {| entry_symbol := symbol; entry_name := name1; entry_qty := q |} ]
       /\ (is_finite (parseFloat H text1 + parseFloat H text2)%float = true ->
           exists y,
             q = Some y
             /\ (y =? parseFloat H text1 + parseFloat H text2)%float = true))
  /\ (forall symbol name price pg,
        NoDup (symbols (portfolio pg)) ->
        NoDup (symbols (portfolio (addToPortfolio H symbol name price pg))))
  /\ (forall symbol name price pg x,
        entriesFor symbol (portfolio pg) = [x] ->
        (forall msg, readQuantity H price (controls pg) <> Rejected msg) ->
        exists q,
          entriesFor symbol (portfolio (addToPortfolio H symbol name price pg))
          = [ {| entry_symbol := entry_symbol x; entry_name := entry_name x;
                 entry_qty := JS.json_number (JS.plus (entry_qty x) q) |} ]
          /\ List.length (portfolio (addToPortfolio H symbol name price pg))
             = List.length (portfolio pg))
  /\ (forall catalog pg ps pg' ps',
        item_portfolio (localStorage pg) = None ->
        turns H catalog (pg, ps) (pg', ps') ->
        NoDup (symbols (portfolio pg'))).
Proof.
  split; [|split; [|split]].
  - intros symbol name1 name2 price1 price2 text1 text2 pg
      Hmode Hinput Htext1 Htext2 Hq1 Hq2 Hout.
    assert (portfolio
              (addToPortfolio H symbol name2 price2
                 (typeQty text2
                    (addToPortfolio H symbol name1 price1 (typeQty text1 pg))))
            = stored (merge symbol name2 (parseFloat H text2)
                        (stored (merge symbol name1 (parseFloat H text1)
                                   (portfolio pg))))) as Hq.
    { set (pg1 := addToPortfolio H symbol name1 price1 (typeQty text1 pg)).
      assert (pg1 = savePortfolio symbol name1 (parseFloat H text1)
                      (typeQty text1 pg)) as H1.
      { unfold pg1, addToPortfolio. rewrite Adding.read_entered.
        - rewrite Adding.typeQty_entered by assumption. reflexivity.
        - rewrite Adding.typeQty_mode. assumption.
        - rewrite Adding.typeQty_entered by assumption. assumption. }
      assert (inputQty (controls pg1) <> None) as Hi.
      { rewrite H1, Adding.save_controls. apply Adding.clearInputs_inputQty.
        unfold typeQty. destruct (inputQty (controls pg)); simpl; congruence. }
      assert (quantityMode (controls pg1) = true) as Hm.
      { rewrite H1, Adding.save_controls, Adding.clearInputs_mode,
          Adding.typeQty_mode. assumption. }
      unfold addToPortfolio at 1. rewrite Adding.read_entered.
      - rewrite Adding.typeQty_entered by assumption.
        rewrite Adding.save_portfolio, Adding.typeQty_portfolio, H1,
          Adding.save_portfolio, Adding.typeQty_portfolio. reflexivity.
      - rewrite Adding.typeQty_mode. exact Hm.
      - rewrite Adding.typeQty_entered by assumption. assumption. }
    eexists. split.
    + rewrite Hq. apply Events.merge_twice. exact Hout.
    + intros Hfin.
      assert (JS.json_number (parseFloat H text1) = Some (parseFloat H text1))
        as Hj.
      { apply Json.number_exact.
        - exact (Doubles.add_finite_left _ _ Hfin).
        - apply Doubles.truthy_not_zero.
          apply (Doubles.checks_of_positive (parseFloat H text1)). exact Hq1. }
      rewrite Hj. cbn [JS.plus]. apply Json.number_finite. exact Hfin.
  - intros symbol name price pg Hnd.
    destruct (Adding.add_portfolio H symbol name price pg) as [Hs|[q Hq]].
    + rewrite Hs. exact Hnd.
    + rewrite Hq. apply Events.stored_merge_NoDup. exact Hnd.
  - intros symbol name price pg x Hx Hok.
    assert (exists q, portfolio (addToPortfolio H symbol name price pg)
                      = stored (merge symbol name q (portfolio pg))) as [q Hq].
    { unfold addToPortfolio.
      destruct (readQuantity H price (controls pg)) as [msg|q|b p].
      - exfalso. apply (Hok msg). reflexivity.
      - exists q. apply Adding.save_portfolio.
      - exists (b / p)%float. apply Adding.save_portfolio. }
    exists q. rewrite Hq. split.
    + rewrite Json.stored_entriesFor. unfold merge. fold (is_symbol symbol).
      destruct (findIndex (is_symbol symbol) (portfolio pg)) as [i|] eqn:E.
      * destruct (Merge.addQty_entriesFor symbol q _ i E) as (y & rest & Hb & Ha).
        rewrite Hx in Hb. injection Hb as <- <-. rewrite Ha. reflexivity.
      * apply Merge.findIndex_none in E. exfalso. apply E.
        apply (Events.entriesFor_in symbol (portfolio pg) x []). exact Hx.
    + rewrite Events.stored_length, Merge.merge_length.
      destruct (in_dec string_dec symbol (symbols (portfolio pg))) as [_|Hout];
        [reflexivity|].
      exfalso. apply Hout.
      apply (Events.entriesFor_in symbol (portfolio pg) x []). exact Hx.
  - intros catalog pg ps pg' ps' Hempty Ht.
    apply (Events.turns_NoDup H catalog (pg, ps) (pg', ps') Ht). simpl.
    unfold portfolio, loadPortfolio. rewrite Hempty. constructor.
Qed.

Lemma add_twice_one_entry_witness :
  exists q,
    entriesFor "BTC"
      (portfolio
         (addToPortfolio RefHost.india "BTC" "Bitcoin" (JS.Num 5200000)
            (typeQty "2.5"
               (addToPortfolio RefHost.india "BTC" "Bitcoin" (JS.Num 5000000)
                  (typeQty "1.5" Cases.home)))))
    = [ {| entry_symbol := "BTC"; entry_name := "Bitcoin"; entry_qty := q |} ]
    /\ (is_finite (RefHost.parseFloat "1.5" + RefHost.parseFloat "2.5")%float
        = true ->
        exists y,
          q = Some y
          /\ (y =? RefHost.parseFloat "1.5" + RefHost.parseFloat "2.5")%float
             = true).
Proof.
  apply (proj1 (add_twice_one_entry RefHost.india)
           "BTC" "Bitcoin" "Bitcoin" (JS.Num 5000000) (JS.Num 5200000)
           "1.5" "2.5" Cases.home);
    try (vm_compute; reflexivity); try discriminate.
  vm_compute. intros [].
Defined.

(** ** The grid *)

(** The parser on the markup of the cards. *)
Module Markup.

Import HTML.

#[local] Arguments text_nodes : simpl never.

Lemma append_regroup (a b c : string) : ((a ++ b) ++ c = a ++ (b ++ c))%string.
Proof. induction a as [|x a IH]; cbn; [|rewrite IH]; reflexivity. Qed.

Lemma append_nil_r (a : string) : (a ++ "")%string = a.
Proof. induction a as [|x a IH]; cbn; [|rewrite IH]; reflexivity. Qed.

Lemma plain_char_inv (c : ascii) :
  plain_char c = true ->
  Ascii.eqb c "<" = false /\ Ascii.eqb c "&" = false
  /\ Ascii.eqb c dquote = false /\ Ascii.eqb c "000" = false
  /\ Ascii.eqb c "013" = false.
Proof.
  unfold plain_char. intros Hp. apply negb_true_iff in Hp.
  repeat (apply orb_false_iff in Hp; destruct Hp as [Hp ?]).
  repeat split; assumption.
Qed.

(** Plain text inside a quoted attribute value joins the value. *)
Lemma consume_value (t : Tag) (n acc v rest : string) (stack : list Frame) :
  plain v = true ->
  consume (AttrValueDQ t n acc) stack (v ++ rest)
  = consume (AttrValueDQ t n (acc ++ v)) stack rest.
Proof.
  revert acc. induction v as [|c v IH]; intros acc Hp.
  - rewrite append_nil_r. reflexivity.
  - cbn [plain] in Hp. apply andb_true_iff in Hp. destruct Hp as [Hc Hv].
    destruct (plain_char_inv c Hc) as (_ & Ha & Hq & H0 & H13).
    cbn [append consume]. unfold step. rewrite H0, H13, Hq, Ha.
    cbn [orb insert_all].
    rewrite (IH _ Hv). unfold snoc. rewrite append_regroup. reflexivity.
Qed.

(** Plain text between tags joins the character data of the current
    node. *)
Lemma consume_text (name : string) (attrs : list (string * string))
    (children : list Node) (text : string) (below : list Frame)
    (v rest : string) :
  plain v = true ->
  consume Data
    ({| fname := name; fattrs := attrs; fchildren := children;
        ftext := text |} :: below) (v ++ rest)
  = consume Data
      ({| fname := name; fattrs := attrs; fchildren := children;
          ftext := text ++ v |} :: below) rest.
Proof.
  revert text. induction v as [|c v IH]; intros text Hp.
  - rewrite append_nil_r. reflexivity.
  - cbn [plain] in Hp. apply andb_true_iff in Hp. destruct Hp as [Hc Hv].
    destruct (plain_char_inv c Hc) as (Hl & Ha & _ & H0 & H13).
    cbn [append consume]. unfold step, in_data. rewrite H0, H13, Ha, Hl.
    cbn [orb insert_all insert append_char]. rewrite (IH _ Hv).
    unfold snoc. rewrite append_regroup. reflexivity.
Qed.

Lemma text_nodes_cons (c : ascii) (s : string) :
  text_nodes (String c s) = [Text (String c s)].
Proof. reflexivity. Qed.

Lemma text_nodes_snoc (s : string) (c : ascii) (r : string) :
  text_nodes (s ++ String c r) = [Text (s ++ String c r)].
Proof. destruct s; reflexivity. Qed.

(** The markup of one card with plain texts, read with only the root
    open, leaves the card's element as the last child of the root. *)
Lemma consume_card (el : Card) (ch : list Node) (rest : string) :
  plainCard el = true ->
  consume Data
    [ {| fname := "html"; fattrs := []; fchildren := ch; ftext := "" |} ]
    (markup el ++ rest)
  = consume Data
      [ {| fname := "html"; fattrs := [];
           fchildren := ch ++ [Text (newline ++ "  "); cardElement el];
           ftext := "" |} ]
      rest.
Proof.
  unfold plainCard. intros Hp.
  repeat (apply andb_true_iff in Hp; destruct Hp as [Hp ?]).
  unfold markup, quote, newline. rewrite !append_regroup. cbn.
  do 5 (rewrite consume_value by assumption; cbn).
  do 4 (rewrite consume_text by assumption; cbn).
  do 3 f_equal. unfold cardElement, newline.
  change (text_nodes "") with (@nil Node).
  rewrite !text_nodes_cons, !text_nodes_snoc.
  reflexivity.
Qed.

Lemma join_cons (x : string) (l : list string) :
  join "" (x :: l) = (x ++ join "" l)%string.
Proof.
  destruct l as [|y l]; cbn [join].
  - rewrite append_nil_r. reflexivity.
  - reflexivity.
Qed.

Lemma consume_cards (cards : list Card) (ch : list Node) :
  forallb plainCard cards = true ->
  consume Data
    [ {| fname := "html"; fattrs := []; fchildren := ch; ftext := "" |} ]
    (join "" (map markup cards))
  = Some (ch ++ cardNodes cards).
Proof.
  revert ch. induction cards as [|el cards IH]; intros ch Hp.
  - cbn. change (text_nodes "") with (@nil Node). reflexivity.
  - cbn [forallb] in Hp. apply andb_true_iff in Hp. destruct Hp as [Hel Hp].
    cbn [map]. rewrite join_cons, (consume_card el ch _ Hel), (IH _ Hp).
    unfold cardNodes. cbn [flat_map]. rewrite <- app_assoc. reflexivity.
Qed.

Lemma elements_text_nodes (v : string) : flat_map elements (text_nodes v) = [].
Proof. destruct v; reflexivity. Qed.


(** Of the elements of a card only the card itself has the class. *)
Lemma card_matches (el : Card) :
  filter (hasClass "coin-card") (elements (cardElement el)) = [cardElement el].
Proof.
  unfold cardElement. cbn [elements flat_map app].
  rewrite !elements_text_nodes. reflexivity.
Qed.

Lemma query_cards (cards : list Card) :
  querySelectorAll "coin-card" (cardNodes cards) = map cardElement cards.
Proof.
  unfold querySelectorAll.
  induction cards as [|el cards IH]; [reflexivity|].
  change (flat_map elements (cardNodes (el :: cards)))
    with (elements (cardElement el) ++ flat_map elements (cardNodes cards)).
  rewrite filter_app, card_matches, IH. reflexivity.
Qed.

(** The cards of the joined markup are the elements of the cards. *)
Lemma coinCards_markup (cards : list Card) :
  forallb plainCard cards = true ->
  coinCards (join "" (map markup cards)) = Some (map cardElement cards).
Proof.
  intros Hp. unfold coinCards, parseFragment.
  rewrite (consume_cards cards [] Hp). cbn [app option_map].
  rewrite query_cards. reflexivity.
Qed.


Lemma cardClick_cardElement (el : Card) :
  cardClick (cardElement el)
  = Some {| arg_symbol := data_symbol el; arg_id := data_id el;
            arg_name := data_name el |}.
Proof. reflexivity. Qed.

Lemma plain_dash : plain "—" = true.
Proof. reflexivity. Qed.

(** What [renderGrid] leaves in the grid, and the cards of it. *)
Lemma rendered (H : Host) (catalog : list Coin) (res : HttpResult Prices)
    (pg : Page) :
  coinGrid (grid pg) <> None ->
  forallb plainCoin catalog = true ->
  forallb (fun c => plain (priceOrDash H (livePrice res c))) catalog = true ->
  coinGrid (grid (renderGrid H catalog res pg))
  = Some (join ""
            (map markup (map (fun c => coinCard H c (livePrice res c)) catalog)))
  /\ coinCards
       (join ""
          (map markup (map (fun c => coinCard H c (livePrice res c)) catalog)))
     = Some (map cardElement
               (map (fun c => coinCard H c (livePrice res c)) catalog)).
Proof.
  intros Hgrid Hc Hp. split.
  - unfold renderGrid, livePrice, coinCardTemplate.
    destruct (coinGrid (grid pg)); [|congruence].
    destruct (fetchLivePricesInINR res); cbn; rewrite map_map; reflexivity.
  - apply coinCards_markup. rewrite forallb_forall in *.
    intros el Hel. apply in_map_iff in Hel. destruct Hel as (c & <- & Hin).
    specialize (Hc c Hin). specialize (Hp c Hin).
    unfold plainCoin in Hc. unfold plainCard, coinCard. cbn.
    repeat (apply andb_true_iff in Hc; destruct Hc as [Hc ?]).
    repeat (apply andb_true_iff; split); assumption.
Qed.

End Markup.




(** The example of the specification: a price of 5000000 for bitcoin shows
    on the card with Indian grouping. *)
Example bitcoin_card :
  match
    coinGrid (grid (renderGrid RefHost.india COINS
                      (Response true (Some [("bitcoin", JS.Num 5000000)]))
                      Cases.home))
  with
  | Some innerHTML =>
      option_map (map (fun el => option_map priceText (cardOf el)))
        (coinCards innerHTML)
  | None => None
  end
  = Some (Some "₹50,00,000" :: repeat (Some "—") 19).
Proof. vm_compute. reflexivity. Qed.

(** The last statement of the script renders the grid exactly when the
    page has one. *)
Lemma Init_renders (H : Host) (catalog : list Coin) (res : HttpResult Prices)
    (pg : Page) :
  Init H catalog res pg = renderGrid H catalog res pg.
Proof.
  unfold Init, renderGrid. destruct (coinGrid (grid pg)); reflexivity.
Qed.

(** ** The text fields of the modal *)

Module Fields.








(** Once both responses are read, the opening goes on from the page that
    carries the header and the four fields. *)
Lemma open_after_predictions (H : Host) (catalog : list Coin) (now : Z)
    (a : ModalArgs) (hres : HttpResult HistoryBody) (pres : HttpResult Preds)
    (pg : Page) (h : History) (preds : Preds) :
  readHistory hres = Normal h ->
  readPredictions pres = Normal preds ->
  openCoinModal H catalog now a hres pres pg
  = run (try_catch (drawChart H now a h preds) failedToLoad)
      (with_modal
         (set_predictions H preds (set_header catalog a (modal pg)))
         (with_modal (set_header catalog a (modal pg)) pg)).
Proof.
  intros Hh Hp.
  unfold openCoinModal, showPredictions, run, try_catch, bind, openHeader,
    modify, lift.
  rewrite Hh, Hp. reflexivity.
Qed.




End Fields.


(** A response with an error status shows the dash in every field, also
    for the fields that its body holds. *)
Example error_status_renders_dashes :
  let pg :=
    openCoinModal RefHost.india COINS Cases.now Cases.bitcoin
      (Response true (Some Cases.no_points))
      (Response false (Some Cases.predict_bitcoin)) Cases.home in
  current_price Cases.predict_bitcoin = JS.Num 5000000
  /\ [ modalCurrent (modal pg); pred3m (modal pg); pred6m (modal pg);
       pred1y (modal pg) ] = [ "—"; "—"; "—"; "—" ]
  /\ shown (modal pg) = true.
Proof. vm_compute. repeat split. Qed.



(** ** Theme *)

Module Theme.

(** X1.  On the home page a flip of the switch is written to the storage and to
    the root element, the value is one of the two themes, and a page load
    brings it back. *)
Lemma flip_persists (pg : Page) (checked : bool) :
  themeToggle (controls pg) = Some checked ->
  let mode := if checked then "light" else "dark" in
  item_theme (localStorage (flipThemeToggle pg)) = Some mode
  /\ dataTheme (flipThemeToggle pg) = Some mode
  /\ (forall served,
        dataTheme (load served (localStorage (flipThemeToggle pg))) = Some mode
        /\ item_theme (localStorage
                         (load served (localStorage (flipThemeToggle pg))))
           = Some mode
        /\ (themeToggle (controls served) <> None ->
            themeToggle
              (controls (load served (localStorage (flipThemeToggle pg))))
            = Some (negb checked))).
Proof.
  intros Ht. unfold flipThemeToggle. rewrite Ht.
  unfold themeToggle_change. simpl.
  destruct checked; simpl; repeat split;
    unfold load, initTheme; simpl;
    destruct (themeToggle (controls served)); simpl; congruence.
Qed.

(** Without a saved theme a page load applies the light theme. *)
Lemma load_default (served : Page) (ls : Storage) :
  item_theme ls = None -> dataTheme (load served ls) = Some "light".
Proof.
  intros Hn. unfold load, initTheme. simpl. rewrite Hn. simpl.
  destruct (themeToggle (controls served)); reflexivity.
Qed.

(** [setTheme] leaves the portfolio list alone. *)
Lemma setTheme_frame (mode : string) (pg : Page) :
  item_portfolio (localStorage (setTheme mode pg))
  = item_portfolio (localStorage pg).
Proof. reflexivity. Qed.

End Theme.

(** C8.  The claim holds on the home page ([Theme.flip_persists]) but not
    for the toggle of [main.js]: its click listener only flips the class
    [dark-mode] of the body.  Nothing is written under ["theme"], the
    [data-theme] attribute of the root is not touched, and after the next
    page load the body is as served, whatever was chosen before. *)
Theorem legacy_toggle_forgets_theme (pg served : Legacy.Page) :
  Legacy.dark_mode (Legacy.themeToggle_click pg) = negb (Legacy.dark_mode pg)
  /\ Legacy.localStorage (Legacy.themeToggle_click pg) = Legacy.localStorage pg
  /\ Legacy.dataTheme (Legacy.themeToggle_click pg) = Legacy.dataTheme pg
  /\ Legacy.dark_mode
       (Legacy.load served (Legacy.localStorage (Legacy.themeToggle_click pg)))
     = Legacy.dark_mode served.
Proof. repeat split. Qed.

(** The failing input of C8: one click on the page as served, then a
    reload. *)
Example legacy_toggle_lost_on_reload :
  let clicked := Legacy.themeToggle_click Cases.old_page in
  Legacy.dark_mode clicked = true
  /\ item_theme (Legacy.localStorage clicked) = None
  /\ Legacy.dark_mode (Legacy.load Cases.old_page (Legacy.localStorage clicked))
     = false.
Proof. repeat split. Qed.

(** ** Charts *)

Lemma triple_bind {A B : Type} (P : Page -> Prop) (c : Script A)
    (k : A -> Script B) (M : A -> Page -> Prop) (N : B -> Page -> Prop)
    (E : Page -> Prop) :
  triple P c M E -> (forall a, triple (M a) (k a) N E) ->
  triple P (bind c k) N E.
Proof.
  intros Hc Hk pg HP. unfold bind. specialize (Hc pg HP).
  destruct (c pg) as [[a|] pg']; [apply Hk; exact Hc|exact Hc].
Qed.

Lemma triple_lift {A : Type} (P : Page -> Prop) (c : Completion A) :
  triple P (lift c) (fun _ => P) P.
Proof. intros pg HP. unfold lift. destruct c; exact HP. Qed.

Lemma triple_modify (P Q : Page -> Prop) (E : Page -> Prop) (f : Page -> Page) :
  (forall pg, P pg -> Q (f pg)) -> triple P (modify f) (fun _ => Q) E.
Proof. intros Hf pg HP. apply Hf. exact HP. Qed.

Lemma triple_try_catch (P : Page -> Prop) (body handler : Script unit)
    (N : unit -> Page -> Prop) (E E' : Page -> Prop) :
  triple P body N E -> triple E handler N E' ->
  triple P (try_catch body handler) N E'.
Proof.
  intros Hb Hh pg HP. unfold try_catch. specialize (Hb pg HP).
  destruct (body pg) as [[a|] pg']; [exact Hb|apply Hh; exact Hb].
Qed.

Module ChartFacts.

Lemma drawn_tidy (labels : list string) (pg : Page) : drawn labels pg -> tidy pg.
Proof.
  intros (c & Hc & Hv & _). right. exists c. split; assumption.
Qed.

Lemma destroy_empties (pg : Page) :
  tidy pg -> priceChart (charts (with_charts (destroy (charts pg)) pg)) = [].
Proof.
  unfold tidy, one_chart, destroy. intros [Hnil|(c & Hc & Hv)]; simpl.
  - destruct (chart (charts pg)); simpl; rewrite Hnil; reflexivity.
  - rewrite Hv. simpl. rewrite Hc. simpl. rewrite Nat.eqb_refl. reflexivity.
Qed.

Lemma newChart_draws (H : Host) (labels : list string) (ds : list Dataset) :
  triple (fun pg => priceChart (charts pg) = []) (newChart H labels ds)
    (fun _ => drawn labels) tidy.
Proof.
  intros pg Hnil. unfold newChart. rewrite Hnil. simpl.
  eexists. simpl. repeat split.
Qed.

Lemma drawn_modal (labels : list string) (m : Modal) (pg : Page) :
  drawn labels pg -> drawn labels (with_modal m pg).
Proof. intros Hd. exact Hd. Qed.

Lemma bindModeChange_drawn (labels : list string) :
  triple (drawn labels) bindModeChange (fun _ => drawn labels) tidy.
Proof.
  intros pg Hd. unfold bindModeChange.
  destruct (modeQty (controls pg)), (modeBudget (controls pg));
    first [exact Hd | exact (drawn_tidy labels pg Hd)].
Qed.

(** From the four text fields on: a completed opening leaves exactly one
    chart, its own; a failed one leaves at most one. *)
Lemma drawChart_triple (H : Host) (now : Z) (a : ModalArgs) (h : History)
    (preds : Preds) :
  triple tidy (drawChart H now a h preds)
    (fun _ pg => exists labels, buildLabels H now h = Some labels
                                /\ drawn labels pg)
    tidy.
Proof.
  intros pg Ht. unfold drawChart, bind, lift, modify.
  destruct (buildLabels H now h) as [labels|]; [|exact Ht].
  pose proof (destroy_empties pg Ht) as Hnil.
  unfold newChart. rewrite Hnil. simpl.
  unfold bindModeChange. simpl.
  destruct (modeQty (controls pg)), (modeBudget (controls pg)); simpl.
  - exists labels. split; [reflexivity|]. eexists. simpl. repeat split.
  - right. eexists. simpl. split; reflexivity.
  - right. eexists. simpl. split; reflexivity.
  - right. eexists. simpl. split; reflexivity.
Qed.

Lemma failedToLoad_tidy : triple tidy failedToLoad (fun _ => tidy) tidy.
Proof.
  intros pg Ht. unfold failedToLoad, modify, tidy.
  rewrite Adding.toast_charts. exact Ht.
Qed.

Lemma tidy_charts (a b : Page) : charts a = charts b -> tidy a -> tidy b.
Proof. unfold tidy. intros ->. tauto. Qed.

(** The arrival of the predictions keeps the charts tidy. *)
Lemma predictionsArrive_tidy (H : Host) (now : Z) (a : ModalArgs) (h : History)
    (pres : HttpResult Preds) (pg : Page) :
  tidy pg -> tidy (predictionsArrive H now a h pres pg).
Proof.
  intros Ht. unfold predictionsArrive, run, try_catch, showPredictions.
  unfold bind at 1. unfold lift.
  destruct (readPredictions pres) as [preds|].
  - unfold bind at 1. unfold modify at 1.
    pose proof (drawChart_triple H now a h preds
                  (with_modal (set_predictions H preds (modal pg)) pg) Ht) as Hd.
    destruct (drawChart H now a h preds
                (with_modal (set_predictions H preds (modal pg)) pg))
      as [[u|] pg']; simpl.
    + destruct Hd as (labels & _ & Hd). exact (drawn_tidy labels pg' Hd).
    + unfold tidy. rewrite Adding.toast_charts. exact Hd.
  - simpl. unfold tidy. rewrite Adding.toast_charts. exact Ht.
Qed.

Lemma addToPortfolio_charts (H : Host) (s n : string) (p : JS.value) (pg : Page) :
  charts (addToPortfolio H s n p pg) = charts pg.
Proof.
  unfold addToPortfolio, savePortfolio.
  destruct (readQuantity H p (controls pg)); rewrite Adding.toast_charts;
    reflexivity.
Qed.

(** Every event of the page keeps the charts tidy. *)
Lemma turn_tidy (H : Host) (catalog : list Coin) (b b' : Browser) :
  turn H catalog b b' -> tidy (fst b) -> tidy (fst b').
Proof.
  intros Ht. destruct Ht; simpl; intros Hc.
  - exact Hc.
  - exact Hc.
  - unfold run, failedToLoad, modify, tidy. simpl.
    rewrite Adding.toast_charts. exact Hc.
  - apply predictionsArrive_tidy. exact Hc.
  - unfold clickAddPortfolio.
    destruct (btnAddPortfolio (modal pg)) as [[[s n] p]|]; [|exact Hc].
    unfold tidy. rewrite addToPortfolio_charts. exact Hc.
  - unfold typeQty. destruct (inputQty (controls pg)); exact Hc.
  - unfold typeBudget. destruct (inputBudget (controls pg)); exact Hc.
  - unfold pickMode. simpl. destruct (modeHandlers (modal pg)); [|exact Hc].
    unfold modeChange. simpl.
    destruct (modeQty (controls pg)), (modeBudget (controls pg)); exact Hc.
  - unfold flipThemeToggle, themeToggle_change.
    destruct (themeToggle (controls pg)); exact Hc.
  - unfold renderGrid. destruct (coinGrid (grid pg)); exact Hc.
Qed.

Lemma turns_tidy (H : Host) (catalog : list Coin) (b b' : Browser) :
  turns H catalog b b' -> tidy (fst b) -> tidy (fst b').
Proof.
  induction 1 as [b|b1 b2 b3 _ IH Ht]; intros Hc; [exact Hc|].
  apply (turn_tidy H catalog b2 b3 Ht). apply IH. exact Hc.
Qed.

Lemma tidy_length (pg : Page) : tidy pg -> List.length (priceChart (charts pg)) <= 1.
Proof.
  intros [Hnil|(c & Hc & _)]; [rewrite Hnil|rewrite Hc]; simpl; lia.
Qed.

(** [openCoinModal] is the three turns of one opening run back to back. *)
Lemma openCoinModal_turns (H : Host) (catalog : list Coin) (now : Z)
    (a : ModalArgs) (hres : HttpResult HistoryBody) (pres : HttpResult Preds)
    (pg : Page) :
  openCoinModal H catalog now a hres pres pg
  = match readHistory hres with
    | Normal h => predictionsArrive H now a h pres (run (openHeader catalog a) pg)
    | Throw => run failedToLoad (run (openHeader catalog a) pg)
    end.
Proof.
  unfold openCoinModal, predictionsArrive, run, try_catch, bind, openHeader,
    modify, lift.
  destruct (readHistory hres); reflexivity.
Qed.

Lemma openCoinModal_tidy (H : Host) (catalog : list Coin) (now : Z)
    (a : ModalArgs) (hres : HttpResult HistoryBody) (pres : HttpResult Preds)
    (pg : Page) :
  tidy pg -> tidy (openCoinModal H catalog now a hres pres pg).
Proof.
  intros Ht. rewrite openCoinModal_turns.
  destruct (readHistory hres) as [h|].
  - apply predictionsArrive_tidy. exact Ht.
  - unfold run, failedToLoad, modify, tidy. simpl.
    rewrite Adding.toast_charts. exact Ht.
Qed.

Lemma openCoinModal_controls (H : Host) (catalog : list Coin) (now : Z)
    (a : ModalArgs) (hres : HttpResult HistoryBody) (pres : HttpResult Preds)
    (pg : Page) :
  controls (openCoinModal H catalog now a hres pres pg) = controls pg.
Proof.
  symmetry. unfold openCoinModal.
  apply (keeps_run same_controls).
  assert (forall x y z, same_controls x y -> same_controls y z ->
                        same_controls x z) as Htrans.
  { unfold same_controls. congruence. }
  assert (forall x, same_controls x x) as Hrefl by reflexivity.
  apply (keeps_try_catch same_controls Htrans).
  - unfold openHeader, showPredictions, drawChart.
    repeat first
      [ apply (keeps_bind same_controls Htrans); [|intros ?]
      | apply (keeps_lift same_controls Hrefl)
      | apply keeps_modify; intros ?; reflexivity ].
    + intros page. unfold newChart, same_controls.
      destruct (priceChart (charts page)); [reflexivity|].
      destruct (chartRefusesBusyCanvas H); reflexivity.
    + intros page. unfold bindModeChange, same_controls.
      destruct (modeQty (controls page)), (modeBudget (controls page));
        reflexivity.
  - apply keeps_modify. intros page. unfold same_controls.
    rewrite Adding.toast_controls. reflexivity.
Qed.

(** With labels at hand and both radio buttons on the page, the last part
    of an opening runs to its end. *)
Lemma drawChart_completes (H : Host) (now : Z) (a : ModalArgs) (h : History)
    (preds : Preds) (labels : list string) (pg : Page) :
  tidy pg ->
  buildLabels H now h = Some labels ->
  modeQty (controls pg) <> None -> modeBudget (controls pg) <> None ->
  exists pg', drawChart H now a h preds pg = (Normal tt, pg')
              /\ drawn labels pg' /\ shown (modal pg') = true.
Proof.
  intros Ht Hl Hq Hb. unfold drawChart, bind, lift, modify. rewrite Hl.
  pose proof (destroy_empties pg Ht) as Hnil.
  unfold newChart. rewrite Hnil. simpl.
  unfold bindModeChange. simpl.
  destruct (modeQty (controls pg)); [|congruence].
  destruct (modeBudget (controls pg)); [|congruence]. simpl.
  eexists. split; [reflexivity|]. split; [|reflexivity].
  eexists. simpl. repeat split.
Qed.

End ChartFacts.

(** X13.  On the home page at most one chart is live at any time, however the
    openings of the modal interleave with each other and with the other
    events: every opening destroys the chart the variable refers to right
    before it makes the next one. *)
Lemma home_at_most_one_chart (H : Host) (catalog : list Coin) (pg pg' : Page)
    (ps ps' : list Pending) :
  priceChart (charts pg) = [] ->
  turns H catalog (pg, ps) (pg', ps') ->
  List.length (priceChart (charts pg')) <= 1.
Proof.
  intros Hnil Ht. apply ChartFacts.tidy_length.
  apply (ChartFacts.turns_tidy H catalog (pg, ps) (pg', ps') Ht).
  left. exact Hnil.
Qed.

(** Opening the modal for one coin and then for another, each to its end,
    leaves exactly one chart: the one of the second coin. *)
Lemma home_two_opens_one_chart (H : Host) (catalog : list Coin) (now1 now2 : Z)
    (a1 a2 : ModalArgs) (hres1 hres2 : HttpResult HistoryBody)
    (pres1 pres2 : HttpResult Preds) (pg : Page) (h2 : History)
    (preds2 : Preds) (labels2 : list string) :
  priceChart (charts pg) = [] ->
  modeQty (controls pg) <> None -> modeBudget (controls pg) <> None ->
  readHistory hres2 = Normal h2 ->
  readPredictions pres2 = Normal preds2 ->
  buildLabels H now2 h2 = Some labels2 ->
  exists c,
    priceChart
      (charts (openCoinModal H catalog now2 a2 hres2 pres2
                 (openCoinModal H catalog now1 a1 hres1 pres1 pg))) = [c]
    /\ chart_labels c = labels2.
Proof.
  intros Hnil Hq Hb Hh Hp Hl.
  set (pg1 := openCoinModal H catalog now1 a1 hres1 pres1 pg).
  assert (tidy pg1) as Ht1.
  { apply ChartFacts.openCoinModal_tidy. left. exact Hnil. }
  assert (controls pg1 = controls pg) as Hc1
    by apply ChartFacts.openCoinModal_controls.
  rewrite (Fields.open_after_predictions H catalog now2 a2 hres2 pres2 pg1
             h2 preds2 Hh Hp).
  destruct (ChartFacts.drawChart_completes H now2 a2 h2 preds2 labels2
              (with_modal
                 (set_predictions H preds2 (set_header catalog a2 (modal pg1)))
                 (with_modal (set_header catalog a2 (modal pg1)) pg1)))
    as (pg2 & Hrun & (c & Hc & _ & Hlab) & _).
  - exact Ht1.
  - exact Hl.
  - simpl. rewrite Hc1. exact Hq.
  - simpl. rewrite Hc1. exact Hb.
  - unfold run, try_catch. rewrite Hrun. simpl. exists c. split; assumption.
Qed.

(** C6.  The claim holds on the home page ([home_at_most_one_chart],
    [home_two_opens_one_chart]) but not for [renderChart] of [charts.js],
    which every opening of the older modal calls: it constructs a chart and
    never destroys one.  After two openings the chart of the first is still
    attached to the canvas; with a Chart.js that stacks instances two charts
    are live, and with one that refuses a busy canvas the second chart is
    never drawn. *)
Theorem legacy_render_never_destroys (H : Host)
    (data1 data2 : Legacy.PredictBody)
    (details1 details2 : HttpResult Legacy.CoinDetails) (pg : Legacy.Page) :
  Legacy.coin_chart pg = [] ->
  exists c1,
    Legacy.coin_chart
      (Legacy.openCoinModal H (Response true (Some data1)) details1 pg) = [c1]
    /\ In c1
         (Legacy.coin_chart
            (Legacy.openCoinModal H (Response true (Some data2)) details2
               (Legacy.openCoinModal H (Response true (Some data1)) details1 pg)))
    /\ (chartRefusesBusyCanvas H = false ->
        List.length
          (Legacy.coin_chart
             (Legacy.openCoinModal H (Response true (Some data2)) details2
                (Legacy.openCoinModal H (Response true (Some data1)) details1
                   pg))) = 2)
    /\ (chartRefusesBusyCanvas H = true ->
        Legacy.coin_chart
          (Legacy.openCoinModal H (Response true (Some data2)) details2
             (Legacy.openCoinModal H (Response true (Some data1)) details1 pg))
        = [c1]).
Proof.
  intros Hnil.
  assert (forall d pg', Legacy.coin_chart (Legacy.renderCoinInfo d pg')
                        = Legacy.coin_chart pg') as Hinfo.
  { intros d pg'. unfold Legacy.renderCoinInfo.
    destruct d as [|ok [d|]]; reflexivity. }
  exists (Legacy.chartOf (Legacy.nextChartId pg) (Legacy.history data1)
            (Legacy.predictions data1)).
  unfold Legacy.openCoinModal, Legacy.renderChart. simpl. rewrite Hnil. simpl.
  rewrite !Hinfo. simpl.
  destruct (chartRefusesBusyCanvas H); simpl; rewrite ?Hinfo; simpl;
    repeat split; try discriminate; try (left; reflexivity).
Qed.

Lemma legacy_render_never_destroys_witness :
  List.length
    (Legacy.coin_chart
       (Legacy.openCoinModal RefHost.old
          (Response true
             (Some {| Legacy.history := Cases.old_history;
                      Legacy.predictions := Cases.old_predictions |}))
          NetworkError
          (Legacy.openCoinModal RefHost.old
             (Response true
                (Some {| Legacy.history := Cases.old_history;
                         Legacy.predictions := Cases.old_predictions |}))
             NetworkError Cases.old_page))) = 2.
Proof.
  destruct (legacy_render_never_destroys RefHost.old
              {| Legacy.history := Cases.old_history;
                 Legacy.predictions := Cases.old_predictions |}
              {| Legacy.history := Cases.old_history;
                 Legacy.predictions := Cases.old_predictions |}
              NetworkError NetworkError Cases.old_page)
    as (c1 & _ & _ & Htwo & _).
  - reflexivity.
  - apply Htwo. reflexivity.
Defined.

(** ** The calendar *)

Module Calendar.

Local Open Scope Z_scope.

Lemma era_ok_from_spec (n : nat) (k : Z) :
  era_ok_from n k = true ->
  forall j, k <= j < k + Z.of_nat n -> era_ok j = true.
Proof.
  revert k. induction n as [|n IH]; intros k Hc j Hj; [lia|].
  simpl in Hc. apply andb_prop in Hc as [Hk Hrest].
  destruct (Z.eq_dec j k) as [->|Hne]; [exact Hk|].
  apply (IH (k + 1) Hrest). lia.
Qed.

Lemma era_checked : era_ok_from (Z.to_nat 146097) 0 = true.
Proof. vm_cast_no_check (eq_refl true). Qed.

Lemma era_ok_all (doe : Z) : 0 <= doe < 146097 -> era_ok doe = true.
Proof.
  intros Hd. apply (era_ok_from_spec (Z.to_nat 146097) 0 era_checked). lia.
Qed.

(** Moving by whole eras moves the year by 400 and nothing else. *)
Lemma civil_from_days_era (doe era : Z) :
  0 <= doe < 146097 ->
  Dates.civil_from_days (doe - 719468 + 146097 * era)
  = let '(y, m, d) := Dates.civil_from_days (doe - 719468) in
    (y + 400 * era, m, d).
Proof.
  intros Hd. unfold Dates.civil_from_days.
  replace (doe - 719468 + 146097 * era + 719468) with (doe + era * 146097) by lia.
  replace (doe - 719468 + 719468) with doe by lia.
  rewrite Z.div_add, Z.mod_add by lia.
  rewrite (Z.div_small doe 146097), (Z.mod_small doe 146097) by lia.
  cbv zeta.
  set (yoe := (doe - doe / 1460 + doe / 36524 - doe / 146096) / 365).
  set (doy := doe - (365 * yoe + yoe / 4 - yoe / 100)).
  set (mp := (5 * doy + 2) / 153).
  destruct (mp <? 10); destruct (_ <=? 2); f_equal; f_equal; lia.
Qed.

Lemma days_from_civil_era (y m d era : Z) :
  Dates.days_from_civil (y + 400 * era) m d
  = Dates.days_from_civil y m d + 146097 * era.
Proof.
  unfold Dates.days_from_civil.
  destruct (m <=? 2).
  - replace (y + 400 * era - 1) with (y - 1 + era * 400) by lia.
    rewrite Z.div_add, Z.mod_add by lia. lia.
  - replace (y + 400 * era) with (y + era * 400) by lia.
    rewrite Z.div_add, Z.mod_add by lia. lia.
Qed.

(** A day number converts to a date in the calendar, and back to itself. *)
Lemma civil_round_trip (z : Z) :
  let '(y, m, d) := Dates.civil_from_days z in
  Dates.days_from_civil y m d = z /\ 1 <= m <= 12 /\ 1 <= d <= 31.
Proof.
  pose proof (Z.div_mod (z + 719468) 146097 ltac:(lia)) as Hdm.
  pose proof (Z.mod_pos_bound (z + 719468) 146097 ltac:(lia)) as Hb.
  set (era := (z + 719468) / 146097) in *.
  set (doe := (z + 719468) mod 146097) in *.
  replace z with (doe - 719468 + 146097 * era) by lia.
  rewrite (civil_from_days_era doe era Hb).
  pose proof (era_ok_all doe Hb) as Hok. unfold era_ok in Hok.
  destruct (Dates.civil_from_days (doe - 719468)) as [[y m] d].
  rewrite days_from_civil_era.
  rewrite !andb_true_iff in Hok.
  destruct Hok as ((((H1 & H2) & H3) & H4) & H5).
  apply Z.eqb_eq in H1. apply Z.leb_le in H2, H3, H4, H5. lia.
Qed.

Lemma days_from_civil_day (y m d : Z) :
  Dates.days_from_civil y m d = Dates.days_from_civil y m 1 + d - 1.
Proof. unfold Dates.days_from_civil. lia. Qed.

(** Replacing the day of month by itself plus [i] moves the day number by
    [i]. *)
Lemma MakeDay_shift (t i : Z) :
  Dates.MakeDay (Dates.YearFromTime t) (Dates.MonthFromTime t)
    (Dates.DateFromTime t + i)
  = Dates.Day t + i.
Proof.
  unfold Dates.MakeDay, Dates.YearFromTime, Dates.MonthFromTime,
    Dates.DateFromTime.
  pose proof (civil_round_trip (Dates.Day t)) as Hr.
  destruct (Dates.civil_from_days (Dates.Day t)) as [[y m] d]. simpl.
  destruct Hr as (Hr & Hm & Hd).
  rewrite (Z.div_small (m - 1) 12), (Z.mod_small (m - 1) 12) by lia.
  replace (y + 0) with y by lia. replace (m - 1 + 1) with m by lia.
  rewrite (days_from_civil_day y m d) in Hr. lia.
Qed.

(** In a zone with one offset, [setDate(getDate() + i)] moves the time
    value by [i] days. *)
Lemma setDate_fixed (H : Host) (offset t i : Z) :
  fixedOffset H offset ->
  Dates.setDate H (Some t)
    (option_map (fun x => x + i) (Dates.getDate H (Some t)))
  = Dates.TimeClip (t + i * Dates.msPerDay).
Proof.
  intros Hf.
  unfold Dates.setDate, Dates.getDate, option_map, Dates.LocalTime, Dates.UTC.
  rewrite (Hf t true), (Hf _ false), MakeDay_shift. apply f_equal.
  unfold Dates.MakeDate, Dates.Day, Dates.TimeWithinDay.
  pose proof (Z.div_mod (t + offset) Dates.msPerDay) as Hdm.
  unfold Dates.msPerDay in *. lia.
Qed.

Lemma Day_shift (t i : Z) : Dates.Day (t + i * Dates.msPerDay) = Dates.Day t + i.
Proof. unfold Dates.Day, Dates.msPerDay. apply Z.div_add. lia. Qed.

End Calendar.

(** ** The label axis *)

Module Labels.

Lemma append_assoc (a b c : string) : ((a ++ b) ++ c = a ++ (b ++ c))%string.
Proof. induction a as [|x a IH]; [reflexivity|]. cbn. rewrite IH. reflexivity. Qed.

Lemma length_append (a b : string) :
  String.length (a ++ b) = String.length a + String.length b.
Proof. induction a as [|x a IH]; [reflexivity|]. cbn. rewrite IH. reflexivity. Qed.

Lemma substring_prefix (n : nat) (a b : string) :
  n <= String.length a ->
  String.substring 0 n (a ++ b) = String.substring 0 n a.
Proof.
  revert n. induction a as [|x a IH]; intros n Hn.
  - cbn in Hn. assert (n = 0) as -> by lia. destruct b; reflexivity.
  - destruct n as [|n]; [reflexivity|]. cbn in *. rewrite IH by lia. reflexivity.
Qed.

Lemma zeros_length (k : nat) : String.length (Dates.zeros k) = k.
Proof. induction k as [|k IH]; [reflexivity|]. cbn. rewrite IH. reflexivity. Qed.

Lemma pad_length (w : nat) (n : Z) : w <= String.length (Dates.pad w n).
Proof. unfold Dates.pad. rewrite length_append, zeros_length. lia. Qed.

Lemma isoYear_length (y : Z) : 4 <= String.length (Dates.isoYear y).
Proof.
  unfold Dates.isoYear.
  destruct ((0 <=? y)%Z && (y <=? 9999)%Z).
  - apply pad_length.
  - rewrite length_append. pose proof (pad_length 6 (Z.abs y)). lia.
Qed.

(** The label of a valid date is the label of its day. *)
Lemma isoDay_dayLabel (t : Z) : isoDay (Some t) = Some (dayLabel (Dates.Day t)).
Proof.
  unfold isoDay, Dates.toISOString, option_map, dayLabel, datePart,
    Dates.YearFromTime, Dates.MonthFromTime, Dates.DateFromTime.
  destruct (Dates.civil_from_days (Dates.Day t)) as [[y m] d].
  unfold fst, snd. replace (m - 1 + 1)%Z with m by lia.
  apply f_equal. unfold Dates.slice_0_10.
  rewrite <- (substring_prefix 10
                (Dates.isoYear y ++ "-" ++ Dates.pad 2 m ++ "-" ++ Dates.pad 2 d)
                ("T" ++ Dates.pad 2 (Dates.HourFromTime t) ++ ":"
                 ++ Dates.pad 2 (Dates.MinFromTime t) ++ ":"
                 ++ Dates.pad 2 (Dates.SecFromTime t) ++ "."
                 ++ Dates.pad 3 (Dates.msFromTime t) ++ "Z")).
  - rewrite !append_assoc. reflexivity.
  - rewrite !length_append.
    pose proof (isoYear_length y). pose proof (pad_length 2 m).
    pose proof (pad_length 2 d).
    change (String.length "-") with 1. lia.
Qed.

(** What the loop appends: one label per turn, after what was there. *)
Lemma pushFuture_some (H : Host) (d : Dates.Date) (turns : list nat)
    (acc l : list string) :
  pushFuture H d turns acc = Some l ->
  exists future,
    l = acc ++ future
    /\ map Some future = map (fun i => futureLabel H d (Z.of_nat i)) turns.
Proof.
  revert acc. induction turns as [|i rest IH]; intros acc.
  - intros [= <-]. exists []. rewrite app_nil_r. split; reflexivity.
  - cbn [pushFuture].
    destruct (futureLabel H d (Z.of_nat i)) as [x|] eqn:E; [|discriminate].
    intros Hp. destruct (IH _ Hp) as (future & -> & Hf).
    exists (x :: future). rewrite <- app_assoc. split; [reflexivity|].
    cbn [map]. rewrite E, Hf. reflexivity.
Qed.

(** The loop ends without a throw when every turn has a label. *)
Lemma pushFuture_total (H : Host) (d : Dates.Date) (turns : list nat)
    (acc : list string) :
  (forall i, In i turns -> futureLabel H d (Z.of_nat i) <> None) ->
  exists l, pushFuture H d turns acc = Some l.
Proof.
  revert acc. induction turns as [|i rest IH]; intros acc Hall.
  - exists acc. reflexivity.
  - cbn [pushFuture].
    destruct (futureLabel H d (Z.of_nat i)) as [x|] eqn:E.
    + apply IH. intros j Hj. apply Hall. right. exact Hj.
    + exfalso. apply (Hall i); [left; reflexivity|exact E].
Qed.

Lemma traverse_length {A B : Type} (f : A -> option B) (l : list A)
    (r : list B) :
  traverse f l = Some r -> List.length r = List.length l.
Proof.
  revert r. induction l as [|x l IH]; intros r.
  - intros [= <-]. reflexivity.
  - cbn [traverse]. destruct (f x); [|discriminate].
    destruct (traverse f l) as [ys|]; [|discriminate].
    intros [= <-]. cbn. rewrite (IH ys eq_refl). reflexivity.
Qed.

Lemma traverse_map_Some {A B : Type} (f : A -> option B) (l : list A)
    (r : list B) :
  traverse f l = Some r -> map Some r = map f l.
Proof.
  revert r. induction l as [|x l IH]; intros r.
  - intros [= <-]. reflexivity.
  - cbn [traverse]. destruct (f x) eqn:E; [|discriminate].
    destruct (traverse f l) as [ys|]; [|discriminate].
    intros [= <-]. cbn. rewrite E, (IH ys eq_refl). reflexivity.
Qed.

(** The history part: one point, one label and one price per price point
    of the response. *)
Lemma readHistory_lengths (ok : bool) (body : HistoryBody) (h : History) :
  readHistory (Response ok (Some body)) = Normal h ->
  let n := List.length (match prices body with Some l => l | None => [] end) in
  List.length (points h) = n
  /\ List.length (labelsHist h) = n
  /\ List.length (pricesHist h) = n.
Proof.
  unfold readHistory.
  destruct (traverse _ _) as [labels|] eqn:E; [|discriminate].
  intros [= <-]. cbn.
  apply traverse_length in E. rewrite !length_map in *. repeat split.
  exact E.
Qed.

(** The axis, whenever it is built: the history labels, then 365 labels,
    the [k]-th made by the turn [i = k + 1] of the loop. *)
Lemma buildLabels_shape (H : Host) (now : Z) (h : History) (l : list string) :
  buildLabels H now h = Some l ->
  exists future,
    l = labelsHist h ++ future
    /\ List.length future = 365
    /\ List.length l = List.length (labelsHist h) + 365
    /\ map Some future
       = map (fun i => futureLabel H (lastDateOf now (points h)) (Z.of_nat i))
           (seq 1 365).
Proof.
  unfold buildLabels. intros Hp.
  destruct (pushFuture_some _ _ _ _ _ Hp) as (future & -> & Hf).
  exists future.
  assert (List.length future = 365) as Hlen.
  { apply (f_equal (@List.length (option string))) in Hf.
    rewrite !length_map, length_seq in Hf. exact Hf. }
  repeat split; try assumption.
  rewrite length_app, Hlen. reflexivity.
Qed.

(** The padded history has the length of the axis. *)
Lemma padHistory_length (h : History) (l : list string) :
  List.length (pricesHist h) <= List.length l ->
  List.length (padHistory h l) = List.length l.
Proof.
  intros Hle. unfold padHistory. rewrite length_app, repeat_length. lia.
Qed.

End Labels.

(** ** The axis in a zone with one offset, and in one with summer time *)

Module Axis.

Lemma futureLabel_fixed (H : Host) (offset t i : Z) :
  fixedOffset H offset ->
  futureLabel H (Some t) i
  = match Dates.TimeClip (t + i * Dates.msPerDay) with
    | Some _ => Some (dayLabel (Dates.Day t + i))
    | None => None
    end.
Proof.
  intros Hf. unfold futureLabel, Dates.Date_copy.
  rewrite (Calendar.setDate_fixed H offset t i Hf).
  unfold Dates.TimeClip.
  destruct (Z.abs (t + i * Dates.msPerDay) <=? Dates.maxTimeValue)%Z.
  - rewrite Labels.isoDay_dayLabel, Calendar.Day_shift. reflexivity.
  - reflexivity.
Qed.

Lemma map_Some_inv {A B : Type} (f : A -> option B) (g : A -> B)
    (xs : list B) (l : list A) :
  (forall a, f a = None \/ f a = Some (g a)) ->
  map Some xs = map f l -> xs = map g l.
Proof.
  intros Hfg. revert xs. induction l as [|a l IH]; intros [|x xs]; cbn;
    try discriminate; [reflexivity|].
  intros [= Hx Hrest]. destruct (Hfg a) as [Hn|Hs]; [congruence|].
  rewrite Hs in Hx. injection Hx as ->. rewrite (IH xs Hrest). reflexivity.
Qed.

(** X14.  In a zone with one offset the 365 labels are the 365 days that follow
    the day of the last date, one after the other. *)
Lemma labels_consecutive_fixed_offset (H : Host) (offset now t : Z)
    (h : History) (l : list string) :
  fixedOffset H offset ->
  lastDateOf now (points h) = Some t ->
  buildLabels H now h = Some l ->
  l = labelsHist h
      ++ map (fun i => dayLabel (Dates.Day t + Z.of_nat i)) (seq 1 365).
Proof.
  intros Hf Hlast Hb.
  destruct (Labels.buildLabels_shape H now h l Hb) as (future & -> & _ & _ & Hm).
  apply f_equal. rewrite Hlast in Hm.
  apply (map_Some_inv
           (fun i => futureLabel H (Some t) (Z.of_nat i))
           (fun i => dayLabel (Dates.Day t + Z.of_nat i))); [|exact Hm].
  intros i. rewrite (futureLabel_fixed H offset t (Z.of_nat i) Hf).
  destruct (Dates.TimeClip _); [right|left]; reflexivity.
Qed.

(** The last history label is the label of the day the future labels
    count from. *)
Lemma last_history_label (ok : bool) (body : HistoryBody) (h : History)
    (now t : Z) :
  readHistory (Response ok (Some body)) = Normal h ->
  points h <> [] ->
  lastDateOf now (points h) = Some t ->
  exists before, labelsHist h = before ++ [dayLabel (Dates.Day t)].
Proof.
  unfold readHistory.
  destruct (traverse _ _) as [labels|] eqn:E; [|discriminate].
  intros [= <-]. cbn [points labelsHist].
  set (pts := map _ _) in *. intros Hne Hlast.
  apply Labels.traverse_map_Some in E.
  unfold lastDateOf, Dates.Date_copy in Hlast.
  apply (f_equal (@rev (option string))) in E. rewrite <- !map_rev in E.
  destruct (rev pts) as [|p rest] eqn:Hr.
  - exfalso. apply Hne. rewrite <- (rev_involutive pts), Hr. reflexivity.
  - cbn [map] in E. rewrite Hlast, Labels.isoDay_dayLabel in E.
    destruct (rev labels) as [|x r] eqn:Hl; [discriminate|].
    cbn [map] in E. injection E as Hx _.
    exists (rev r). rewrite <- (rev_involutive labels), Hl. cbn [rev].
    rewrite Hx. reflexivity.
Qed.

(** X15.  In a zone with one offset the axis is built whenever the last date
    and the day 365 days after it are dates the language can hold. *)
Lemma labels_total_fixed_offset (H : Host) (offset now t : Z) (h : History) :
  fixedOffset H offset ->
  lastDateOf now (points h) = Some t ->
  (- Dates.maxTimeValue <= t
   /\ t + 365 * Dates.msPerDay <= Dates.maxTimeValue)%Z ->
  exists l, buildLabels H now h = Some l.
Proof.
  intros Hf Hlast Hrange. unfold buildLabels. rewrite Hlast.
  apply Labels.pushFuture_total. intros i Hi.
  apply in_seq in Hi.
  rewrite (futureLabel_fixed H offset t (Z.of_nat i) Hf).
  unfold Dates.TimeClip.
  destruct (Z.abs (t + Z.of_nat i * Dates.msPerDay) <=? Dates.maxTimeValue)%Z
    eqn:E; [discriminate|].
  apply Z.leb_gt in E. unfold Dates.msPerDay, Dates.maxTimeValue in *. lia.
Qed.

(** An opening that gets both responses and builds its labels runs to its
    end and leaves its chart on the canvas; the chart carries the labels
    and a history series padded to their number. *)
Lemma opening_draws (H : Host) (catalog : list Coin) (now : Z) (a : ModalArgs)
    (hres : HttpResult HistoryBody) (pres : HttpResult Preds) (pg : Page)
    (h : History) (preds : Preds) (labels : list string) :
  one_chart (charts pg) ->
  modeQty (controls pg) <> None -> modeBudget (controls pg) <> None ->
  readHistory hres = Normal h ->
  readPredictions pres = Normal preds ->
  buildLabels H now h = Some labels ->
  exists c,
    priceChart (charts (openCoinModal H catalog now a hres pres pg)) = [c]
    /\ chart_labels c = labels
    /\ shown (modal (openCoinModal H catalog now a hres pres pg)) = true.
Proof.
  intros Ht Hq Hb Hh Hp Hl.
  rewrite (Fields.open_after_predictions H catalog now a hres pres pg h preds
             Hh Hp).
  destruct (ChartFacts.drawChart_completes H now a h preds labels
              (with_modal
                 (set_predictions H preds (set_header catalog a (modal pg)))
                 (with_modal (set_header catalog a (modal pg)) pg)))
    as (pg2 & Hrun & (c & Hc & _ & Hlab) & Hshown);
    try assumption.
  unfold run, try_catch. rewrite Hrun. cbn [snd].
  exists c. repeat split; assumption.
Qed.

End Axis.

(** X16.  The axis of every chart that an opening draws has the length of the
    history plus 365: the history labels, then 365 labels more; and in a
    zone with one offset (India, say) these are the 365 days after the day
    of the last date. *)
Lemma axis_length (H : Host) (catalog : list Coin) (now : Z) (a : ModalArgs)
    (ok : bool) (body : HistoryBody) (pres : HttpResult Preds) (pg : Page)
    (h : History) (preds : Preds) (labels : list string) :
  one_chart (charts pg) ->
  modeQty (controls pg) <> None -> modeBudget (controls pg) <> None ->
  readHistory (Response ok (Some body)) = Normal h ->
  readPredictions pres = Normal preds ->
  buildLabels H now h = Some labels ->
  exists c future,
    priceChart
      (charts (openCoinModal H catalog now a (Response ok (Some body)) pres pg))
    = [c]
    /\ chart_labels c = labelsHist h ++ future
    /\ List.length future = 365
    /\ List.length (chart_labels c)
       = List.length (match prices body with Some l => l | None => [] end) + 365.
Proof.
  intros Ht Hq Hb Hh Hp Hl.
  destruct (Axis.opening_draws H catalog now a _ pres pg h preds labels
              Ht Hq Hb Hh Hp Hl) as (c & Hc & Hlab & _).
  destruct (Labels.buildLabels_shape H now h labels Hl)
    as (future & Hshape & Hlen & Htotal & _).
  destruct (Labels.readHistory_lengths ok body h Hh) as (_ & Hn & _).
  exists c, future. rewrite Hlab. repeat split; try assumption.
  rewrite Htotal, Hn. reflexivity.
Qed.

(** C4.  The axis has the length the claim states ([axis_length]) and in
    a zone with one offset its 365 future labels are consecutive days
    ([Axis.labels_consecutive_fixed_offset]); but the loop moves the date
    in local time and prints it in UTC, and across a change to summer time
    two turns give the same label.  In London, with the last price point at
    2026-03-27T00:30:00Z, the turns i = 2 and i = 3 both give 2026-03-29,
    and 2026-10-25 is left out at the change back. *)
Theorem london_labels_repeat_a_day :
  let pg :=
    openCoinModal RefHost.london COINS Cases.now Cases.bitcoin
      (Response true (Some Cases.one_point))
      (Response true (Some Cases.predict_bitcoin)) Cases.home in
  map (fun c => firstn 5 (chart_labels c)) (priceChart (charts pg))
  = [ ["2026-03-27"; "2026-03-28"; "2026-03-29"; "2026-03-29"; "2026-03-30"] ]
  /\ map (fun c => List.length (chart_labels c)) (priceChart (charts pg))
     = [366]
  /\ map (fun c => existsb (String.eqb "2026-10-25") (chart_labels c))
       (priceChart (charts pg))
     = [false].
Proof. vm_compute. repeat split. Qed.

(** The same opening in India: the labels go on day by day. *)
Example india_labels_day_by_day :
  let pg :=
    openCoinModal RefHost.india COINS Cases.now Cases.bitcoin
      (Response true (Some Cases.one_point))
      (Response true (Some Cases.predict_bitcoin)) Cases.home in
  map (fun c => firstn 5 (chart_labels c)) (priceChart (charts pg))
  = [ ["2026-03-27"; "2026-03-28"; "2026-03-29"; "2026-03-30"; "2026-03-31"] ]
  /\ map (fun c => List.length (chart_labels c)) (priceChart (charts pg))
     = [366].
Proof. vm_compute. repeat split. Qed.

(** Without any price point the axis counts from the current time. *)
Example india_labels_without_history :
  let pg :=
    openCoinModal RefHost.india COINS Cases.now Cases.bitcoin
      (Response true (Some Cases.no_points))
      (Response true (Some Cases.predict_bitcoin)) Cases.home in
  map (fun c => firstn 2 (chart_labels c)) (priceChart (charts pg))
  = [ ["2026-11-04"; "2026-11-05"] ]
  /\ map (fun c => List.length (chart_labels c)) (priceChart (charts pg))
     = [365].
Proof. vm_compute. repeat split. Qed.

(** * Further properties of the scripts *)

(** ** The theme on a page load *)

Lemma flip_persists_witness :
  item_theme (localStorage (flipThemeToggle Cases.home)) = Some "dark"
  /\ dataTheme (flipThemeToggle Cases.home) = Some "dark"
  /\ dataTheme (load Cases.home (localStorage (flipThemeToggle Cases.home)))
     = Some "dark".
Proof.
  destruct (Theme.flip_persists Cases.home false eq_refl) as (H1 & H2 & H3).
  split; [exact H1|]. split; [exact H2|]. exact (proj1 (H3 Cases.home)).
Defined.

(** X2.  A page load applies whatever text is saved under ["theme"], be it one
    of the two themes or not, and the light theme when nothing or the empty
    text is saved; it writes that text back, checks the switch exactly for
    ["dark"], leaves the portfolio list alone, and running it once more
    changes nothing. *)
Theorem load_applies_saved_theme (served : Page) (ls : Storage) :
  dataTheme (load served ls) = Some (JS.or_string (item_theme ls) "light")
  /\ item_theme (localStorage (load served ls))
     = Some (JS.or_string (item_theme ls) "light")
  /\ item_portfolio (localStorage (load served ls)) = item_portfolio ls
  /\ (themeToggle (controls served) <> None ->
      themeToggle (controls (load served ls))
      = Some (String.eqb (JS.or_string (item_theme ls) "light") "dark"))
  /\ initTheme (load served ls) = load served ls.
Proof.
  assert (String.eqb (JS.or_string (item_theme ls) "light") "" = false) as Hne.
  { apply String.eqb_neq. unfold JS.or_string.
    destruct (item_theme ls) as [s|]; [|discriminate].
    destruct (String.eqb s "") eqn:Es; [discriminate|].
    apply String.eqb_neq. exact Es. }
  unfold load, initTheme. cbn.
  destruct (themeToggle (controls served)) as [b|] eqn:Et; cbn;
    rewrite ?Hne, ?Et; cbn; rewrite ?Hne; repeat split; congruence.
Qed.

(** ** One message for every call of [addToPortfolio] *)

Lemma toast_notices (msg : string) (pg : Page) :
  notices (notifier (toast msg pg))
  = notices (notifier pg)
    ++ [if appToast (notifier pg) then Toast msg else Alert msg].
Proof. unfold toast. destruct (appToast (notifier pg)); reflexivity. Qed.

(** X3.  Every call of [addToPortfolio] tells the user exactly one thing: one
    toast, or one alert on a page without the toast element, is added to
    what was shown before.  When the input is accepted the message names
    the coin and both inputs are emptied; the other controls stay. *)
Theorem add_always_notifies (H : Host) (symbol name : string)
    (currentPrice : JS.value) (pg : Page) :
  exists msg,
    notices (notifier (addToPortfolio H symbol name currentPrice pg))
    = notices (notifier pg)
      ++ [if appToast (notifier pg) then Toast msg else Alert msg]
    /\ ((forall m, readQuantity H currentPrice (controls pg) <> Rejected m) ->
        msg = (name ++ " (" ++ symbol ++ ") added to portfolio.")%string
        /\ controls (addToPortfolio H symbol name currentPrice pg)
           = clearInputs (controls pg))
    /\ ((exists m, readQuantity H currentPrice (controls pg) = Rejected m) ->
        controls (addToPortfolio H symbol name currentPrice pg) = controls pg).
Proof.
  unfold addToPortfolio.
  destruct (readQuantity H currentPrice (controls pg)) as [m|q|b p].
  - exists m. rewrite toast_notices, Adding.toast_controls.
    split; [reflexivity|]. split; [|reflexivity].
    intros Hok. exfalso. apply (Hok m). reflexivity.
  - exists (name ++ " (" ++ symbol ++ ") added to portfolio.")%string.
    rewrite Adding.save_controls. unfold savePortfolio.
    rewrite toast_notices. cbn. repeat split. intros [m Hm]. discriminate.
  - exists (name ++ " (" ++ symbol ++ ") added to portfolio.")%string.
    rewrite Adding.save_controls. unfold savePortfolio.
    rewrite toast_notices. cbn. repeat split. intros [m Hm]. discriminate.
Qed.

(** ** A second click without typing *)

Lemma cleared_is_rejected (H : Host) (currentPrice : JS.value) (c : Controls) :
  parseFloat H "0" = 0%float ->
  exists m, readQuantity H currentPrice (clearInputs c) = Rejected m.
Proof.
  intros Hzero. unfold readQuantity, enteredQty, enteredBudget, clearInputs.
  cbn [inputQty inputBudget].
  assert (forall x : option string,
            JS.or_string match x with Some _ => Some "" | None => None end "0"
            = "0") as Hor by (intros [x|]; reflexivity).
  rewrite !Hor, Hzero.
  assert (JS.truthy 0 = false) as Ht by reflexivity. rewrite Ht.
  destruct (quantityMode _); eexists; reflexivity.
Qed.

(** X4.  An accepted add empties the inputs, and an empty input reads as 0: the
    next call, for whatever coin and price, is rejected and writes nothing
    unless the user types again.  The host's [parseFloat] reads ["0"] as
    zero. *)
Theorem second_click_is_rejected (H : Host) (symbol name symbol' name' : string)
    (currentPrice currentPrice' : JS.value) (pg : Page) :
  parseFloat H "0" = 0%float ->
  (forall m, readQuantity H currentPrice (controls pg) <> Rejected m) ->
  localStorage
    (addToPortfolio H symbol' name' currentPrice'
       (addToPortfolio H symbol name currentPrice pg))
  = localStorage (addToPortfolio H symbol name currentPrice pg).
Proof.
  intros Hzero Hok.
  assert (controls (addToPortfolio H symbol name currentPrice pg)
          = clearInputs (controls pg)) as Hc.
  { unfold addToPortfolio.
    destruct (readQuantity H currentPrice (controls pg)) as [m|q|b p];
      [exfalso; apply (Hok m); reflexivity| |]; apply Adding.save_controls. }
  destruct (cleared_is_rejected H currentPrice' (controls pg) Hzero) as [m Hm].
  unfold addToPortfolio at 1. rewrite Hc, Hm.
  apply Adding.toast_localStorage.
Qed.

Lemma second_click_is_rejected_witness :
  portfolio
    (addToPortfolio RefHost.india "BTC" "Bitcoin" JS.Undefined
       (addToPortfolio RefHost.india "BTC" "Bitcoin" JS.Undefined
          (typeQty "1.5" Cases.home)))
  = [ {| entry_symbol := "BTC"; entry_name := "Bitcoin";
         entry_qty := Some 1.5%float |} ].
Proof.
  unfold portfolio.
  rewrite (second_click_is_rejected RefHost.india "BTC" "Bitcoin" "BTC" "Bitcoin"
             JS.Undefined JS.Undefined (typeQty "1.5" Cases.home)).
  - vm_compute. reflexivity.
  - vm_compute. reflexivity.
  - intros m. vm_compute. discriminate.
Defined.

(** ** Quantities in the storage *)

Module Quantities.

(** Adding to [+0] gives the number added, for every double that is not a
    zero itself. *)
Lemma zero_plus (q : float) : JS.truthy q = true -> (zero + q)%float = q.
Proof.
  intros Ht. apply Doubles.truthy_not_zero in Ht.
  rewrite <- (FloatAxioms.SF2Prim_Prim2SF (zero + q)).
  rewrite <- (FloatAxioms.SF2Prim_Prim2SF q) at 2.
  apply f_equal. rewrite FloatAxioms.add_spec.
  unfold is_zero in Ht. rewrite FloatAxioms.eqb_spec in Ht.
  unfold zero in *. rewrite Doubles.zero_spec in *.
  unfold SF64add, SFadd, SFeqb in *.
  destruct (Prim2SF q) as [s|s| |s m e]; try reflexivity.
  cbn in Ht. discriminate.
Qed.

Lemma persisted_finite (data : list Entry) :
  persisted data -> Forall (fun x => null_or_finite (entry_qty x)) data.
Proof.
  unfold persisted. induction data as [|x rest IH]; intros Hp; constructor.
  - cbn [stored map] in Hp. injection Hp as Hx _.
    apply (f_equal entry_qty) in Hx. cbn [entry_qty] in Hx.
    destruct (entry_qty x) as [q|]; [|exact I].
    exact (Json.number_some q q Hx).
  - apply IH. cbn [stored map] in Hp. injection Hp as _ Hrest. exact Hrest.
Qed.

End Quantities.

(** X5.  An entry whose quantity was persisted as [null] (a total that
    overflowed) counts as zero from then on: the next accepted quantity [q]
    for its symbol is stored as the new total, and what was counted before
    is gone. *)
Theorem null_quantity_counts_as_zero (H : Host) (symbol name : string)
    (currentPrice : JS.value) (pg : Page) (x : Entry) :
  entriesFor symbol (portfolio pg) = [x] ->
  entry_qty x = None ->
  quantityMode (controls pg) = true ->
  (0 <? enteredQty H (controls pg))%float = true ->
  entriesFor symbol (portfolio (addToPortfolio H symbol name currentPrice pg))
  = [ {| entry_symbol := entry_symbol x; entry_name := entry_name x;
         entry_qty := JS.json_number (enteredQty H (controls pg)) |} ].
Proof.
  intros Hx Hnull Hm Hq.
  unfold addToPortfolio. rewrite (Adding.read_entered H currentPrice _ Hm Hq).
  rewrite Adding.save_portfolio, Json.stored_entriesFor.
  unfold merge. fold (is_symbol symbol).
  destruct (findIndex (is_symbol symbol) (portfolio pg)) as [i|] eqn:E.
  - destruct (Merge.addQty_entriesFor symbol (enteredQty H (controls pg)) _ i E)
      as (y & rest & Hb & Ha).
    rewrite Hx in Hb. injection Hb as <- <-. rewrite Ha, Hnull.
    cbn [stored map entry_symbol entry_name entry_qty JS.plus].
    rewrite Quantities.zero_plus; [reflexivity|].
    apply (Doubles.checks_of_positive _ Hq).
  - apply Merge.findIndex_none in E. exfalso. apply E.
    apply (Events.entriesFor_in symbol (portfolio pg) x []). exact Hx.
Qed.

Lemma null_quantity_counts_as_zero_witness :
  entriesFor "BTC"
    (portfolio
       (addToPortfolio RefHost.india "BTC" "Bitcoin" JS.Undefined
          (typeQty "5"
             (addToPortfolio RefHost.india "BTC" "Bitcoin" JS.Undefined
                (typeQty "1e308"
                   (addToPortfolio RefHost.india "BTC" "Bitcoin" JS.Undefined
                      (typeQty "1e308" Cases.home)))))))
  = [ {| entry_symbol := "BTC"; entry_name := "Bitcoin";
         entry_qty := Some 5%float |} ].
Proof.
  refine (eq_trans
    (null_quantity_counts_as_zero RefHost.india "BTC" "Bitcoin" JS.Undefined
       (typeQty "5"
          (addToPortfolio RefHost.india "BTC" "Bitcoin" JS.Undefined
             (typeQty "1e308"
                (addToPortfolio RefHost.india "BTC" "Bitcoin" JS.Undefined
                   (typeQty "1e308" Cases.home)))))
       {| entry_symbol := "BTC"; entry_name := "Bitcoin"; entry_qty := None |}
       _ _ _ _) _); vm_compute; reflexivity.
Defined.

(** X6.  Starting from an empty storage, whatever the user does on the page,
    every quantity in the persisted list is [null] or a finite double:
    [NaN] and the infinities never reach the storage as numbers. *)
Theorem stored_quantities_finite (H : Host) (catalog : list Coin)
    (pg pg' : Page) (ps ps' : list Pending) :
  item_portfolio (localStorage pg) = None ->
  turns H catalog (pg, ps) (pg', ps') ->
  Forall (fun x => null_or_finite (entry_qty x)) (portfolio pg').
Proof.
  intros Hempty Ht. apply Quantities.persisted_finite.
  apply (Events.turns_persisted H catalog (pg, ps) (pg', ps') Ht).
  apply Events.empty_persisted. exact Hempty.
Qed.

Lemma stored_quantities_finite_witness :
  Forall (fun x => null_or_finite (entry_qty x))
    (portfolio (clickAddPortfolio RefHost.india
                  (typeQty "1e999" MoreCases.opened))).
Proof.
  apply (stored_quantities_finite RefHost.india COINS MoreCases.opened
           (clickAddPortfolio RefHost.india (typeQty "1e999" MoreCases.opened))
           [] []).
  - vm_compute. reflexivity.
  - refine (turns_more _ _ _ (typeQty "1e999" MoreCases.opened, []) _
              (turns_more _ _ _ _ _ (turns_none _ _ _) _) _).
    + exact (turn_type_qty RefHost.india COINS "1e999" MoreCases.opened []).
    + exact (turn_add RefHost.india COINS (typeQty "1e999" MoreCases.opened) []).
Defined.

Example infinite_quantity_is_stored_as_null :
  portfolio (clickAddPortfolio RefHost.india (typeQty "1e999" MoreCases.opened))
  = [ {| entry_symbol := "BTC"; entry_name := "Bitcoin"; entry_qty := None |} ].
Proof. vm_compute. reflexivity. Qed.

(** ** Openings of the modal: what a run leaves behind *)

Module Opening.

Lemma destroy_tidy (cs : Charts) :
  one_chart cs ->
  destroy cs = {| chart := chart cs; priceChart := [];
                  nextChartId := nextChartId cs |}.
Proof.
  destruct cs as [v l n]. unfold one_chart, destroy. cbn.
  intros [->|(c & -> & ->)]; cbn.
  - destruct v; reflexivity.
  - rewrite Nat.eqb_refl. reflexivity.
Qed.

(** The page after an opening that runs to its end.  The chart is kept by
    the configuration that the script hands to the library; how the library
    lays it out is no part of the page. *)
Lemma completed (H : Host) (catalog : list Coin) (now : Z) (a : ModalArgs)
    (hres : HttpResult HistoryBody) (pres : HttpResult Preds) (pg : Page)
    (h : History) (preds : Preds) (labels : list string) :
  one_chart (charts pg) ->
  modeQty (controls pg) <> None -> modeBudget (controls pg) <> None ->
  readHistory hres = Normal h ->
  readPredictions pres = Normal preds ->
  buildLabels H now h = Some labels ->
  openCoinModal H catalog now a hres pres pg
  = with_modal
      (set_shown
         (set_onchange
            (set_onclick a preds
               (set_predictions H preds (set_header catalog a (modal pg))))))
      (with_charts
         (chartsWith (charts pg) labels
            (chartDatasets (padHistory h labels) preds)) pg).
Proof.
  intros Ht Hq Hb Hh Hp Hl.
  rewrite (Fields.open_after_predictions H catalog now a hres pres pg h preds
             Hh Hp).
  unfold run, try_catch, drawChart, bind, lift, modify. rewrite Hl.
  unfold newChart, bindModeChange.
  cbn [charts with_charts with_modal controls].
  rewrite (destroy_tidy (charts pg) Ht).
  cbn [priceChart nextChartId chart charts with_charts with_modal controls
       modal app snd].
  destruct (modeQty (controls pg)); [|congruence].
  destruct (modeBudget (controls pg)); [|congruence].
  reflexivity.
Qed.

(** The page after the part of an opening that runs once its predictions
    have arrived, when it runs to its end. *)
Lemma arrived (H : Host) (now : Z) (a : ModalArgs) (h : History)
    (pres : HttpResult Preds) (pg : Page) (preds : Preds)
    (labels : list string) :
  one_chart (charts pg) ->
  modeQty (controls pg) <> None -> modeBudget (controls pg) <> None ->
  readPredictions pres = Normal preds ->
  buildLabels H now h = Some labels ->
  predictionsArrive H now a h pres pg
  = with_modal
      (set_shown
         (set_onchange
            (set_onclick a preds (set_predictions H preds (modal pg)))))
      (with_charts
         (chartsWith (charts pg) labels
            (chartDatasets (padHistory h labels) preds)) pg).
Proof.
  intros Ht Hq Hb Hp Hl.
  unfold predictionsArrive, showPredictions, run, try_catch, drawChart, bind,
    lift, modify.
  rewrite Hp, Hl.
  unfold newChart, bindModeChange.
  cbn [charts with_charts with_modal controls].
  rewrite (destroy_tidy (charts pg) Ht).
  cbn [priceChart nextChartId chart charts with_charts with_modal controls
       modal app snd].
  destruct (modeQty (controls pg)); [|congruence].
  destruct (modeBudget (controls pg)); [|congruence].
  reflexivity.
Qed.

(** The page after an opening that fails at one of its two requests. *)
Lemma failed (H : Host) (catalog : list Coin) (now : Z) (a : ModalArgs)
    (hres : HttpResult HistoryBody) (pres : HttpResult Preds) (pg : Page) :
  readHistory hres = Throw ->
  openCoinModal H catalog now a hres pres pg
  = toast "Failed to load coin details. Please try again."
      (console_error (with_modal (set_header catalog a (modal pg)) pg)).
Proof.
  intros Hh. rewrite ChartFacts.openCoinModal_turns, Hh. reflexivity.
Qed.

Lemma traverse_none {A B : Type} (f : A -> option B) (l : list A) (x : A) :
  In x l -> f x = None -> traverse f l = None.
Proof.
  induction l as [|y l IH]; intros Hin Hx; [contradiction|].
  cbn [traverse]. destruct Hin as [->|Hin].
  - rewrite Hx. reflexivity.
  - destruct (f y); [|reflexivity]. rewrite (IH Hin Hx). reflexivity.
Qed.

Lemma typeQty_modal (v : string) (pg : Page) : modal (typeQty v pg) = modal pg.
Proof. unfold typeQty. destruct (inputQty (controls pg)); reflexivity. Qed.

Lemma typeBudget_modal (v : string) (pg : Page) :
  modal (typeBudget v pg) = modal pg.
Proof. unfold typeBudget. destruct (inputBudget (controls pg)); reflexivity. Qed.

Lemma typeBudget_storage (v : string) (pg : Page) :
  localStorage (typeBudget v pg) = localStorage pg.
Proof. unfold typeBudget. destruct (inputBudget (controls pg)); reflexivity. Qed.

Lemma typeBudget_mode (v : string) (pg : Page) :
  quantityMode (controls (typeBudget v pg)) = quantityMode (controls pg).
Proof. unfold typeBudget. destruct (inputBudget (controls pg)); reflexivity. Qed.

End Opening.

(** X7.  When the history request fails (no network, a body that is not JSON,
    a timestamp that is no date), the opening ends with one notification
    and one line on the console.  The header already names the new coin;
    the four price fields, the chart, the handler of the add button, the
    storage and whether the modal is shown are as before, so on a modal
    that is still open the button keeps adding the coin of the opening
    before. *)
Theorem failed_history_only_notifies (H : Host) (catalog : list Coin) (now : Z)
    (a : ModalArgs) (hres : HttpResult HistoryBody) (pres : HttpResult Preds)
    (pg : Page) :
  readHistory hres = Throw ->
  modalName (modal (openCoinModal H catalog now a hres pres pg)) = arg_name a
  /\ modalSymbol (modal (openCoinModal H catalog now a hres pres pg))
     = arg_symbol a
  /\ same_fields pg (openCoinModal H catalog now a hres pres pg)
  /\ btnAddPortfolio (modal (openCoinModal H catalog now a hres pres pg))
     = btnAddPortfolio (modal pg)
  /\ shown (modal (openCoinModal H catalog now a hres pres pg))
     = shown (modal pg)
  /\ charts (openCoinModal H catalog now a hres pres pg) = charts pg
  /\ localStorage (openCoinModal H catalog now a hres pres pg) = localStorage pg
  /\ notices (notifier (openCoinModal H catalog now a hres pres pg))
     = notices (notifier pg)
       ++ [if appToast (notifier pg)
           then Toast "Failed to load coin details. Please try again."
           else Alert "Failed to load coin details. Please try again."]
  /\ consoleErrors (notifier (openCoinModal H catalog now a hres pres pg))
     = S (consoleErrors (notifier pg)).
Proof.
  intros Hh. rewrite (Opening.failed H catalog now a hres pres pg Hh).
  rewrite toast_notices, Adding.toast_modal, Adding.toast_charts,
    Adding.toast_localStorage.
  unfold same_fields. rewrite Adding.toast_modal.
  unfold toast. cbn. destruct (appToast (notifier pg)); cbn; repeat split.
Qed.

Lemma failed_history_only_notifies_witness :
  modalName
    (modal (openCoinModal RefHost.india COINS Cases.now Cases.ethereum
              NetworkError (Response true (Some Cases.predict_zero))
              MoreCases.opened)) = "Ethereum"
  /\ btnAddPortfolio
       (modal (openCoinModal RefHost.india COINS Cases.now Cases.ethereum
                 NetworkError (Response true (Some Cases.predict_zero))
                 MoreCases.opened))
     = Some ("BTC", "Bitcoin", JS.Num 5000000).
Proof.
  destruct (failed_history_only_notifies RefHost.india COINS Cases.now
              Cases.ethereum NetworkError
              (Response true (Some Cases.predict_zero)) MoreCases.opened
              eq_refl) as (Hn & _ & _ & Hb & _).
  split; [exact Hn|]. rewrite Hb. vm_compute. reflexivity.
Defined.

(** X8.  A price point whose timestamp lies outside the range of [Date]
    (beyond 8.64e15 milliseconds either way) makes [toISOString] throw: the
    opening fails before the second request, and no chart is drawn. *)
Theorem out_of_range_timestamp_fails (H : Host) (catalog : list Coin) (now : Z)
    (a : ModalArgs) (ok : bool) (raw : list (Z * JS.value))
    (pres : HttpResult Preds) (pg : Page) (p : Z * JS.value) :
  In p raw ->
  (Dates.maxTimeValue < Z.abs (fst p))%Z ->
  readHistory (Response ok (Some {| prices := Some raw |})) = Throw
  /\ charts (openCoinModal H catalog now a
               (Response ok (Some {| prices := Some raw |})) pres pg)
     = charts pg
  /\ List.length
       (notices (notifier
                   (openCoinModal H catalog now a
                      (Response ok (Some {| prices := Some raw |})) pres pg)))
     = S (List.length (notices (notifier pg))).
Proof.
  intros Hin Hbig.
  assert (readHistory (Response ok (Some {| prices := Some raw |})) = Throw)
    as Hthrow.
  { unfold readHistory. cbn [prices].
    rewrite (Opening.traverse_none (fun q => isoDay (fst q))
               (map (fun q => (Dates.Date_of_number (fst q), snd q)) raw)
               (Dates.Date_of_number (fst p), snd p)); [reflexivity| |].
    - apply (in_map (fun q => (Dates.Date_of_number (fst q), snd q))).
      exact Hin.
    - cbn [fst]. unfold Dates.Date_of_number, Dates.TimeClip.
      destruct (Z.abs (fst p) <=? Dates.maxTimeValue)%Z eqn:E;
        [|reflexivity].
      apply Z.leb_le in E. lia. }
  split; [exact Hthrow|].
  rewrite (Opening.failed H catalog now a _ pres pg Hthrow).
  rewrite toast_notices, Adding.toast_charts, length_app.
  cbn. split; [reflexivity|lia].
Qed.

Lemma out_of_range_timestamp_fails_witness :
  readHistory
    (Response true (Some {| prices := Some [ (8640000000000001%Z, JS.Num 1) ] |}))
  = Throw.
Proof.
  refine (proj1 (out_of_range_timestamp_fails RefHost.india COINS Cases.now
                   Cases.bitcoin true [ (8640000000000001%Z, JS.Num 1) ]
                   NetworkError Cases.home (8640000000000001%Z, JS.Num 1) _ _)).
  - left. reflexivity.
  - vm_compute. reflexivity.
Defined.

(** ** The chart of a completed opening *)

(** X9.  Of the four series of the chart only the history is padded: it is the
    history prices followed by 365 empty values, as long as the axis.  The
    three prediction series are handed to the chart as the response gave
    them (or empty when the response lacks them), from the first label
    on. *)
Theorem history_series_is_padded (H : Host) (catalog : list Coin) (now : Z)
    (a : ModalArgs) (ok : bool) (body : HistoryBody) (pres : HttpResult Preds)
    (pg : Page) (h : History) (preds : Preds) (labels : list string) :
  one_chart (charts pg) ->
  modeQty (controls pg) <> None -> modeBudget (controls pg) <> None ->
  readHistory (Response ok (Some body)) = Normal h ->
  readPredictions pres = Normal preds ->
  buildLabels H now h = Some labels ->
  exists c,
    priceChart
      (charts (openCoinModal H catalog now a (Response ok (Some body)) pres pg))
    = [c]
    /\ map ds_label (chart_datasets c)
       = [ "Historical (INR)"; "Pred 3M"; "Pred 6M"; "Pred 1Y" ]
    /\ map ds_data (chart_datasets c)
       = [ pricesHist h ++ repeat JS.Null 365;
           or_empty (series3m preds); or_empty (series6m preds);
           or_empty (series1y preds) ]
    /\ List.length (pricesHist h ++ repeat JS.Null 365)
       = List.length (chart_labels c)
    /\ pricesHist h
       = map snd (match prices body with Some l => l | None => [] end).
Proof.
  intros Ht Hq Hb Hh Hp Hl.
  rewrite (Opening.completed H catalog now a _ pres pg h preds labels
             Ht Hq Hb Hh Hp Hl).
  destruct (Labels.buildLabels_shape H now h labels Hl)
    as (future & _ & _ & Htotal & _).
  destruct (Labels.readHistory_lengths ok body h Hh) as (_ & Hn & Hm).
  cbn zeta in Hn, Hm.
  assert (padHistory h labels = pricesHist h ++ repeat JS.Null 365) as Hpad.
  { unfold padHistory.
    replace (List.length labels - List.length (pricesHist h)) with 365 by lia.
    reflexivity. }
  eexists. split; [reflexivity|].
  cbn [chart_datasets chart_labels chartDatasets map ds_label ds_data].
  rewrite Hpad. split; [reflexivity|]. split; [reflexivity|].
  split.
  - rewrite length_app, repeat_length. lia.
  - revert Hh. unfold readHistory.
    destruct (traverse _ _); [|discriminate].
    intros [= <-]. cbn [pricesHist]. rewrite map_map. reflexivity.
Qed.

Lemma history_series_is_padded_witness :
  exists c,
    priceChart (charts MoreCases.opened) = [c]
    /\ map ds_data (chart_datasets c)
       = [ [JS.Num 5000000] ++ repeat JS.Null 365; []; []; [] ].
Proof.
  destruct (history_series_is_padded RefHost.india COINS Cases.now
              Cases.bitcoin true Cases.one_point
              (Response true (Some Cases.predict_bitcoin)) Cases.home
              MoreCases.history_one Cases.predict_bitcoin
              MoreCases.india_labels)
    as (c & Hc & _ & Hd & _).
  - left. reflexivity.
  - discriminate.
  - discriminate.
  - vm_compute. reflexivity.
  - reflexivity.
  - vm_compute. reflexivity.
  - exists c. split; [exact Hc|exact Hd].
Defined.

(** X10.  When the prediction request is answered with an error status, the
    opening still runs to its end: the four fields show the dash, the three
    prediction series are empty, and the add button is bound to an unknown
    price, so that every add by budget is turned down and writes
    nothing. *)
Theorem unanswered_predictions_leave_dashes (H : Host) (catalog : list Coin)
    (now : Z) (a : ModalArgs) (hres : HttpResult HistoryBody)
    (body : option Preds) (pg : Page) (h : History) (labels : list string) :
  one_chart (charts pg) ->
  modeQty (controls pg) <> None -> modeBudget (controls pg) <> None ->
  readHistory hres = Normal h ->
  buildLabels H now h = Some labels ->
  let pg' := openCoinModal H catalog now a hres (Response false body) pg in
  shown (modal pg') = true
  /\ [ modalCurrent (modal pg'); pred3m (modal pg'); pred6m (modal pg');
       pred1y (modal pg') ] = [ "—"; "—"; "—"; "—" ]
  /\ btnAddPortfolio (modal pg')
     = Some (arg_symbol a, arg_name a, JS.Undefined)
  /\ (exists c,
        priceChart (charts pg') = [c]
        /\ map ds_data (tl (chart_datasets c)) = [ []; []; [] ])
  /\ (forall budget,
        localStorage
          (clickAddPortfolio H (typeBudget budget (pickMode false pg')))
        = localStorage pg).
Proof.
  intros Ht Hq Hb Hh Hl pg'. subst pg'.
  rewrite (Opening.completed H catalog now a hres (Response false body) pg h
             noPreds labels Ht Hq Hb Hh eq_refl Hl).
  split; [reflexivity|]. split; [reflexivity|]. split; [reflexivity|].
  split; [eexists; split; reflexivity|].
  intros budget.
  unfold clickAddPortfolio. rewrite Opening.typeBudget_modal.
  unfold pickMode.
  cbn [modal with_modal with_controls with_charts modeHandlers set_shown
       set_onchange].
  unfold modeChange.
  cbn [controls with_controls with_modal with_charts modeQty modeBudget].
  destruct (modeQty (controls pg)) as [q|]; [|congruence].
  destruct (modeBudget (controls pg)) as [b|]; [|congruence].
  cbn [modal with_modal with_controls with_charts btnAddPortfolio set_shown
       set_onchange set_onclick current_price noPreds].
  unfold addToPortfolio, readQuantity.
  rewrite Opening.typeBudget_mode.
  unfold quantityMode at 1.
  cbn [controls with_controls with_modal with_charts modeQty].
  cbn [JS.toBoolean negb]. rewrite Bool.orb_true_r.
  rewrite Adding.toast_localStorage, Opening.typeBudget_storage.
  reflexivity.
Qed.

Lemma unanswered_predictions_leave_dashes_witness :
  modalCurrent
    (modal (openCoinModal RefHost.india COINS Cases.now Cases.bitcoin
              (Response true (Some Cases.one_point)) (Response false None)
              Cases.home)) = "—"
  /\ localStorage
       (clickAddPortfolio RefHost.india
          (typeBudget "1000"
             (pickMode false
                (openCoinModal RefHost.india COINS Cases.now Cases.bitcoin
                   (Response true (Some Cases.one_point)) (Response false None)
                   Cases.home))))
     = localStorage Cases.home.
Proof.
  destruct (unanswered_predictions_leave_dashes RefHost.india COINS Cases.now
              Cases.bitcoin (Response true (Some Cases.one_point)) None
              Cases.home MoreCases.history_one MoreCases.india_labels)
    as (_ & Hf & _ & _ & Hclick).
  - left. reflexivity.
  - discriminate.
  - discriminate.
  - vm_compute. reflexivity.
  - vm_compute. reflexivity.
  - split; [congruence|]. exact (Hclick "1000").
Defined.

Module Interleaving.

Lemma fires_turn (H : Host) (catalog : list Coin) (e : Event) (b b' : Browser) :
  fires H catalog e b b' -> turn H catalog b b'.
Proof. intros F. destruct F; econstructor; eassumption. Qed.

Lemma two_pending (x y z : Pending) (ps1 ps2 : list Pending) :
  ps1 ++ z :: ps2 = [x; y] ->
  (ps1 = [] /\ z = x /\ ps2 = [y]) \/ (ps1 = [x] /\ z = y /\ ps2 = []).
Proof.
  destruct ps1 as [|p [|q ps1]]; cbn; intros E.
  - injection E as -> <-. left. repeat split.
  - injection E as -> -> <-. right. repeat split.
  - injection E as _ _ E. destruct ps1; discriminate.
Qed.

(** The page that the four events leave, whichever pending opening each
    of them is taken to belong to. *)
Lemma page_after (H : Host) (catalog : list Coin) (now : Z) (a b : ModalArgs)
    (hres : HttpResult HistoryBody) (pres : HttpResult Preds) (pg : Page)
    (h : History) (b1 b2 b3 b4 : Browser) :
  readHistory hres = Normal h ->
  fires H catalog (ClickCard a) (pg, []) b1 ->
  fires H catalog (ClickCard b) b1 b2 ->
  fires H catalog (HistoryArrives a hres) b2 b3 ->
  fires H catalog (PredictionsArrive now a pres) b3 b4 ->
  fst b4 = predictionsArrive H now a h pres
             (run (openHeader catalog b) (run (openHeader catalog a) pg)).
Proof.
  intros Hh F1 F2 F3 F4.
  inversion F1; subst. clear F1.
  inversion F2; subst. clear F2.
  cbn [app] in F3.
  inversion F3; subst; clear F3;
    [|match goal with
      | Hx : readHistory hres = Throw |- _ => rewrite Hh in Hx; discriminate
      end].
  match goal with
  | Hx : readHistory hres = Normal _ |- _ =>
      rewrite Hh in Hx; injection Hx as <-
  end.
  match goal with
  | E : _ ++ AwaitsHistory _ :: _ = _ |- _ =>
      destruct (two_pending _ _ _ _ _ E) as [(-> & _ & ->)|(-> & _ & ->)]
  end;
    cbn [app] in F4; inversion F4; subst; clear F4;
    match goal with
    | E : _ ++ AwaitsPredictions _ _ :: _ = _ |- _ =>
        destruct (two_pending _ _ _ _ _ E) as [(-> & Hx & ->)|(-> & Hx & ->)];
          try discriminate; injection Hx as <-; reflexivity
    end.
Qed.

End Interleaving.

(** X11.  Two openings in flight.  Take any run of the event loop in which
    a card is clicked, then another card, and then the history and the
    predictions of the first opening arrive while the second opening is
    still waiting.  The first opening runs to its end on the modal that
    already carries the header of the second coin: the modal is shown with
    the name and the symbol of the second coin, the price of the first, and
    a button that adds the first. *)
Theorem interleaved_openings_mix (H : Host) (catalog : list Coin) (now : Z)
    (a b : ModalArgs) (hres : HttpResult HistoryBody) (pres : HttpResult Preds)
    (pg : Page) (h : History) (preds : Preds) (labels : list string)
    (b1 b2 b3 b4 : Browser) :
  one_chart (charts pg) ->
  modeQty (controls pg) <> None -> modeBudget (controls pg) <> None ->
  readHistory hres = Normal h ->
  readPredictions pres = Normal preds ->
  buildLabels H now h = Some labels ->
  fires H catalog (ClickCard a) (pg, []) b1 ->
  fires H catalog (ClickCard b) b1 b2 ->
  fires H catalog (HistoryArrives a hres) b2 b3 ->
  fires H catalog (PredictionsArrive now a pres) b3 b4 ->
  turns H catalog (pg, []) b4
  /\ shown (modal (fst b4)) = true
  /\ modalName (modal (fst b4)) = arg_name b
  /\ modalSymbol (modal (fst b4)) = arg_symbol b
  /\ modalCurrent (modal (fst b4)) = priceOrDash H (current_price preds)
  /\ btnAddPortfolio (modal (fst b4))
     = Some (arg_symbol a, arg_name a, current_price preds).
Proof.
  intros Ht Hq Hb Hh Hp Hl F1 F2 F3 F4.
  split.
  - apply (turns_more H catalog _ b3);
      [|exact (Interleaving.fires_turn H catalog _ _ _ F4)].
    apply (turns_more H catalog _ b2);
      [|exact (Interleaving.fires_turn H catalog _ _ _ F3)].
    apply (turns_more H catalog _ b1);
      [|exact (Interleaving.fires_turn H catalog _ _ _ F2)].
    apply (turns_more H catalog _ (pg, []));
      [apply turns_none|exact (Interleaving.fires_turn H catalog _ _ _ F1)].
  - rewrite (Interleaving.page_after H catalog now a b hres pres pg h
               b1 b2 b3 b4 Hh F1 F2 F3 F4).
    rewrite (Opening.arrived H now a h pres
               (run (openHeader catalog b) (run (openHeader catalog a) pg))
               preds labels Ht Hq Hb Hp Hl).
    repeat split.
Qed.

Lemma interleaved_openings_mix_witness :
  modalName
    (modal
       (predictionsArrive RefHost.india Cases.now Cases.bitcoin
          MoreCases.history_one (Response true (Some Cases.predict_bitcoin))
          (run (openHeader COINS Cases.ethereum)
             (run (openHeader COINS Cases.bitcoin) Cases.home))))
  = "Ethereum"
  /\ btnAddPortfolio
       (modal
          (predictionsArrive RefHost.india Cases.now Cases.bitcoin
             MoreCases.history_one (Response true (Some Cases.predict_bitcoin))
             (run (openHeader COINS Cases.ethereum)
                (run (openHeader COINS Cases.bitcoin) Cases.home))))
     = Some ("BTC", "Bitcoin", JS.Num 5000000).
Proof.
  destruct (interleaved_openings_mix RefHost.india COINS Cases.now
              Cases.bitcoin Cases.ethereum
              (Response true (Some Cases.one_point))
              (Response true (Some Cases.predict_bitcoin)) Cases.home
              MoreCases.history_one Cases.predict_bitcoin
              MoreCases.india_labels
              (run (openHeader COINS Cases.bitcoin) Cases.home,
               [AwaitsHistory Cases.bitcoin])
              (run (openHeader COINS Cases.ethereum)
                 (run (openHeader COINS Cases.bitcoin) Cases.home),
               [AwaitsHistory Cases.bitcoin; AwaitsHistory Cases.ethereum])
              (run (openHeader COINS Cases.ethereum)
                 (run (openHeader COINS Cases.bitcoin) Cases.home),
               [AwaitsPredictions Cases.bitcoin MoreCases.history_one;
                AwaitsHistory Cases.ethereum])
              (predictionsArrive RefHost.india Cases.now Cases.bitcoin
                 MoreCases.history_one
                 (Response true (Some Cases.predict_bitcoin))
                 (run (openHeader COINS Cases.ethereum)
                    (run (openHeader COINS Cases.bitcoin) Cases.home)),
               [AwaitsHistory Cases.ethereum]))
    as (_ & _ & Hn & _ & _ & Hbtn).
  - left. reflexivity.
  - discriminate.
  - discriminate.
  - vm_compute. reflexivity.
  - reflexivity.
  - vm_compute. reflexivity.
  - exact (fires_click RefHost.india COINS Cases.bitcoin Cases.home []).
  - exact (fires_click RefHost.india COINS Cases.ethereum
             (run (openHeader COINS Cases.bitcoin) Cases.home)
             [AwaitsHistory Cases.bitcoin]).
  - apply (fires_history RefHost.india COINS Cases.bitcoin
             (Response true (Some Cases.one_point)) MoreCases.history_one
             (run (openHeader COINS Cases.ethereum)
                (run (openHeader COINS Cases.bitcoin) Cases.home))
             [] [AwaitsHistory Cases.ethereum]).
    vm_compute. reflexivity.
  - exact (fires_predictions RefHost.india COINS Cases.now Cases.bitcoin
             MoreCases.history_one
             (Response true (Some Cases.predict_bitcoin))
             (run (openHeader COINS Cases.ethereum)
                (run (openHeader COINS Cases.bitcoin) Cases.home))
             [] [AwaitsHistory Cases.ethereum]).
  - split; [exact Hn|exact Hbtn].
Defined.

(** X12.  After a completed opening the two radio buttons switch the input
    groups: the group of the chosen mode is the one displayed, and it is
    the mode that [addToPortfolio] reads. *)
Theorem mode_radio_shows_its_group (H : Host) (catalog : list Coin) (now : Z)
    (a : ModalArgs) (hres : HttpResult HistoryBody) (pres : HttpResult Preds)
    (pg : Page) (h : History) (preds : Preds) (labels : list string)
    (quantity : bool) :
  one_chart (charts pg) ->
  modeQty (controls pg) <> None -> modeBudget (controls pg) <> None ->
  readHistory hres = Normal h ->
  readPredictions pres = Normal preds ->
  buildLabels H now h = Some labels ->
  let pg' := pickMode quantity (openCoinModal H catalog now a hres pres pg) in
  qtyGroup (modal pg') = (if quantity then "" else "none")
  /\ budgetGroup (modal pg') = (if quantity then "none" else "")
  /\ quantityMode (controls pg') = quantity
  /\ btnAddPortfolio (modal pg')
     = Some (arg_symbol a, arg_name a, current_price preds).
Proof.
  intros Ht Hq Hb Hh Hp Hl pg'. subst pg'.
  rewrite (Opening.completed H catalog now a hres pres pg h preds labels
             Ht Hq Hb Hh Hp Hl).
  unfold pickMode.
  cbn [modal with_modal with_controls with_charts modeHandlers set_shown
       set_onchange].
  unfold modeChange, quantityMode.
  cbn [controls with_controls with_modal with_charts modeQty modeBudget].
  destruct (modeQty (controls pg)) as [q|]; [|congruence].
  destruct (modeBudget (controls pg)) as [b|]; [|congruence].
  destruct quantity; repeat split.
Qed.

Lemma mode_radio_shows_its_group_witness :
  qtyGroup (modal (pickMode false MoreCases.opened)) = "none"
  /\ budgetGroup (modal (pickMode false MoreCases.opened)) = ""
  /\ quantityMode (controls (pickMode false MoreCases.opened)) = false.
Proof.
  destruct (mode_radio_shows_its_group RefHost.india COINS Cases.now
              Cases.bitcoin (Response true (Some Cases.one_point))
              (Response true (Some Cases.predict_bitcoin)) Cases.home
              MoreCases.history_one Cases.predict_bitcoin
              MoreCases.india_labels false)
    as (H1 & H2 & H3 & _).
  - left. reflexivity.
  - discriminate.
  - discriminate.
  - vm_compute. reflexivity.
  - reflexivity.
  - vm_compute. reflexivity.
  - split; [exact H1|]. split; [exact H2|exact H3].
Defined.

(** ** Existing results at work *)

Lemma home_at_most_one_chart_witness :
  List.length
    (priceChart
       (charts
          (predictionsArrive RefHost.india Cases.now Cases.bitcoin
             MoreCases.history_one
             (Response true (Some Cases.predict_bitcoin))
             (run (openHeader COINS Cases.bitcoin) Cases.home)))) <= 1.
Proof.
  apply (home_at_most_one_chart RefHost.india COINS Cases.home
           (predictionsArrive RefHost.india Cases.now Cases.bitcoin
              MoreCases.history_one
              (Response true (Some Cases.predict_bitcoin))
              (run (openHeader COINS Cases.bitcoin) Cases.home))
           [] []).
  - reflexivity.
  - apply (turns_more RefHost.india COINS _
             (run (openHeader COINS Cases.bitcoin) Cases.home,
              [AwaitsPredictions Cases.bitcoin MoreCases.history_one])).
    + apply (turns_more RefHost.india COINS _
               (run (openHeader COINS Cases.bitcoin) Cases.home,
                [AwaitsHistory Cases.bitcoin])).
      * apply (turns_more RefHost.india COINS _ (Cases.home, []));
          [apply turns_none|].
        exact (turn_click_card RefHost.india COINS Cases.bitcoin Cases.home []).
      * apply (turn_history RefHost.india COINS Cases.bitcoin
                 (Response true (Some Cases.one_point)) MoreCases.history_one
                 (run (openHeader COINS Cases.bitcoin) Cases.home) [] []).
        vm_compute. reflexivity.
    + exact (turn_predictions RefHost.india COINS Cases.now Cases.bitcoin
               MoreCases.history_one
               (Response true (Some Cases.predict_bitcoin))
               (run (openHeader COINS Cases.bitcoin) Cases.home) [] []).
Defined.

Lemma labels_consecutive_fixed_offset_witness :
  MoreCases.india_labels
  = labelsHist MoreCases.history_one
    ++ map (fun i => dayLabel (Dates.Day 1774571400000 + Z.of_nat i))
         (seq 1 365).
Proof.
  apply (Axis.labels_consecutive_fixed_offset RefHost.india 19800000
           Cases.now 1774571400000 MoreCases.history_one
           MoreCases.india_labels).
  - intros t isUTC. reflexivity.
  - reflexivity.
  - vm_compute. reflexivity.
Defined.

Lemma labels_total_fixed_offset_witness :
  exists l, buildLabels RefHost.india Cases.now MoreCases.history_one = Some l.
Proof.
  apply (Axis.labels_total_fixed_offset RefHost.india 19800000 Cases.now
           1774571400000 MoreCases.history_one).
  - intros t isUTC. reflexivity.
  - reflexivity.
  - vm_compute. split; discriminate.
Defined.

Lemma axis_length_witness :
  exists c future,
    priceChart (charts MoreCases.opened) = [c]
    /\ chart_labels c = [ "2026-03-27" ] ++ future
    /\ List.length future = 365.
Proof.
  destruct (axis_length RefHost.india COINS Cases.now Cases.bitcoin true
              Cases.one_point (Response true (Some Cases.predict_bitcoin))
              Cases.home MoreCases.history_one Cases.predict_bitcoin
              MoreCases.india_labels)
    as (c & future & Hc & Hl & Hn & _).
  - left. reflexivity.
  - discriminate.
  - discriminate.
  - vm_compute. reflexivity.
  - reflexivity.
  - vm_compute. reflexivity.
  - exists c, future. split; [exact Hc|]. split; [exact Hl|exact Hn].
Defined.

(** ** The grid *)

(** X17.  Rendering the grid again replaces its cards: the grid after two
    renderings is the grid of the second one alone, and a rendering
    touches nothing but the grid and the spinner. *)
Theorem renderGrid_replaces (H : Host) (catalog : list Coin)
    (res1 res2 : HttpResult Prices) (pg : Page) :
  renderGrid H catalog res2 (renderGrid H catalog res1 pg)
  = renderGrid H catalog res2 pg
  /\ renderGrid H catalog res1 pg
     = with_grid (grid (renderGrid H catalog res1 pg)) pg
  /\ (globalSpinner (grid pg) <> None -> coinGrid (grid pg) <> None ->
      globalSpinner (grid (renderGrid H catalog res1 pg)) = Some "none").
Proof.
  unfold renderGrid.
  destruct pg as [ls dt c n [cg sp] m cs]. cbn.
  destruct cg as [cards|]; cbn; [|repeat split; congruence].
  destruct sp; cbn; repeat split; congruence.
Qed.

Module Catalog.

Lemma find_symbol (catalog : list Coin) (c : Coin) :
  NoDup (map coin_symbol catalog) ->
  In c catalog ->
  find (fun c' => String.eqb (coin_symbol c') (coin_symbol c)) catalog = Some c.
Proof.
  induction catalog as [|x l IH]; intros Hnd Hin; [contradiction|].
  cbn [map] in Hnd. inversion Hnd as [|? ? Hx Hl]; subst.
  cbn [find]. destruct Hin as [->|Hin].
  - rewrite String.eqb_refl. reflexivity.
  - destruct (String.eqb (coin_symbol x) (coin_symbol c)) eqn:E.
    + apply String.eqb_eq in E. exfalso. apply Hx. rewrite E.
      apply in_map. exact Hin.
    + apply IH; assumption.
Qed.

Lemma or_empty_string (s : string) : JS.or_string (Some s) "" = s.
Proof.
  unfold JS.or_string. destruct (String.eqb s "") eqn:E; [|reflexivity].
  apply String.eqb_eq in E. congruence.
Qed.

End Catalog.

(** X18.  A click on a card of the rendered grid opens the modal for the
    coin of that card.  For a catalog and prices of plain texts, every
    element of the class [coin-card] that the markup of the grid denotes
    carries the symbol, the id and the name of one coin of the catalog in
    its data attributes; the click listener passes these on, and the header
    finds the logo of that coin by the symbol, provided no two coins share
    a symbol. *)
Theorem card_opens_its_coin (H : Host) (catalog : list Coin)
    (res : HttpResult Prices) (pg : Page) (innerHTML : string)
    (els : list HTML.Node) (el : HTML.Node) (m : Modal) :
  NoDup (map coin_symbol catalog) ->
  coinGrid (grid pg) <> None ->
  forallb plainCoin catalog = true ->
  forallb (fun c => plain (priceOrDash H (livePrice res c))) catalog = true ->
  coinGrid (grid (renderGrid H catalog res pg)) = Some innerHTML ->
  coinCards innerHTML = Some els ->
  In el els ->
  exists c args,
    In c catalog
    /\ cardClick el = Some args
    /\ args = argsOf c
    /\ modalName (set_header catalog args m) = coin_name c
    /\ modalSymbol (set_header catalog args m) = coin_symbol c
    /\ modalLogo (set_header catalog args m) = coin_img c.
Proof.
  intros Hnd Hgrid Hc Hp Hhtml Hels Hin.
  destruct (Markup.rendered H catalog res pg Hgrid Hc Hp) as [Hhtml' Hels'].
  rewrite Hhtml' in Hhtml. injection Hhtml as <-.
  rewrite Hels' in Hels. injection Hels as <-.
  rewrite map_map in Hin. apply in_map_iff in Hin.
  destruct Hin as (c & <- & Hin).
  exists c, (argsOf c). split; [exact Hin|].
  split; [reflexivity|]. split; [reflexivity|].
  unfold set_header, argsOf.
  cbn [arg_symbol arg_name modalName modalSymbol modalLogo].
  rewrite (Catalog.find_symbol catalog c Hnd Hin). cbn [option_map].
  rewrite Catalog.or_empty_string. repeat split.
Qed.

Lemma card_opens_its_coin_witness :
  exists c args,
    In c COINS
    /\ cardClick
         (cardElement
            (coinCard RefHost.india
               {| coin_id := "bitcoin"; coin_symbol := "BTC";
                  coin_name := "Bitcoin";
                  coin_img := "/static/images/btc.png" |} JS.Null))
       = Some args
    /\ args = argsOf c.
Proof.
  destruct (card_opens_its_coin RefHost.india COINS NetworkError Cases.home
              (join ""
                 (map (fun c => coinCardTemplate RefHost.india c JS.Null)
                    COINS))
              (map (fun c => cardElement (coinCard RefHost.india c JS.Null))
                 COINS)
              (cardElement
                 (coinCard RefHost.india
                    {| coin_id := "bitcoin"; coin_symbol := "BTC";
                       coin_name := "Bitcoin";
                       coin_img := "/static/images/btc.png" |} JS.Null))
              (modal Cases.home))
    as (c & args & Hc & Hclick & Hargs & _).
  - assert (nodup string_dec (map coin_symbol COINS) = map coin_symbol COINS)
      as E by (vm_compute; reflexivity).
    rewrite <- E. apply NoDup_nodup.
  - discriminate.
  - vm_compute. reflexivity.
  - vm_compute. reflexivity.
  - vm_compute. reflexivity.
  - vm_compute. reflexivity.
  - left. reflexivity.
  - exists c, args. split; [exact Hc|]. split; [exact Hclick|exact Hargs].
Defined.

(** ** The older modal and its chart *)

Module Pairs.

Lemma combine_app {A B : Type} (a b : list A) (c d : list B) :
  List.length a = List.length c ->
  combine (a ++ b) (c ++ d) = combine a c ++ combine b d.
Proof.
  revert c. induction a as [|x a IH]; intros [|y c] Hlen; try discriminate.
  - reflexivity.
  - cbn. rewrite IH; [reflexivity|]. cbn in Hlen. lia.
Qed.

Lemma combine_prefix {A B : Type} (a b : list A) (c : list B) :
  List.length a = List.length c -> combine (a ++ b) c = combine a c.
Proof.
  intros Hlen. rewrite <- (app_nil_r c) at 1.
  rewrite (combine_app a b c [] Hlen), combine_nil, app_nil_r. reflexivity.
Qed.

Lemma combine_maps {A B C : Type} (f : C -> A) (g : C -> B) (l : list C) :
  combine (map f l) (map g l) = map (fun x => (f x, g x)) l.
Proof. induction l as [|x l IH]; cbn; [|rewrite IH]; reflexivity. Qed.

Lemma combine_nulls {A C : Type} (f : C -> A) (l : list C) :
  combine (map f l) (repeat JS.Null (List.length l))
  = map (fun x => (f x, JS.Null)) l.
Proof. induction l as [|x l IH]; cbn; [|rewrite IH]; reflexivity. Qed.

End Pairs.

(** X20.  In the chart of [renderChart] every value sits under its own date.
    Paired with the labels, the history series gives the history points;
    each prediction series gives empty values under the dates before its
    own and then its points under their dates; the one-year series is as
    long as the axis. *)
Theorem legacy_values_under_their_dates (H : Host)
    (history : list Legacy.HistoryPoint) (preds : Legacy.Predictions)
    (pg pg' : Legacy.Page) :
  Legacy.renderChart H history preds pg = Some pg' ->
  exists c d0 d3 d6 d1,
    Legacy.coin_chart pg' = Legacy.coin_chart pg ++ [c]
    /\ map ds_data (chart_datasets c) = [d0; d3; d6; d1]
    /\ combine (chart_labels c) d0
       = map (fun h => (Legacy.date h, Legacy.price h)) history
    /\ combine (chart_labels c) d3
       = map (fun h => (Legacy.date h, JS.Null)) history
         ++ map (fun p => (Legacy.pdate p, Legacy.predicted p))
              (Legacy.p3m preds)
    /\ combine (chart_labels c) d6
       = map (fun h => (Legacy.date h, JS.Null)) history
         ++ map (fun p => (Legacy.pdate p, JS.Null)) (Legacy.p3m preds)
         ++ map (fun p => (Legacy.pdate p, Legacy.predicted p))
              (Legacy.p6m preds)
    /\ combine (chart_labels c) d1
       = map (fun h => (Legacy.date h, JS.Null)) history
         ++ map (fun p => (Legacy.pdate p, JS.Null)) (Legacy.p3m preds)
         ++ map (fun p => (Legacy.pdate p, JS.Null)) (Legacy.p6m preds)
         ++ map (fun p => (Legacy.pdate p, Legacy.predicted p))
              (Legacy.p1y preds)
    /\ List.length d1 = List.length (chart_labels c).
Proof.
  intros Hr.
  assert (Legacy.coin_chart pg'
          = Legacy.coin_chart pg
            ++ [Legacy.chartOf (Legacy.nextChartId pg) history preds]) as Hc.
  { revert Hr. unfold Legacy.renderChart.
    destruct (Legacy.coin_chart pg); [|destruct (chartRefusesBusyCanvas H)];
      try discriminate; intros [= <-]; reflexivity. }
  eexists _, _, _, _, _. split; [exact Hc|].
  unfold Legacy.chartOf, Legacy.nulls.
  cbn [chart_datasets chart_labels map ds_data].
  split; [reflexivity|].
  rewrite !length_map, !repeat_app, <- !app_assoc.
  split; [|split; [|split; [|split]]].
  - rewrite Pairs.combine_prefix by (rewrite !length_map; reflexivity).
    apply Pairs.combine_maps.
  - rewrite Pairs.combine_app by (rewrite length_map, repeat_length; reflexivity).
    rewrite Pairs.combine_nulls.
    rewrite Pairs.combine_prefix by (rewrite !length_map; reflexivity).
    rewrite Pairs.combine_maps. reflexivity.
  - rewrite Pairs.combine_app by (rewrite length_map, repeat_length; reflexivity).
    rewrite Pairs.combine_app by (rewrite length_map, repeat_length; reflexivity).
    rewrite !Pairs.combine_nulls.
    rewrite Pairs.combine_prefix by (rewrite !length_map; reflexivity).
    rewrite Pairs.combine_maps. reflexivity.
  - rewrite Pairs.combine_app by (rewrite length_map, repeat_length; reflexivity).
    rewrite Pairs.combine_app by (rewrite length_map, repeat_length; reflexivity).
    rewrite Pairs.combine_app by (rewrite length_map, repeat_length; reflexivity).
    rewrite !Pairs.combine_nulls, Pairs.combine_maps. reflexivity.
  - rewrite !length_app, !repeat_length, !length_map. reflexivity.
Qed.

Lemma legacy_values_under_their_dates_witness :
  exists c d0 d3 d6 d1,
    map ds_data (chart_datasets c) = [d0; d3; d6; d1]
    /\ combine (chart_labels c) d3
       = [ ("2026-03-26", JS.Null); ("2026-03-27", JS.Null);
           ("2026-06-27", JS.Num 5200000) ].
Proof.
  destruct (legacy_values_under_their_dates RefHost.india Cases.old_history
              Cases.old_predictions Cases.old_page
              {| Legacy.localStorage := Legacy.localStorage Cases.old_page;
                 Legacy.dataTheme := None; Legacy.dark_mode := false;
                 Legacy.flip := false; Legacy.display := "none";
                 Legacy.coin_chart :=
                   [Legacy.chartOf 0 Cases.old_history Cases.old_predictions];
                 Legacy.nextChartId := 1;
                 Legacy.coin_description := None |} eq_refl)
    as (c & d0 & d3 & d6 & d1 & _ & Hd & _ & H3 & _).
  exists c, d0, d3, d6, d1. split; [exact Hd|exact H3].
Defined.

(** X21.  An opening of the older modal whose chart is not drawn (the request
    failed or its body was no JSON, or the canvas still carries a chart and
    the chart library refuses a busy canvas) still flips and displays the
    modal: it shows the chart and the description that were there, and
    nothing tells the user. *)
Theorem legacy_failed_opening_shows_old_content (H : Host)
    (res : HttpResult Legacy.PredictBody)
    (details : HttpResult Legacy.CoinDetails) (pg : Legacy.Page) :
  (forall ok data, res <> Response ok (Some data))
  \/ (chartRefusesBusyCanvas H = true /\ Legacy.coin_chart pg <> []) ->
  Legacy.flip (Legacy.openCoinModal H res details pg) = true
  /\ Legacy.display (Legacy.openCoinModal H res details pg) = "block"
  /\ Legacy.coin_chart (Legacy.openCoinModal H res details pg)
     = Legacy.coin_chart pg
  /\ Legacy.coin_description (Legacy.openCoinModal H res details pg)
     = Legacy.coin_description pg.
Proof.
  intros [Hres|[Hbusy Hchart]]; unfold Legacy.openCoinModal.
  - destruct res as [|ok [data|]]; try (repeat split; fail).
    exfalso. exact (Hres ok data eq_refl).
  - destruct res as [|ok [data|]]; try (repeat split; fail).
    unfold Legacy.renderChart. cbn [Legacy.coin_chart].
    rewrite Hbusy. destruct (Legacy.coin_chart pg); [congruence|].
    repeat split.
Qed.

Lemma legacy_failed_opening_shows_old_content_witness :
  Legacy.display
    (Legacy.openCoinModal RefHost.india NetworkError NetworkError
       Cases.old_page) = "block"
  /\ Legacy.coin_chart
       (Legacy.openCoinModal RefHost.india NetworkError NetworkError
          Cases.old_page) = [].
Proof.
  destruct (legacy_failed_opening_shows_old_content RefHost.india NetworkError
              NetworkError Cases.old_page) as (_ & Hd & Hc & _).
  - left. intros ok data. discriminate.
  - split; [exact Hd|exact Hc].
Defined.

(** ** The coin list of the older page *)

(** X22.  The coin list grows by one [div] for each coin of the response up to
    the first coin without a price; that coin and all the coins after it
    are left out, whatever their prices.  What the container held stays in
    front. *)
Theorem coins_listed_up_to_first_unpriced (toFixed2 : float -> string)
    (ok : bool) (data : list Older.CoinItem) (children : list Older.CoinDiv) :
  exists divs,
    Older.listCoins toFixed2 (Response ok (Some data)) children
    = children ++ divs
    /\ map (Older.coinDiv toFixed2) (priced data) = map Some divs
    /\ map Older.div_opens divs = map Older.item_id (priced data).
Proof.
  unfold Older.listCoins. revert children.
  induction data as [|coin rest IH]; intros children.
  - exists []. cbn. rewrite app_nil_r. repeat split.
  - cbn [Older.appendCoins priced]. unfold has_price.
    unfold Older.coinDiv at 1, Older.dollars.
    destruct (Older.item_price coin) as [| |x| | | |] eqn:Ep;
      try (exists []; cbn; rewrite app_nil_r; repeat split; fail).
    destruct (IH (children
                    ++ [ {| Older.div_src := Older.item_image coin;
                            Older.div_alt := Older.item_name coin;
                            Older.div_symbol := Older.item_symbol coin;
                            Older.div_price := ("$" ++ toFixed2 x)%string;
                            Older.div_opens := Older.item_id coin |} ]))
      as (divs & Hd & Hm & Ho).
    eexists (_ :: divs). rewrite Hd, <- app_assoc. split; [reflexivity|].
    cbn [map]. unfold Older.coinDiv at 1, Older.dollars. rewrite Ep.
    rewrite Hm, Ho. split; reflexivity.
Qed.

Example coins_after_unpriced_are_left_out :
  map Older.div_price
    (Older.listCoins RefText.toFixed2 (Response true (Some MoreCases.coins)) [])
  = [ "$61234.50" ].
Proof. vm_compute. reflexivity. Qed.

(** ** The table of the older page *)

Module Tables.

Lemma lastOf_app {A : Type} (l : list A) (x : A) :
  Older.lastOf (l ++ [x]) = Some x.
Proof. unfold Older.lastOf. rewrite rev_unit. reflexivity. Qed.

Lemma fill_insert (texts : list string) (t : Older.Table) :
  Older.fillLastRow texts (Older.insertRow t)
  = {| Older.rows :=
         Older.rows t
         ++ [ {| Older.row_id := Older.nextRowId t; Older.cells := texts |} ];
       Older.nextRowId := S (Older.nextRowId t) |}.
Proof.
  unfold Older.fillLastRow, Older.insertRow. cbn [Older.rows Older.nextRowId].
  rewrite removelast_last, lastOf_app. reflexivity.
Qed.

Lemma filter_all {A : Type} (f : A -> bool) (l : list A) :
  (forall x, In x l -> f x = true) -> filter f l = l.
Proof.
  induction l as [|x l IH]; intros Hall; [reflexivity|].
  cbn. rewrite (Hall x (or_introl eq_refl)). rewrite IH; [reflexivity|].
  intros y Hy. apply Hall. right. exact Hy.
Qed.

Lemma keep_others (id : nat) (l : list Older.Row) :
  ~ In id (map Older.row_id l) ->
  filter (fun r => negb (Nat.eqb (Older.row_id r) id)) l = l.
Proof.
  intros Hn. apply filter_all. intros r Hr.
  destruct (Nat.eqb (Older.row_id r) id) eqn:E; [|reflexivity].
  apply Nat.eqb_eq in E. exfalso. apply Hn. rewrite <- E.
  apply in_map. exact Hr.
Qed.

End Tables.



(** X24.  When the last points are there but one of the four prices is no number
    ([null], or the field is missing), the row is inserted before the markup
    fails: the table is left with one more row, which has no cells and no
    remove button. *)
Theorem missing_price_leaves_empty_row (toFixed2 : float -> string)
    (toUpperCase : string -> string) (coinId quantity : string) (ok : bool)
    (data : Legacy.PredictBody) (t : Older.Table)
    (h : Legacy.HistoryPoint) (a b c : Legacy.PredictionPoint)
    (v : JS.value) :
  Older.lastOf (Legacy.history data) = Some h ->
  Older.lastOf (Legacy.p3m (Legacy.predictions data)) = Some a ->
  Older.lastOf (Legacy.p6m (Legacy.predictions data)) = Some b ->
  Older.lastOf (Legacy.p1y (Legacy.predictions data)) = Some c ->
  In v [ Legacy.price h; Legacy.predicted a; Legacy.predicted b;
         Legacy.predicted c ] ->
  (forall x, v <> JS.Num x) ->
  Older.addCoinToPortfolio toFixed2 toUpperCase coinId quantity
    (Response ok (Some data)) t
  = {| Older.rows :=
         Older.rows t
         ++ [ {| Older.row_id := Older.nextRowId t; Older.cells := [] |} ];
       Older.nextRowId := S (Older.nextRowId t) |}.
Proof.
  intros Hh Ha Hb Hc Hin Hv.
  unfold Older.addCoinToPortfolio. rewrite Hh, Ha, Hb, Hc.
  unfold Older.dollars.
  destruct (Legacy.price h) as [| |xp| | | |] eqn:Ep; try reflexivity.
  destruct (Legacy.predicted a) as [| |x3| | | |] eqn:E3; try reflexivity.
  destruct (Legacy.predicted b) as [| |x6| | | |] eqn:E6; try reflexivity.
  destruct (Legacy.predicted c) as [| |x1| | | |] eqn:E1; try reflexivity.
  exfalso. cbn in Hin.
  destruct Hin as [<-|[<-|[<-|[<-|[]]]]]; eapply Hv; reflexivity.
Qed.

Lemma missing_price_leaves_empty_row_witness :
  map Older.cells
    (Older.rows
       (Older.addCoinToPortfolio RefText.toFixed2 RefText.toUpperCase
          "bitcoin" "2"
          (Response true
             (Some {| Legacy.history :=
                        [ {| Legacy.date := "2026-03-27";
                             Legacy.price := JS.Null |} ];
                      Legacy.predictions := Cases.old_predictions |}))
          MoreCases.empty_table))
  = [ [] ].
Proof.
  rewrite (missing_price_leaves_empty_row RefText.toFixed2
             RefText.toUpperCase "bitcoin" "2" true
             {| Legacy.history :=
                  [ {| Legacy.date := "2026-03-27"; Legacy.price := JS.Null |} ];
                Legacy.predictions := Cases.old_predictions |}
             MoreCases.empty_table
             {| Legacy.date := "2026-03-27"; Legacy.price := JS.Null |}
             {| Legacy.pdate := "2026-06-27";
                Legacy.predicted := JS.Num 5200000 |}
             {| Legacy.pdate := "2026-09-27";
                Legacy.predicted := JS.Num 5400000 |}
             {| Legacy.pdate := "2027-03-27";
                Legacy.predicted := JS.Num 6000000 |}
             JS.Null eq_refl eq_refl eq_refl eq_refl).
  - reflexivity.
  - left. reflexivity.
  - intros x. discriminate.
Defined.

(** X25.  When the request fails, or the history or one of the three prediction
    lists of the response is empty, the table stays as it is. *)
Theorem empty_series_adds_no_row (toFixed2 : float -> string)
    (toUpperCase : string -> string) (coinId quantity : string)
    (res : HttpResult Legacy.PredictBody) (t : Older.Table) :
  (forall ok data,
     res = Response ok (Some data) ->
     Legacy.history data = []
     \/ Legacy.p3m (Legacy.predictions data) = []
     \/ Legacy.p6m (Legacy.predictions data) = []
     \/ Legacy.p1y (Legacy.predictions data) = []) ->
  Older.addCoinToPortfolio toFixed2 toUpperCase coinId quantity res t = t.
Proof.
  intros Hres. unfold Older.addCoinToPortfolio.
  destruct res as [|ok [data|]]; try reflexivity.
  destruct (Hres ok data eq_refl) as [E|[E|[E|E]]]; rewrite E; cbn.
  - reflexivity.
  - destruct (Older.lastOf (Legacy.history data)); reflexivity.
  - destruct (Older.lastOf (Legacy.history data)),
      (Older.lastOf (Legacy.p3m (Legacy.predictions data))); reflexivity.
  - destruct (Older.lastOf (Legacy.history data)),
      (Older.lastOf (Legacy.p3m (Legacy.predictions data))),
      (Older.lastOf (Legacy.p6m (Legacy.predictions data))); reflexivity.
Qed.

Lemma empty_series_adds_no_row_witness :
  Older.addCoinToPortfolio RefText.toFixed2 RefText.toUpperCase "bitcoin" "2"
    (Response true
       (Some {| Legacy.history := [];
                Legacy.predictions := Cases.old_predictions |}))
    MoreCases.empty_table
  = MoreCases.empty_table.
Proof.
  apply (empty_series_adds_no_row RefText.toFixed2 RefText.toUpperCase
           "bitcoin" "2").
  intros ok data [= _ <-]. left. reflexivity.
Defined.

(** X26.  [removeRow] takes out the row of its button when the user confirms,
    and nothing when the user declines; the other rows stay, in their
    order. *)
Theorem remove_takes_one_row (t : Older.Table) (before after : list Older.Row)
    (r : Older.Row) :
  numbered t ->
  Older.rows t = before ++ r :: after ->
  Older.rows (Older.removeRow true (Older.row_id r) t) = before ++ after
  /\ Older.removeRow false (Older.row_id r) t = t
  /\ numbered (Older.removeRow true (Older.row_id r) t).
Proof.
  intros [Hnd Hlt] Hrows.
  assert (Older.rows (Older.removeRow true (Older.row_id r) t)
          = before ++ after) as Hrem.
  { unfold Older.removeRow. cbn [Older.rows]. rewrite Hrows in *.
    rewrite map_app in Hnd. cbn [map] in Hnd.
    apply NoDup_remove_2 in Hnd.
    rewrite filter_app. cbn [filter]. rewrite Nat.eqb_refl. cbn [negb].
    rewrite !Tables.keep_others; [reflexivity| |];
      intros Hin; apply Hnd; apply in_or_app; [right|left]; exact Hin. }
  split; [exact Hrem|]. split; [reflexivity|].
  unfold numbered. rewrite Hrem.
  cbn [Older.removeRow Older.nextRowId]. rewrite Hrows in *.
  split.
  - rewrite map_app in *. cbn [map] in Hnd.
    apply NoDup_remove_1 in Hnd. exact Hnd.
  - apply Forall_app in Hlt. destruct Hlt as [Hb Ha].
    apply Forall_app. split; [exact Hb|].
    inversion Ha; assumption.
Qed.

Lemma remove_takes_one_row_witness :
  Older.rows
    (Older.removeRow true 1
       {| Older.rows :=
            [ {| Older.row_id := 0; Older.cells := ["BITCOIN"] |};
              {| Older.row_id := 1; Older.cells := ["ETHEREUM"] |};
              {| Older.row_id := 2; Older.cells := ["SOLANA"] |} ];
          Older.nextRowId := 3 |})
  = [ {| Older.row_id := 0; Older.cells := ["BITCOIN"] |} ]
    ++ [ {| Older.row_id := 2; Older.cells := ["SOLANA"] |} ].
Proof.
  refine (proj1 (remove_takes_one_row
                   {| Older.rows :=
                        [ {| Older.row_id := 0; Older.cells := ["BITCOIN"] |};
                          {| Older.row_id := 1; Older.cells := ["ETHEREUM"] |};
                          {| Older.row_id := 2; Older.cells := ["SOLANA"] |} ];
                      Older.nextRowId := 3 |}
                   [ {| Older.row_id := 0; Older.cells := ["BITCOIN"] |} ]
                   [ {| Older.row_id := 2; Older.cells := ["SOLANA"] |} ]
                   {| Older.row_id := 1; Older.cells := ["ETHEREUM"] |} _ _)).
  - split.
    + assert (nodup Nat.eq_dec [0; 1; 2] = [0; 1; 2]) as E by reflexivity.
      cbn [map Older.rows Older.row_id]. rewrite <- E. apply NoDup_nodup.
    + cbn [Older.rows]. repeat constructor.
  - reflexivity.
Defined.

(** X27.  Adding a coin and removing the new row gives back the rows of the
    table; and every add keeps the rows numbered apart. *)
Theorem remove_undoes_add (toFixed2 : float -> string)
    (toUpperCase : string -> string) (coinId quantity : string)
    (res : HttpResult Legacy.PredictBody) (t : Older.Table) :
  numbered t ->
  numbered (Older.addCoinToPortfolio toFixed2 toUpperCase coinId quantity res t)
  /\ Older.rows
       (Older.removeRow true (Older.nextRowId t)
          (Older.addCoinToPortfolio toFixed2 toUpperCase coinId quantity res t))
     = Older.rows t.
Proof.
  intros [Hnd Hlt].
  assert (~ In (Older.nextRowId t) (map Older.row_id (Older.rows t))) as Hfresh.
  { intros Hin. apply in_map_iff in Hin. destruct Hin as (r & Hid & Hr).
    rewrite Forall_forall in Hlt. specialize (Hlt r Hr). lia. }
  assert (forall texts,
            let t' := {| Older.rows :=
                           Older.rows t
                           ++ [ {| Older.row_id := Older.nextRowId t;
                                   Older.cells := texts |} ];
                         Older.nextRowId := S (Older.nextRowId t) |} in
            numbered t'
            /\ Older.rows (Older.removeRow true (Older.nextRowId t) t')
               = Older.rows t) as Hnew.
  { intros texts t'. subst t'. split.
    - split; cbn [Older.rows Older.nextRowId].
      + rewrite map_app. cbn [map Older.row_id].
        apply NoDup_rev in Hnd.
        rewrite <- (rev_involutive (map Older.row_id (Older.rows t) ++ _)).
        apply NoDup_rev. rewrite rev_unit. constructor; [|exact Hnd].
        rewrite <- in_rev. exact Hfresh.
      + apply Forall_app. split.
        * eapply Forall_impl; [|exact Hlt]. cbn. intros r Hr. lia.
        * constructor; [cbn; lia|constructor].
    - unfold Older.removeRow. cbn [Older.rows].
      rewrite filter_app. cbn [filter Older.row_id].
      rewrite Nat.eqb_refl. cbn [negb].
      rewrite Tables.keep_others by exact Hfresh. apply app_nil_r. }
  assert (numbered t
          /\ Older.rows (Older.removeRow true (Older.nextRowId t) t)
             = Older.rows t) as Hsame.
  { split; [split; assumption|].
    unfold Older.removeRow. cbn [Older.rows].
    apply Tables.keep_others. exact Hfresh. }
  unfold Older.addCoinToPortfolio.
  destruct res as [|ok [data|]]; try exact Hsame.
  destruct (Older.lastOf (Legacy.history data)); [|exact Hsame].
  destruct (Older.lastOf (Legacy.p3m (Legacy.predictions data)));
    [|exact Hsame].
  destruct (Older.lastOf (Legacy.p6m (Legacy.predictions data)));
    [|exact Hsame].
  destruct (Older.lastOf (Legacy.p1y (Legacy.predictions data)));
    [|exact Hsame].
  cbn zeta.
  destruct (Older.dollars toFixed2 _); [|exact (Hnew [])].
  destruct (Older.dollars toFixed2 _); [|exact (Hnew [])].
  destruct (Older.dollars toFixed2 _); [|exact (Hnew [])].
  destruct (Older.dollars toFixed2 _); [|exact (Hnew [])].
  rewrite Tables.fill_insert. apply Hnew.
Qed.

Lemma remove_undoes_add_witness :
  Older.rows
    (Older.removeRow true 0
       (Older.addCoinToPortfolio RefText.toFixed2 RefText.toUpperCase
          "bitcoin" "2" (Response true (Some MoreCases.predict_body))
          MoreCases.empty_table))
  = [].
Proof.
  refine (proj2 (remove_undoes_add RefText.toFixed2 RefText.toUpperCase
                   "bitcoin" "2" (Response true (Some MoreCases.predict_body))
                   MoreCases.empty_table _)).
  split; cbn; constructor.
Defined.

(** ** The catalog and the descriptions *)

(** X19.  The two tables of the script agree: no two coins of the catalog share
    a symbol or an id, and for every coin of the catalog the header of the
    modal finds the logo of that coin and a description under its symbol,
    never the dash. *)
Theorem every_coin_has_a_header (c : Coin) (m : Modal) :
  In c COINS ->
  modalLogo (set_header COINS (argsOf c) m) = coin_img c
  /\ modalLogo (set_header COINS (argsOf c) m) <> ""
  /\ lookup (coin_symbol c) ABOUT = Some (modalAbout (set_header COINS (argsOf c) m))
  /\ modalAbout (set_header COINS (argsOf c) m) <> "—"
  /\ NoDup (map coin_symbol COINS)
  /\ NoDup (map coin_id COINS).
Proof.
  intros Hin.
  assert (forall l : list string, nodup string_dec l = l -> NoDup l) as Hnd.
  { intros l E. rewrite <- E. apply NoDup_nodup. }
  assert (NoDup (map coin_symbol COINS)) as Hs
    by (apply Hnd; vm_compute; reflexivity).
  assert (NoDup (map coin_id COINS)) as Hi
    by (apply Hnd; vm_compute; reflexivity).
  unfold COINS in Hin. cbn [In] in Hin.
  repeat (destruct Hin as [<-|Hin];
          [vm_compute; repeat split; first [discriminate|assumption]|]).
  contradiction.
Qed.

Lemma every_coin_has_a_header_witness :
  modalLogo (set_header COINS Cases.bitcoin (modal Cases.home))
  = "/static/images/btc.png"
  /\ modalAbout (set_header COINS Cases.bitcoin (modal Cases.home)) <> "—".
Proof.
  destruct (every_coin_has_a_header
              {| coin_id := "bitcoin"; coin_symbol := "BTC";
                 coin_name := "Bitcoin";
                 coin_img := "/static/images/btc.png" |}
              (modal Cases.home)) as (Hl & _ & _ & Ha & _).
  - left. reflexivity.
  - split; [exact Hl|exact Ha].
Defined.
